(** * sape: M-Pesa statement pipeline (cleaner, categorizer, analyzer)

    A shallow embedding of the three core stages of the repository,
    [src/data/cleaner.py], [src/categorization/categorizer.py] and
    [src/analysis/analyzer.py], followed by the properties stated about them.

    Conventions of the embedding.
    - A Python [str] is a [string]; only ASCII text is modelled, so the
      character predicates below are Python's restricted to code points
      below 128.
    - A Python [dict] keyed by strings is a [gmap string _]; a list of YAML
      entries or of DataFrame columns, where order or repetition matters, is a
      Rocq list.
    - A pandas float column is a list of rationals [Q]; a missing value
      (NaN, None, NaT, <NA>) is [None] of an option type.
    - Exceptions are the constructors of [exn]; a function that may raise
      returns a [result]. *)

From Stdlib Require Import Ascii String List ZArith QArith Qabs Lia Lqa Bool Sorted Permutation.
From stdpp Require Import base option list sorting gmap strings.
Import ListNotations.

Local Open Scope stdpp_scope.

(** ** Python string primitives *)

Module Py.

Definition code (c : ascii) : N := N_of_ascii c.

Definition between (lo hi : N) (c : ascii) : bool :=
  (lo <=? code c)%N && (code c <=? hi)%N.

(** [str.isspace] and the regex class [\s] on ASCII: tab, line feed,
    vertical tab, form feed, carriage return, the four separators
    0x1c..0x1f, and the space. *)
Definition isspace (c : ascii) : bool := between 9 13 c || between 28 32 c.

Definition isdigit (c : ascii) : bool := between 48 57 c.
Definition isupper (c : ascii) : bool := between 65 90 c.
Definition islower (c : ascii) : bool := between 97 122 c.

Definition lower_char (c : ascii) : ascii :=
  if isupper c then ascii_of_N (code c + 32) else c.
Definition upper_char (c : ascii) : ascii :=
  if islower c then ascii_of_N (code c - 32) else c.

Definition chr_eqb (a b : ascii) : bool := Ascii.eqb a b.

Definition space : ascii := " "%char.
Definition newline : ascii := "010"%char.

Fixpoint smap (f : ascii -> ascii) (s : string) : string :=
  match s with
  | EmptyString => EmptyString
  | String c s' => String (f c) (smap f s')
  end.

(** [s.lower()] *)
Definition lower (s : string) : string := smap lower_char s.

(** [s.title()]: a cased character is upper-cased when the character
    before it is not cased, and lower-cased otherwise. *)
Fixpoint title_go (previous_is_cased : bool) (s : string) : string :=
  match s with
  | EmptyString => EmptyString
  | String c s' =>
      if islower c || isupper c
      then String (if previous_is_cased then lower_char c else upper_char c)
                  (title_go true s')
      else String c (title_go false s')
  end.
Definition title (s : string) : string := title_go false s.

(** [s.lstrip()], [s.rstrip()], [s.strip()] *)
Fixpoint lstrip (s : string) : string :=
  match s with
  | String c s' => if isspace c then lstrip s' else s
  | EmptyString => EmptyString
  end.
Fixpoint rstrip (s : string) : string :=
  match s with
  | EmptyString => EmptyString
  | String c s' =>
      match rstrip s' with
      | EmptyString => if isspace c then EmptyString else String c EmptyString
      | r => String c r
      end
  end.
Definition strip (s : string) : string := rstrip (lstrip s).

(** [s.startswith(p)] *)
Fixpoint startswith (s p : string) : bool :=
  match p, s with
  | EmptyString, _ => true
  | String a p', String b s' => chr_eqb a b && startswith s' p'
  | String _ _, EmptyString => false
  end.

(** [sub in s] *)
Fixpoint contains (sub s : string) : bool :=
  startswith s sub ||
  match s with
  | EmptyString => false
  | String _ s' => contains sub s'
  end.

(** [s.replace(c, "")] for a one-character [c] *)
Fixpoint remove_char (c : ascii) (s : string) : string :=
  match s with
  | EmptyString => EmptyString
  | String x s' => if chr_eqb x c then remove_char c s' else String x (remove_char c s')
  end.

(** [s.split(" ")]: every single space separates, empty pieces are kept. *)
Fixpoint split_space (s : string) : list string :=
  match s with
  | EmptyString => [EmptyString]
  | String c s' =>
      if chr_eqb c space then EmptyString :: split_space s'
      else match split_space s' with
           | w :: ws => String c w :: ws
           | [] => [String c EmptyString]
           end
  end.

(** [s.split(" ", 1)]: at most one cut, at the first space. *)
Fixpoint split_first_space (s : string) : list string :=
  match s with
  | EmptyString => [EmptyString]
  | String c s' =>
      if chr_eqb c space then [EmptyString; s']
      else match split_first_space s' with
           | w :: ws => String c w :: ws
           | [] => [String c EmptyString]
           end
  end.

(** [" ".join(words)] *)
Fixpoint join_space (words : list string) : string :=
  match words with
  | [] => EmptyString
  | [w] => w
  | w :: ws => w +:+ String space (join_space ws)
  end.

(** [re.sub(r"\s+", " ", s)]: every maximal run of whitespace becomes one
    space. *)
Fixpoint collapse_ws_go (in_run : bool) (s : string) : string :=
  match s with
  | EmptyString => EmptyString
  | String c s' =>
      if isspace c
      then if in_run then collapse_ws_go true s'
           else String space (collapse_ws_go true s')
      else String c (collapse_ws_go false s')
  end.
Definition collapse_ws (s : string) : string := collapse_ws_go false s.

(** truthiness of a string: non-empty *)
Definition nonempty (s : string) : bool :=
  match s with EmptyString => false | _ => true end.

Definition first_char (s : string) : option ascii :=
  match s with EmptyString => None | String c _ => Some c end.

Definition str_eqb (a b : string) : bool := String.eqb a b.

(** [x in xs] for a list of strings *)
Definition mem (x : string) (xs : list string) : bool :=
  existsb (str_eqb x) xs.

(** [s.split(c)] for a one-character separator [c]: every occurrence
    separates, empty pieces are kept. *)
Fixpoint split_char (c : ascii) (s : string) : list string :=
  match s with
  | EmptyString => [EmptyString]
  | String x s' =>
      if chr_eqb x c then EmptyString :: split_char c s'
      else match split_char c s' with
           | w :: ws => String x w :: ws
           | [] => [String x EmptyString]
           end
  end.

(** [re.sub(r"\s+", "", s)]: every whitespace character is removed. *)
Fixpoint remove_ws (s : string) : string :=
  match s with
  | EmptyString => EmptyString
  | String x s' => if isspace x then remove_ws s' else String x (remove_ws s')
  end.

End Py.

(** ** A backtracking matcher for the regular expressions of the sources

    The fragment of Python's [re] syntax that the three compiled patterns of
    the repository use: character classes, concatenation, alternation,
    greedy and lazy repetition of a character class, capturing groups, the
    one-character look-behind [(?<!c)] and look-ahead [(?=c)], and [$].
    [exec] explores the alternatives in the priority order of [re]
    (leftmost start, a greedy star longest first, a lazy star shortest
    first, the left branch of [|] first), with a continuation for what
    follows. *)

Module Regex.

Definition char_class := ascii -> bool.

Inductive regex : Type :=
| Eps
| Chr (p : char_class)
| Seq (r1 r2 : regex)
| Alt (r1 r2 : regex)
| Star (greedy : bool) (p : char_class)
| Group (n : nat) (r : regex)
| NotBehind (p : char_class)
| Ahead (p : char_class)
| Eol.

(** The subject string around the current position: the characters before
    it (nearest first) and the characters from it on. *)
Record cursor := Cursor { before : list ascii; after : list ascii }.

(** Captured groups, most recent first. *)
Definition captures := list (nat * string).
Definition cont := cursor -> captures -> option captures.

Definition orelse (a b : option captures) : option captures :=
  match a with Some m => Some m | None => b end.

Fixpoint star_greedy (p : char_class) (k : cont) (caps : captures)
    (pre suf : list ascii) {struct suf} : option captures :=
  match suf with
  | x :: suf' =>
      if p x
      then orelse (star_greedy p k caps (x :: pre) suf') (k (Cursor pre suf) caps)
      else k (Cursor pre suf) caps
  | [] => k (Cursor pre suf) caps
  end.

Fixpoint star_lazy (p : char_class) (k : cont) (caps : captures)
    (pre suf : list ascii) {struct suf} : option captures :=
  orelse (k (Cursor pre suf) caps)
    match suf with
    | x :: suf' => if p x then star_lazy p k caps (x :: pre) suf' else None
    | [] => None
    end.

(** The text consumed between two positions of one scan. *)
Definition consumed (from to : cursor) : string :=
  string_of_list_ascii
    (rev (take (length (before to) - length (before from)) (before to))).

Fixpoint exec (r : regex) (k : cont) (z : cursor) (caps : captures)
    : option captures :=
  match r with
  | Eps => k z caps
  | Chr p =>
      match after z with
      | x :: suf' => if p x then k (Cursor (x :: before z) suf') caps else None
      | [] => None
      end
  | Seq r1 r2 => exec r1 (exec r2 k) z caps
  | Alt r1 r2 => orelse (exec r1 k z caps) (exec r2 k z caps)
  | Star true p => star_greedy p k caps (before z) (after z)
  | Star false p => star_lazy p k caps (before z) (after z)
  | Group n r' => exec r' (fun z' caps' => k z' ((n, consumed z z') :: caps')) z caps
  | NotBehind p =>
      match before z with
      | x :: _ => if p x then None else k z caps
      | [] => k z caps
      end
  | Ahead p =>
      match after z with
      | x :: _ => if p x then k z caps else None
      | [] => None
      end
  | Eol =>
      match after z with
      | [] => k z caps
      | [x] => if Py.chr_eqb x Py.newline then k z caps else None
      | _ => None
      end
  end.

Definition accept : cont := fun _ caps => Some caps.

(** [pattern.search(s)]: the first start position with a match. *)
Fixpoint search_from (r : regex) (pre suf : list ascii) : option captures :=
  orelse (exec r accept (Cursor pre suf) [])
    match suf with
    | x :: suf' => search_from r (x :: pre) suf'
    | [] => None
    end.

Definition search (r : regex) (s : string) : option captures :=
  search_from r [] (list_ascii_of_string s).

(** [match.group(n)]; [None] when the group took no part in the match. *)
Fixpoint group (n : nat) (m : captures) : option string :=
  match m with
  | [] => None
  | (i, s) :: m' => if Nat.eqb i n then Some s else group n m'
  end.

(** Pattern syntax. *)
Definition dot : char_class := fun c => negb (Py.chr_eqb c Py.newline).
Definition ws : char_class := Py.isspace.
Definition non_ws : char_class := fun c => negb (Py.isspace c).
Definition only (c : ascii) : char_class := fun x => Py.chr_eqb x c.
Definition only_nocase (c : ascii) : char_class :=
  fun x => Py.chr_eqb (Py.lower_char x) (Py.lower_char c).

Definition plus (p : char_class) : regex := Seq (Chr p) (Star true p).

Fixpoint lit (s : string) : regex :=
  match s with
  | EmptyString => Eps
  | String c s' => Seq (Chr (only c)) (lit s')
  end.
Fixpoint lit_nocase (s : string) : regex :=
  match s with
  | EmptyString => Eps
  | String c s' => Seq (Chr (only_nocase c)) (lit_nocase s')
  end.

Fixpoint seq (rs : list regex) : regex :=
  match rs with
  | [] => Eps
  | [r] => r
  | r :: rs' => Seq r (seq rs')
  end.

End Regex.

(** ** Exceptions and results *)

Inductive exn : Type :=
| DataCleaningError (msg : string)   (* src/data/exceptions.py *)
| KeyError (key : string)            (* a column or key that is absent *)
| ValueError (msg : string)
| Unmodelled (what : string).
    (* pandas on a frame whose standardized labels repeat: not modelled.
       Whatever pandas does there, it is not a DataCleaningError, which only
       the two raise statements of cleaner.py produce. *)

Inductive result (A : Type) : Type :=
| Ok (a : A)
| Raise (e : exn).
Arguments Ok {A} a.
Arguments Raise {A} e.

Definition bind {A B} (r : result A) (f : A -> result B) : result B :=
  match r with
  | Ok a => f a
  | Raise e => Raise e
  end.

#[global] Instance result_bind : MBind result :=
  fun A B f r => bind r f.

(** ** src/data/cleaner.py *)

Module Cleaner.

(** A cell of the raw table: text, or one of the two missing values. *)
Inductive cell : Type := CNone | CNaN | CStr (s : string).

(** [pd.isnull] *)
Definition isnull (c : cell) : bool :=
  match c with CStr _ => false | _ => true end.

(** [.astype(str)] *)
Definition astype_str (c : cell) : string :=
  match c with CNone => "None" | CNaN => "nan" | CStr s => s end.

(** [.astype("string")]: missing values stay missing. *)
Definition astype_string (c : cell) : option string :=
  match c with CStr s => Some s | _ => None end.

(** A DataFrame, column by column: the length of its index and the
    labelled columns in order (labels may repeat). *)
Record DataFrame := mkDataFrame {
  nrows : nat;
  columns : list (string * list cell)
}.

Definition labels (df : DataFrame) : list string := map fst (columns df).

(** [df.empty]: some axis has length 0. *)
Definition empty (df : DataFrame) : bool :=
  Nat.eqb (nrows df) 0 || Nat.eqb (length (columns df)) 0.

Definition EXPECTED_COLUMNS : list string :=
  [ "Receiptno."; "ReceiptNo"; "CompletionTime"; "Details"; "PaidIn"; "Withdrawn" ].

(** The canonical transaction row that cleaning produces. *)
Record Transaction := mkTransaction {
  receiptno : option string;
  completiontime : option Z;
  details : string;
  paidin : Q;
  withdrawn : Q;
  type : string;
  entity : string;
  type_class : string;
  type_desc : string
}.

(** *** Column detection and duplicate labels (clean_data, first half) *)

(** [any(expected.lower().replace(" ", "") in df_columns ...)] with
    [df_columns = [str(col).strip() for col in df.columns]] *)
Definition has_expected_cols (df : DataFrame) : bool :=
  let df_columns := map Py.strip (labels df) in
  existsb (fun expected =>
             Py.mem (Py.remove_char Py.space (Py.lower expected)) df_columns)
          EXPECTED_COLUMNS.

(** [Index.duplicated()] (keep="first"): marks a label met before. *)
Fixpoint duplicated_first (seen : list string) (ls : list string) : list bool :=
  match ls with
  | [] => []
  | l :: ls' => Py.mem l seen :: duplicated_first (l :: seen) ls'
  end.

(** [Index.duplicated(keep="last")]: marks a label that comes again. *)
Fixpoint duplicated_last (ls : list string) : list bool :=
  match ls with
  | [] => []
  | l :: ls' => Py.mem l ls' :: duplicated_last ls'
  end.

(** [xs[mask]]: the entries whose mask bit is set. *)
Fixpoint select {A} (mask : list bool) (xs : list A) : list A :=
  match mask, xs with
  | b :: mask', x :: xs' => if b then x :: select mask' xs' else select mask' xs'
  | _, _ => []
  end.

(** [if df.columns.duplicated().any():
       df = df.loc[:, ~df.columns.duplicated(keep="last")]] *)
Definition drop_duplicate_columns (df : DataFrame) : DataFrame :=
  if existsb id (duplicated_first [] (labels df))
  then mkDataFrame (nrows df)
         (select (map negb (duplicated_last (labels df))) (columns df))
  else df.

(** *** _clean_column_values *)

Inductive lookup : Type := Absent | Unique (values : list cell) | Repeated.

(** [df[label]] *)
Definition column (label : string) (df : DataFrame) : lookup :=
  match List.filter (fun c => Py.str_eqb (fst c) label) (columns df) with
  | [] => Absent
  | [c] => Unique (snd c)
  | _ => Repeated
  end.

Definition get (label : string) (df : DataFrame) : result (list cell) :=
  match column label df with
  | Absent => Raise (KeyError label)
  | Unique v => Ok v
  | Repeated => Raise (Unmodelled "repeated column label")
  end.

(** [df.columns = df.columns.str.lower().str.strip()] *)
Definition standardize_labels (df : DataFrame) : DataFrame :=
  mkDataFrame (nrows df)
    (map (fun c => (Py.strip (Py.lower (fst c)), snd c)) (columns df)).

(** [df[mask]] on rows *)
Definition filter_rows (mask : list bool) (df : DataFrame) : DataFrame :=
  mkDataFrame (length (List.filter id mask))
    (map (fun c => (fst c, select mask (snd c))) (columns df)).

(** [df.rename(columns={old: new})] *)
Definition rename (old new : string) (df : DataFrame) : DataFrame :=
  mkDataFrame (nrows df)
    (map (fun c => (if Py.str_eqb (fst c) old then new else fst c, snd c))
         (columns df)).

(** [if old in df.columns: df = df.rename(columns={old: new})] *)
Definition rename_if_present (old new : string) (df : DataFrame) : DataFrame :=
  if Py.mem old (labels df) then rename old new df else df.

(** [list(set([col.lower().replace(".", "") for col in EXPECTED_COLUMNS]))];
    the iteration order of a Python set is not specified, the order of first
    occurrence is taken here. *)
Definition expected_cols_lower : list string :=
  remove_dups (map (fun col => Py.remove_char "."%char (Py.lower col)) EXPECTED_COLUMNS).

(** The replacement list of [.replace(["", "-", "N/A", "nan"], "0")] *)
Definition placeholders : list string := [ ""; "-"; "N/A"; "nan" ].

(** [.astype(str).str.replace(",", "").replace([...], "0")] *)
Definition amount_text (c : cell) : string :=
  let s := Py.remove_char ","%char (astype_str c) in
  if Py.mem s placeholders then "0" else s.

(** [.fillna(0)] *)
Definition fillna0 (x : option Q) : Q :=
  match x with Some q => q | None => 0%Q end.

(** The columns of a frame after type conversion. *)
Record typed_columns := mkTyped {
  col_receiptno : list (option string);
  col_completiontime : list (option Z);
  col_withdrawn : list Q;
  col_paidin : list Q;
  col_details : option (list string)
}.

(** *** split_details and split_type *)

(** The pattern compiled at line 36 of cleaner.py, piece by piece: group 1,
    lazily, any characters but a line feed; a position not preceded by a
    non-space character; spaces; a hyphen; spaces; one whitespace
    character; a position followed by a non-space character; group 2,
    greedily, any characters but a line feed. The pattern has no letter,
    so its IGNORECASE flag changes nothing. *)
Definition DETAILS_PATTERN : Regex.regex :=
  Regex.seq
    [ Regex.Group 1 (Regex.Star false Regex.dot);
      Regex.NotBehind Regex.non_ws;
      Regex.Star true (Regex.only Py.space);
      Regex.Chr (Regex.only "-"%char);
      Regex.Star true (Regex.only Py.space);
      Regex.Chr Regex.ws;
      Regex.Ahead Regex.non_ws;
      Regex.Group 2 (Regex.Star true Regex.dot) ].

Definition group_or_empty (n : nat) (m : Regex.captures) : string :=
  match Regex.group n m with Some s => s | None => "" end.

Definition split_details (details_text : string) : string * string :=
  match Regex.search DETAILS_PATTERN details_text with
  | Some m => (Py.strip (group_or_empty 1 m), Py.strip (group_or_empty 2 m))
  | None => (details_text, details_text)
  end.

(** [pd.isna] of a string is false, so only the split remains. *)
Definition split_type (transaction_type : string) : string * string :=
  let words := Py.split_space transaction_type in
  (Py.join_space (take 4 words), Py.join_space (drop 4 words)).

Section Parsers.

(** [pd.to_numeric(..., errors="coerce")] and
    [pd.to_datetime(..., errors="coerce")] on one value: pandas' parsers
    are outside the repository and stay parameters; [None] is NaN / NaT. *)
Variable to_numeric : string -> option Q.
Variable to_datetime : string -> option Z.

(** [pd.to_numeric(text, errors="coerce").abs().fillna(0)] *)
Definition clean_withdrawn (c : cell) : Q :=
  fillna0 (option_map Qabs (to_numeric (amount_text c))).

(** [pd.to_numeric(text, errors="coerce").fillna(0)] *)
Definition clean_paidin (c : cell) : Q :=
  fillna0 (to_numeric (amount_text c)).

(** [.astype(str).str.replace(r"\s+", " ", regex=True)] then [.str.title()] *)
Definition clean_details (c : cell) : string :=
  Py.title (Py.collapse_ws (astype_str c)).

Definition _clean_column_values (df : DataFrame) : result typed_columns :=
  let df := standardize_labels df in
  times ← get "completiontime" df;
  let df := filter_rows (map (fun c => negb (isnull c)) times) df in
  let df := rename_if_present "receiptno." "receiptno" df in
  let df := rename_if_present ("withdraw" +:+ String Py.newline "n") "withdrawn" df in
  let present_cols :=
    List.filter (fun col => Py.mem col (labels df)) expected_cols_lower in
  match present_cols with
  | [] => Raise (DataCleaningError
                   "Expected M-Pesa columns not found after standardization")
  | _ =>
      (* df = df[present_cols], then one column after the other *)
      receipts ← get "receiptno" df;
      times ← get "completiontime" df;
      withdrawns ← get "withdrawn" df;
      paidins ← get "paidin" df;
      details ← match column "details" df with
                 | Absent => Ok None
                 | Unique v => Ok (Some (map clean_details v))
                 | Repeated => Raise (Unmodelled "repeated column label")
                 end;
      Ok (mkTyped (map astype_string receipts)
                  (map (fun c => to_datetime (astype_str c)) times)
                  (map clean_withdrawn withdrawns)
                  (map clean_paidin paidins)
                  details)
  end.

(** *** _extract_transaction_info and clean_data *)

Definition make_transaction (r : option string) (t : option Z) (d : string)
    (p w : Q) : Transaction :=
  let '(ty, ent) := split_details d in
  let '(cls, desc) := split_type ty in
  mkTransaction r t d p w ty ent cls desc.

Fixpoint make_rows (rs : list (option string)) (ts : list (option Z))
    (ds : list string) (ps ws : list Q) : list Transaction :=
  match rs, ts, ds, ps, ws with
  | r :: rs', t :: ts', d :: ds', p :: ps', w :: ws' =>
      make_transaction r t d p w :: make_rows rs' ts' ds' ps' ws'
  | _, _, _, _, _ => []
  end.

Definition _extract_transaction_info (cols : typed_columns)
    : result (list Transaction) :=
  match col_details cols with
  | None => Raise (KeyError "details")
  | Some ds =>
      Ok (make_rows (col_receiptno cols) (col_completiontime cols) ds
                    (col_paidin cols) (col_withdrawn cols))
  end.

(** [df_clean['completiontime'].min().strftime(...)]: the minimum of a
    column without a parsed date is NaT, whose [strftime] raises. *)
Definition date_range (cols : typed_columns) : result unit :=
  if forallb (fun t => negb (bool_decide (is_Some t))) (col_completiontime cols)
  then Raise (ValueError "NaTType does not support strftime")
  else Ok tt.

Definition clean_data (df : option DataFrame) : result (list Transaction) :=
  match df with
  | None => Raise (DataCleaningError "DataFrame is empty - nothing to clean")
  | Some df =>
      if empty df
      then Raise (DataCleaningError "DataFrame is empty - nothing to clean")
      else if negb (has_expected_cols df)
      then Raise (DataCleaningError "No M-Pesa transaction columns found in data.")
      else
        let df := drop_duplicate_columns df in
        df_clean ← _clean_column_values df;
        _ ← date_range df_clean;
        _extract_transaction_info df_clean
  end.

End Parsers.

End Cleaner.

(** ** src/categorization/categorizer.py *)

Module Categorizer.

(** *** Category definitions (the entries of categories.yaml) *)

(** The value of an [equals] key: one string, or a list of strings (which
    the form of app.py produces when several values are typed). *)
Inductive equals_value : Type :=
| EqStr (s : string)
| EqList (l : list string).

(** A match-spec, the dict under one field name. Each operator key is
    present ([Some]) or absent ([None]) with the value type of the YAML
    schema; [other_keys] are the keys that no operator reads. *)
Record field_patterns := mkFieldPatterns {
  contains : option (list string);
  equals : option equals_value;
  startswith : option (list string);
  startswith_numeric : option bool;
  not_starts_with : option string;
  other_keys : list string
}.

Record CategoryDefinition := mkCategoryDefinition {
  name : string;
  cat_type : string;
  description : string;
  merchant_type : string;
  color_map : string;
  patterns : list (string * field_patterns)   (* in [.items()] order *)
}.

(** One categorized record, the dict built by categorize_transaction.
    [account_no] is [None] while the key is absent. *)
Record CategorizedTransaction := mkCategorized {
  receiptno : option string;
  completiontime : option Z;
  details : string;
  paidin : Q;
  withdrawn : Q;
  entity : string;
  type_class : string;
  type_desc : string;
  processed_entity : string;
  is_charge : bool;
  category : option string;
  subcategory : option string;
  account_no : option string
}.

Definition set_category (c : string) (t : CategorizedTransaction) : CategorizedTransaction :=
  mkCategorized (receiptno t) (completiontime t) (details t) (paidin t) (withdrawn t)
    (entity t) (type_class t) (type_desc t) (processed_entity t) (is_charge t)
    (Some c) (subcategory t) (account_no t).

Definition set_processed_entity (e : string) (t : CategorizedTransaction) : CategorizedTransaction :=
  mkCategorized (receiptno t) (completiontime t) (details t) (paidin t) (withdrawn t)
    (entity t) (type_class t) (type_desc t) e (is_charge t)
    (category t) (subcategory t) (account_no t).

Definition set_account_no (a : string) (t : CategorizedTransaction) : CategorizedTransaction :=
  mkCategorized (receiptno t) (completiontime t) (details t) (paidin t) (withdrawn t)
    (entity t) (type_class t) (type_desc t) (processed_entity t) (is_charge t)
    (category t) (subcategory t) (Some a).

(** *** _matches_field_pattern and _matches_pattern *)

(** ["key" in field_patterns] *)
Definition has {A} (key : option A) : bool :=
  match key with Some _ => true | None => false end.

(** [bool(field_patterns)]: the dict has some key. *)
Definition truthy (fp : field_patterns) : bool :=
  has (contains fp) || has (equals fp) || has (startswith fp) ||
  has (startswith_numeric fp) || has (not_starts_with fp) ||
  negb (Nat.eqb (length (other_keys fp)) 0).

Definition contains_hit (field_value : string) (fp : field_patterns) : bool :=
  match contains fp with
  | Some contains_list =>
      existsb (fun pattern => Py.contains pattern field_value) contains_list
  | None => false
  end.

(** [field_value == field_patterns["equals"]]: a string never equals a list. *)
Definition equals_hit (field_value : string) (fp : field_patterns) : bool :=
  match equals fp with
  | Some (EqStr s) => Py.str_eqb field_value s
  | Some (EqList _) => false
  | None => false
  end.

Definition startswith_hit (field_value : string) (fp : field_patterns) : bool :=
  match startswith fp with
  | Some startswith_list =>
      existsb (fun pattern => Py.startswith field_value pattern) startswith_list
  | None => false
  end.

Definition starts_with_digit (s : string) : bool :=
  match Py.first_char s with Some c => Py.isdigit c | None => false end.

Definition startswith_numeric_hit (field_value : string) (fp : field_patterns) : bool :=
  match startswith_numeric fp with
  | Some flag => flag && Py.nonempty field_value && starts_with_digit field_value
  | None => false
  end.

Definition not_starts_with_hit (field_value : string) (fp : field_patterns) : bool :=
  match not_starts_with fp with
  | Some prefix => negb (Py.startswith field_value prefix)
  | None => false
  end.

Definition _matches_field_pattern (field_value : string) (fp : field_patterns) : bool :=
  if contains_hit field_value fp then true
  else if equals_hit field_value fp then true
  else if startswith_hit field_value fp then true
  else if startswith_numeric_hit field_value fp then true
  else if not_starts_with_hit field_value fp then true
  else if truthy fp
  then negb (has (contains fp)) && negb (has (equals fp)) &&
       negb (has (startswith fp)) && negb (has (startswith_numeric fp))
  else true.

Definition fields (details type_desc type_class entity : string) : gmap string string :=
  <["entity" := Py.lower entity]>
    (<["type_class" := type_class]>
       (<["type_desc" := type_desc]>
          (<["details" := details]> ∅))).

Fixpoint matches_items (fs : gmap string string)
    (items : list (string * field_patterns)) : bool :=
  match items with
  | [] => true
  | (field_name, fp) :: rest =>
      match fs !! field_name with
      | None => matches_items fs rest
      | Some field_value =>
          if negb (_matches_field_pattern field_value fp) then false
          else matches_items fs rest
      end
  end.

Definition _matches_pattern (details type_desc type_class entity : string)
    (patterns : list (string * field_patterns)) : bool :=
  matches_items (fields details type_desc type_class entity) patterns.

(** *** Entity processing *)

(** The three patterns compiled in __init__: one or more asterisks; the
    paybill pattern (lazy group 1, then either whitespace, Acc., whitespace
    and group 2, or the end of the string); the business pattern (lazy
    group 1, then either whitespace, via, lazily anything, is, whitespace
    and group 2, or the end of the string; letters match in either case). *)
Definition masked_phone_pattern : Regex.regex :=
  Regex.plus (Regex.only "*"%char).

Definition paybill_pattern : Regex.regex :=
  Regex.Seq (Regex.Group 1 (Regex.Star false Regex.dot))
    (Regex.Alt
       (Regex.seq [ Regex.plus Regex.ws; Regex.lit "Acc."; Regex.plus Regex.ws;
                    Regex.Group 2 (Regex.Star true Regex.dot) ])
       Regex.Eol).

Definition business_payment_pattern : Regex.regex :=
  Regex.Seq (Regex.Group 1 (Regex.Star false Regex.dot))
    (Regex.Alt
       (Regex.seq [ Regex.plus Regex.ws; Regex.lit_nocase "via";
                    Regex.Star false Regex.dot; Regex.lit_nocase "is";
                    Regex.plus Regex.ws;
                    Regex.Group 2 (Regex.Star true Regex.dot) ])
       Regex.Eol).

(** [m.group(n).strip() if m.group(n) else ""] *)
Definition stripped_group (n : nat) (m : Regex.captures) : string :=
  match Regex.group n m with
  | Some s => if Py.nonempty s then Py.strip s else ""
  | None => ""
  end.

Definition process_masked_phone (entity : string) : string * string :=
  if Py.str_eqb entity "" then (entity, "")
  else match Regex.search masked_phone_pattern entity with
       | Some _ =>
           match Py.split_first_space entity with
           | part0 :: part1 :: _ => (Py.title part1, Py.title part0)
           | [part0] => (Py.title part0, "")
           | [] => (entity, "")   (* split never returns an empty list *)
           end
       | None => (Py.title entity, "")
       end.

Definition process_business_and_account (entity : string) : string * string :=
  if Py.str_eqb entity "" then (entity, "")
  else match Regex.search business_payment_pattern entity with
       | Some m => (stripped_group 1 m, stripped_group 2 m)
       | None => (entity, "")
       end.

Definition extract_paybill_details (entity : string) : string * string :=
  if Py.str_eqb entity "" then (entity, "")
  else match Regex.search paybill_pattern entity with
       | Some m => (Py.strip (Cleaner.group_or_empty 1 m), stripped_group 2 m)
       | None => (entity, "")
       end.

Definition money_transfer_cats : list string :=
  [ "Send Money"; "Received (Individuals)"; "Received (Business)";
    "Customer Payment"; "Business Transfer (SME)"; "Business Transfer (Customer)" ].

(** [entity and (entity[0].isdigit() or "*" in entity)] *)
Definition looks_like_phone (entity : string) : bool :=
  Py.nonempty entity && (starts_with_digit entity || Py.contains "*" entity).

Definition _process_entity (transaction_data : CategorizedTransaction)
    (category : string) : CategorizedTransaction :=
  let entity := entity transaction_data in
  if Py.mem category money_transfer_cats then
    if looks_like_phone entity then
      let '(name, phone) := process_masked_phone entity in
      set_account_no phone (set_processed_entity name transaction_data)
    else
      let '(name, extra_info) := process_business_and_account entity in
      set_account_no extra_info (set_processed_entity name transaction_data)
  else if Py.str_eqb category "PayBillPayments" then
    let '(business_name, account_no) := extract_paybill_details entity in
    set_account_no account_no (set_processed_entity business_name transaction_data)
  else if Py.mem category [ "airtime_bundle"; "Pochi" ] then
    if looks_like_phone entity then
      let '(name, _) := process_masked_phone entity in
      set_processed_entity name transaction_data
    else transaction_data
  else transaction_data.

(** *** categorize_transaction *)

Definition base_transaction_data (row : Cleaner.Transaction) : CategorizedTransaction :=
  let details := Py.lower (Cleaner.details row) in
  let type_desc := Py.lower (Cleaner.type_desc row) in
  let entity := Cleaner.entity row in
  mkCategorized (Cleaner.receiptno row) (Cleaner.completiontime row)
    (Cleaner.details row) (Cleaner.paidin row) (Cleaner.withdrawn row)
    entity (Cleaner.type_class row) (Cleaner.type_desc row)
    entity
    (Py.contains "charge" type_desc || Py.contains "charge" details)
    None None None.

(** [details == "nan" or not details], on the lower-cased details *)
Definition no_details (details : string) : bool :=
  Py.str_eqb details "nan" || negb (Py.nonempty details).

(** Does the row match the definition? (the test of the loop body) *)
Definition matches (row : Cleaner.Transaction) (cat_def : CategoryDefinition) : bool :=
  _matches_pattern (Py.lower (Cleaner.details row)) (Py.lower (Cleaner.type_desc row))
    (Py.lower (Cleaner.type_class row)) (Cleaner.entity row) (patterns cat_def).

(** The record appended for a matching definition. *)
Definition matched_record (row : Cleaner.Transaction) (cat_def : CategoryDefinition)
    : CategorizedTransaction :=
  _process_entity (set_category (name cat_def) (base_transaction_data row)) (name cat_def).

Definition categorize_transaction (category_definitions : list CategoryDefinition)
    (row : Cleaner.Transaction) : list CategorizedTransaction :=
  let details := Py.lower (Cleaner.details row) in
  let base_transaction_data := base_transaction_data row in
  if no_details details
  then [ set_category "NoDetails" base_transaction_data ]
  else
    let matched_categories :=
      fold_left
        (fun matched_categories cat_def =>
           if matches row cat_def
           then matched_categories ++ [ matched_record row cat_def ]
           else matched_categories)
        category_definitions []
    in
    match matched_categories with
    | [] => [ set_category "uncategorized" base_transaction_data ]
    | _ => matched_categories
    end.

(** *** The categorizer object and categorize_transactions *)

(** The two attributes of a TransactionCategorizer that categorization
    reads and writes. *)
Record TransactionCategorizer := mkCategorizer {
  category_definitions : list CategoryDefinition;
  categories : gmap string (list CategorizedTransaction)
}.

(** [__init__]; [loaded] is what _load_categories read from the YAML file. *)
Definition __init__ (loaded : list CategoryDefinition)
    (custom_categories : option (list CategoryDefinition)) : TransactionCategorizer :=
  let category_definitions :=
    match custom_categories with
    | Some (c :: cs) => (c :: cs) ++ loaded
    | _ => loaded
    end in
  let categories :=
    fold_left (fun m cat => <[name cat := []]> m) category_definitions ∅ in
  mkCategorizer category_definitions
    (<["uncategorized" := []]> (<["NoDetails" := []]> categories)).

(** [if category in self.categories: self.categories[category].append(...)] *)
Definition add_to_category (cats : gmap string (list CategorizedTransaction))
    (category_data : CategorizedTransaction) : gmap string (list CategorizedTransaction) :=
  match category category_data with
  | Some c =>
      match cats !! c with
      | Some transactions => <[c := transactions ++ [category_data]]> cats
      | None => cats
      end
  | None => cats
  end.

(** The method: it appends to the lists held by the object and returns
    them as frames (a frame is the list of its records, an empty list the
    empty frame). The result is the object after the call and the returned
    mapping. *)
Definition categorize_transactions (self : TransactionCategorizer)
    (df : list Cleaner.Transaction)
    : TransactionCategorizer * gmap string (list CategorizedTransaction) :=
  let cats :=
    fold_left
      (fun cats row =>
         fold_left add_to_category
           (categorize_transaction (category_definitions self) row) cats)
      df (categories self) in
  (mkCategorizer (category_definitions self) cats, cats).

(** The module-level categorize_transactions, and the wrapper of app.py:
    a categorizer is constructed for the run and dropped after it. *)
Definition categorize_with_new_categorizer (loaded : list CategoryDefinition)
    (custom_categories : option (list CategoryDefinition))
    (df : list Cleaner.Transaction) : gmap string (list CategorizedTransaction) :=
  snd (categorize_transactions (__init__ loaded custom_categories) df).

End Categorizer.

(** ** src/analysis/analyzer.py *)

Module Analyzer.

Import Categorizer.

(** A category's DataFrame as the analyzer reads it: the rows, and whether
    the frame has an [is_charge] column (the frames that the categorizer
    builds always have one). The chart of an AnalysisResult belongs to the
    display layer and is left out. *)
Record Frame := mkFrame {
  has_is_charge : bool;
  rows : list CategorizedTransaction
}.

(** [pd.DataFrame(transactions)] for a category's list of records *)
Definition frame_of (transactions : list CategorizedTransaction) : Frame :=
  mkFrame true transactions.

(** One row of the aggregated frame. *)
Record AggRow := mkAggRow {
  agg_entity : string;
  count : nat;
  amount : Q
}.

Record AnalysisResult := mkAnalysisResult {
  total_amount : Q;
  total_charges : Q;
  transaction_count : nat;
  aggregated_frame : list AggRow;
  raw_df : list CategorizedTransaction
}.

Definition _empty_result : AnalysisResult :=
  mkAnalysisResult 0 0 0 [] [].

(** [Series.sum()] *)
Definition sum (xs : list Q) : Q := fold_right Qplus 0%Q xs.

(** [Series.count()]: the values that are not missing. *)
Definition count_non_null (xs : list (option string)) : nat :=
  length (List.filter (fun x => bool_decide (is_Some x)) xs).

(** [Series.nunique()]: the distinct values that are not missing. *)
Definition nunique (xs : list (option string)) : nat :=
  length (remove_dups (omap id xs)).

(** The column read for amounts: [amount_col]. *)
Definition amount_of (is_money_in : bool) (r : CategorizedTransaction) : Q :=
  if is_money_in then paidin r else withdrawn r.

(** [groupby("processed_entity")]: the group keys are the distinct
    entities, in increasing order. *)
Fixpoint insert_key (k : string) (ks : list string) : list string :=
  match ks with
  | [] => [k]
  | k' :: ks' =>
      if Py.str_eqb k k' then ks
      else if String.leb k k' then k :: ks
      else k' :: insert_key k ks'
  end.

Definition group_keys (rs : list CategorizedTransaction) : list string :=
  fold_right (fun r ks => insert_key (processed_entity r) ks) [] rs.

Definition group (k : string) (rs : list CategorizedTransaction)
    : list CategorizedTransaction :=
  List.filter (fun r => Py.str_eqb (processed_entity r) k) rs.

(** [.agg(count=("receiptno", "count"), amount=(amount_col, "sum"))] *)
Definition agg (is_money_in : bool) (rs : list CategorizedTransaction) : list AggRow :=
  map (fun k =>
         let g := group k rs in
         mkAggRow k (count_non_null (map receiptno g))
                    (sum (map (amount_of is_money_in) g)))
      (group_keys rs).

(** [.sort_values(by="amount", ascending=False)]. pandas does not specify
    the order of rows with equal amounts; this insertion sort keeps them in
    their order of arrival. *)
Fixpoint insert_desc (x : AggRow) (l : list AggRow) : list AggRow :=
  match l with
  | [] => [x]
  | y :: l' =>
      if Qle_bool (amount y) (amount x) then x :: l
      else y :: insert_desc x l'
  end.

Definition sort_values_desc (l : list AggRow) : list AggRow :=
  fold_right insert_desc [] l.

Definition analyze_category (data : gmap string Frame) (category_name : string)
    (is_money_in : bool) : AnalysisResult :=
  let df := default (mkFrame false []) (data !! category_name) in
  match rows df with
  | [] => _empty_result
  | _ =>
      let transactions :=
        if has_is_charge df
        then List.filter (fun r => negb (is_charge r)) (rows df)
        else rows df in
      let total_charges :=
        if has_is_charge df
        then sum (map (amount_of is_money_in)
                      (List.filter (fun r => is_charge r) (rows df)))
        else 0%Q in
      let total_amount := sum (map (amount_of is_money_in) transactions) in
      let transaction_count := nunique (map receiptno transactions) in
      let aggregated := sort_values_desc (agg is_money_in transactions) in
      mkAnalysisResult total_amount total_charges transaction_count
        aggregated (rows df)
  end.

(** *** The analyses of the fixed categories

    Each method reads its own key of [self.data]. The two money-in methods
    take every row of the frame; the money-out methods index the frame by
    [is_charge], which raises KeyError on a frame without that column.
    analyze_pay_bill, whose aggregation calls a Python lambda on each
    group, is not modelled. *)

Definition analyze_received_money (data : gmap string Frame) : AnalysisResult :=
  let df := default (mkFrame false []) (data !! "Received (Individuals)") in
  match rows df with
  | [] => _empty_result
  | _ =>
      let total_amount := sum (map paidin (rows df)) in
      let transaction_count := nunique (map receiptno (rows df)) in
      let aggregated := sort_values_desc (agg true (rows df)) in
      mkAnalysisResult total_amount 0 transaction_count aggregated (rows df)
  end.

Definition analyze_deposits (data : gmap string Frame) : AnalysisResult :=
  let df := default (mkFrame false []) (data !! "Deposit") in
  match rows df with
  | [] => _empty_result
  | _ =>
      let total_amount := sum (map paidin (rows df)) in
      let transaction_count := nunique (map receiptno (rows df)) in
      let aggregated := sort_values_desc (agg true (rows df)) in
      mkAnalysisResult total_amount 0 transaction_count aggregated (rows df)
  end.

Definition analyze_send_money (data : gmap string Frame) : result AnalysisResult :=
  let df := default (mkFrame false []) (data !! "Send Money") in
  match rows df with
  | [] => Ok _empty_result
  | _ =>
      if has_is_charge df then
        let transfers := List.filter (fun r => negb (is_charge r)) (rows df) in
        let charges := List.filter (fun r => is_charge r) (rows df) in
        let total_amount := sum (map withdrawn transfers) in
        let total_charges := sum (map withdrawn charges) in
        let transaction_count := nunique (map receiptno transfers) in
        let aggregated := sort_values_desc (agg false transfers) in
        Ok (mkAnalysisResult total_amount total_charges transaction_count
              aggregated (rows df))
      else Raise (KeyError "is_charge")
  end.

Definition analyze_buy_goods (data : gmap string Frame) : result AnalysisResult :=
  let df := default (mkFrame false []) (data !! "BuyGoods") in
  match rows df with
  | [] => Ok _empty_result
  | _ =>
      if has_is_charge df then
        let payments := List.filter (fun r => negb (is_charge r)) (rows df) in
        let charges := List.filter (fun r => is_charge r) (rows df) in
        let total_amount := sum (map withdrawn payments) in
        let total_charges := sum (map withdrawn charges) in
        let transaction_count := nunique (map receiptno payments) in
        let aggregated := sort_values_desc (agg false payments) in
        Ok (mkAnalysisResult total_amount total_charges transaction_count
              aggregated (rows df))
      else Raise (KeyError "is_charge")
  end.

Definition analyze_withdrawals (data : gmap string Frame) : result AnalysisResult :=
  let df := default (mkFrame false []) (data !! "Withdrawal") in
  match rows df with
  | [] => Ok _empty_result
  | _ =>
      if has_is_charge df then
        let withdrawals := List.filter (fun r => negb (is_charge r)) (rows df) in
        let charges := List.filter (fun r => is_charge r) (rows df) in
        let total_amount := sum (map withdrawn withdrawals) in
        let total_charges := sum (map withdrawn charges) in
        let transaction_count := nunique (map receiptno withdrawals) in
        let aggregated := sort_values_desc (agg false withdrawals) in
        Ok (mkAnalysisResult total_amount total_charges transaction_count
              aggregated (rows df))
      else Raise (KeyError "is_charge")
  end.

End Analyzer.

(** ** src/data/loader.py and src/data/tabulaloader.py: column labels

    Reading the PDF is outside the model. Both loaders end with the same
    clean-up of the column labels of the combined table. *)

Module Loader.

Import Cleaner.

(** [columns.str.strip().str.lower().str.replace(r"\s+", "", regex=True)]
    on one label *)
Definition clean_column_name (label : string) : string :=
  Py.remove_ws (Py.lower (Py.strip label)).

Definition clean_column_names (combined_df : DataFrame) : DataFrame :=
  mkDataFrame (nrows combined_df)
    (map (fun c => (clean_column_name (fst c), snd c)) (columns combined_df)).

End Loader.

(** ** app.py: filters and custom categories *)

Module App.

Import Categorizer Analyzer.

(** [pd.to_datetime(d)] for a [datetime.date]: the midnight that starts
    the day. Dates are day numbers and timestamps are seconds, both counted
    from the epoch. *)
Definition midnight (day : Z) : Z := (day * 86400)%Z.

(** [(t >= pd.to_datetime(start_date)) & (t <= pd.to_datetime(end_date))];
    a comparison with NaT is false. *)
Definition in_date_range (start_date end_date : Z) (r : CategorizedTransaction) : bool :=
  match completiontime r with
  | Some t => (midnight start_date <=? t)%Z && (t <=? midnight end_date)%Z
  | None => false
  end.

Section Filters.

(** [Timestamp.strftime("%B_%Y")]: the calendar is pandas' and stays a
    parameter. *)
Variable month_label : Z -> string.

(** [.dt.strftime("%B_%Y").isin(month_filter)]; NaT has no label. *)
Definition in_months (month_filter : list string) (r : CategorizedTransaction) : bool :=
  match completiontime r with
  | Some t => Py.mem (month_label t) month_filter
  | None => false
  end.

(** The body of the loop of filter_categorized_data, for one frame. *)
Definition filter_frame (date_filter : list Z) (month_filter : list string)
    (df : Frame) : Frame :=
  match rows df with
  | [] => df
  | _ =>
      match date_filter with
      | [start_date; end_date] =>
          mkFrame (has_is_charge df)
            (List.filter (in_date_range start_date end_date) (rows df))
      | _ =>
          match month_filter with
          | [] => df
          | _ => mkFrame (has_is_charge df)
                   (List.filter (in_months month_filter) (rows df))
          end
      end
  end.

(** filter_categorized_data. A filter that is None and one that is an
    empty sequence are both falsy and are both the empty list here. *)
Definition filter_categorized_data (categorized_data : gmap string Frame)
    (date_filter : list Z) (month_filter : list string) : gmap string Frame :=
  match date_filter, month_filter with
  | [], [] => categorized_data
  | _, _ => filter_frame date_filter month_filter <$> categorized_data
  end.

End Filters.

(** *** handle_user_category *)

(** The two entries of [st.session_state] that the handler touches. *)
Record session := mkSession {
  custom_categories : list CategoryDefinition;
  categorized_data : option (gmap string Frame)
}.

(** What the handler shows: nothing when the form was not submitted, one of
    the two error messages, or the success message (after which the script
    is rerun). *)
Inductive feedback : Type :=
| NotSubmitted
| RequiredFieldsMissing
| AlreadyExists (cat_name : string)
| Added (cat_name : string).

(** [[v.strip().lower() for v in match_values.split(",") if v.strip().lower()]] *)
Definition values_list (match_values : string) : list string :=
  List.filter Py.nonempty
    (map (fun v => Py.lower (Py.strip v)) (Py.split_char ","%char match_values)).

(** [[v.strip() for v in match_values_2.split(",") if v.strip()]] *)
Definition values_list_2 (match_values_2 : string) : list string :=
  List.filter Py.nonempty (map Py.strip (Py.split_char ","%char match_values_2)).

(** The dict built for one operator of the form; an operator outside the
    three builds none. *)
Definition operator_patterns (match_operator : string) (values : list string)
    : option field_patterns :=
  if Py.str_eqb match_operator "contains"
  then Some (mkFieldPatterns (Some values) None None None None [])
  else if Py.str_eqb match_operator "equals"
  then Some (mkFieldPatterns None
               (Some (match values with
                      | [v] => EqStr v
                      | _ => EqList values
                      end))
               None None None [])
  else if Py.str_eqb match_operator "startswith"
  then Some (mkFieldPatterns None None (Some values) None None [])
  else None.

(** [patterns[key] = value]: a key that is present keeps its place. *)
Fixpoint dict_set (key : string) (value : field_patterns)
    (patterns : list (string * field_patterns)) : list (string * field_patterns) :=
  match patterns with
  | [] => [(key, value)]
  | (k, v) :: rest =>
      if Py.str_eqb k key then (k, value) :: rest
      else (k, v) :: dict_set key value rest
  end.

Definition handle_user_category (st : session)
    (cat_name cat_type cat_description merchant_type color_map : string)
    (match_field match_operator match_values : string) (add_advanced : bool)
    (match_field_2 match_operator_2 match_values_2 : string) (submit : bool)
    : session * feedback :=
  if negb submit then (st, NotSubmitted)
  else if negb (Py.nonempty cat_name) || negb (Py.nonempty cat_type) ||
          negb (Py.nonempty match_values)
  then (st, RequiredFieldsMissing)
  else
    let patterns :=
      match operator_patterns match_operator (values_list match_values) with
      | Some fp => dict_set match_field fp []
      | None => []
      end in
    let patterns :=
      if add_advanced && Py.nonempty match_values_2
      then match operator_patterns match_operator_2 (values_list_2 match_values_2) with
           | Some fp => dict_set match_field_2 fp patterns
           | None => patterns
           end
      else patterns in
    let new_category :=
      mkCategoryDefinition cat_name cat_type
        (if Py.nonempty cat_description then cat_description
         else cat_name +:+ " transactions")
        merchant_type color_map patterns in
    let existing_names := map name (custom_categories st) in
    if Py.mem cat_name existing_names
    then (st, AlreadyExists cat_name)
    else (mkSession (custom_categories st ++ [new_category]) None, Added cat_name).

(** *** The analysis loop at the end of the script *)

(** One entry of [category_metadata]; an absent key of the definition has
    taken its default. *)
Definition category_metadata (category_config custom : list CategoryDefinition)
    : gmap string CategoryDefinition :=
  fold_left (fun m cat_def => <[name cat_def := cat_def]> m)
    (category_config ++ custom) ∅.

(** [metadata.get("color_map", "").lower() == "greens"] *)
Definition money_in_by_colour (metadata : gmap string CategoryDefinition)
    (category_name : string) : bool :=
  match metadata !! category_name with
  | Some cat_def => Py.str_eqb (Py.lower (color_map cat_def)) "greens"
  | None => false
  end.

(** [analysis_results]: every category but uncategorized, analysed with the
    direction that its colour gives. *)
Definition analysis_results (metadata : gmap string CategoryDefinition)
    (filtered_categorized_data : gmap string Frame) : gmap string AnalysisResult :=
  map_imap
    (fun category_name _ =>
       if Py.str_eqb category_name "uncategorized" then None
       else Some (analyze_category filtered_categorized_data category_name
                    (money_in_by_colour metadata category_name)))
    filtered_categorized_data.

End App.

(** ** Concrete inputs for the examples *)

Module Demo.

Fixpoint digits (s : string) (acc : Z) : option Z :=
  match s with
  | EmptyString => Some acc
  | String c s' =>
      if Py.isdigit c
      then digits s' (acc * 10 + (Z.of_N (Py.code c) - 48))
      else None
  end.

(** Plain integer literals with an optional minus sign; anything else is
    left unparsed (NaN). [pd.to_numeric] agrees on these. *)
Definition to_numeric (s : string) : option Q :=
  match s with
  | EmptyString => None
  | String "-" (String c s') => option_map (fun z => inject_Z (- z)) (digits (String c s') 0)
  | _ => option_map inject_Z (digits s 0)
  end.

(** One timestamp that [pd.to_datetime] parses, as seconds since the
    epoch; every other text is left unparsed (NaT) here. *)
Definition to_datetime (s : string) : option Z :=
  if Py.str_eqb s "2025-01-01 10:00:00" then Some 1735725600%Z else None.

Definition statement (paid_in withdrawn : string) : Cleaner.DataFrame :=
  Cleaner.mkDataFrame 1
    [ ("receiptno", [Cleaner.CStr "R1"]);
      ("completiontime", [Cleaner.CStr "2025-01-01 10:00:00"]);
      ("details", [Cleaner.CStr "Customer transfer to 254712345678 - JOHN DOE"]);
      ("paidin", [Cleaner.CStr paid_in]);
      ("withdrawn", [Cleaner.CStr withdrawn]) ].


Import Categorizer.

Definition contains_only (words : list string) : field_patterns :=
  mkFieldPatterns (Some words) None None None None [].

(** The definition of tests/unit/test_categorizer.py, and a second one
    that the same row matches. *)
Definition my_bill : CategoryDefinition :=
  mkCategoryDefinition "MyBill" "Test" "Test bill" "Biller" "Purples"
    [ ("details", contains_only [ "pay bill" ]) ].

Definition streaming : CategoryDefinition :=
  mkCategoryDefinition "Streaming" "Test" "Streaming services" "Merchant" "Blues"
    [ ("entity", contains_only [ "netflix" ]) ].

(** The row of tests/unit/test_categorizer.py. *)
Definition netflix_row : Cleaner.Transaction :=
  Cleaner.mkTransaction (Some "r1") (Some 1735689600%Z) "Pay Bill to 12345 - NETFLIX"
    0%Q 300%Q "Pay Bill to 12345" "NETFLIX" "Pay Bill Online" "to 12345".

Definition record (receipt entity : string) (amount : Q) (charge : bool)
    : CategorizedTransaction :=
  mkCategorized (Some receipt) (Some 1735689600%Z) "Customer Transfer" 0%Q amount
    entity "Customer Transfer To" "" entity charge (Some "Send Money") None None.

Definition with_entity (entity : string) : CategorizedTransaction :=
  record "r1" entity 100%Q false.
End Demo.

(** ** Notions used to state the properties *)

Module CleanerSpec.
Import Cleaner.
(** Keep a column unless its label comes again further right. *)
Fixpoint keep_last (cs : list (string * list cell)) : list (string * list cell) :=
  match cs with
  | [] => []
  | c :: cs' => if Py.mem (fst c) (map fst cs') then keep_last cs' else c :: keep_last cs'
  end.

(** The recognized labels as detection compares them: the names of
    EXPECTED_COLUMNS in lower case. *)
Definition recognized_labels : list string :=
  [ "receiptno."; "receiptno"; "completiontime"; "details"; "paidin"; "withdrawn" ].

(** A result that is not a DataCleaningError. *)
Definition not_schema_error {A} (r : result A) : Prop :=
  ∀ msg, r ≠ Raise (DataCleaningError msg).
End CleanerSpec.

Module DetailsSpec.

Abbreviation chars := list_ascii_of_string.
Abbreviation text := string_of_list_ascii.

Definition hyphen : ascii := "-"%char.

(** What may follow the hyphen of a separator: spaces, one whitespace
    character, and then a character that is not whitespace. The result is
    the text from that character on. *)
Definition entity_start (t : list ascii) : option (list ascii) :=
  match t with
  | c :: _ => if Py.isspace c then None else Some t
  | [] => None
  end.

Fixpoint after_hyphen (t : list ascii) : option (list ascii) :=
  match t with
  | [] => None
  | x :: t' =>
      if Py.chr_eqb x Py.space
      then match after_hyphen t' with
           | Some r => Some r
           | None => entity_start t'
           end
      else if Py.isspace x then entity_start t'
      else None
  end.

(** The characters up to the next line feed. *)
Fixpoint line (r : list ascii) : list ascii :=
  match r with
  | [] => []
  | x :: r' => if Regex.dot x then x :: line r' else []
  end.

(** The look-behind: no character before, or a whitespace character. *)
Definition prev_ok (pre : list ascii) : bool :=
  match pre with
  | [] => true
  | x :: _ => Py.isspace x
  end.

Fixpoint skip_spaces (s : list ascii) : list ascii :=
  match s with
  | x :: s' => if Py.chr_eqb x Py.space then skip_spaces s' else s
  | [] => []
  end.

(** One attempt of the pattern after group 1, at a given position. *)
Definition attempt (pre suf : list ascii) : option (list ascii) :=
  if prev_ok pre
  then match skip_spaces suf with
       | x :: t => if Py.chr_eqb x hyphen then after_hyphen t else None
       | [] => None
       end
  else None.

(** The lazy group 1: the first position of the line with a successful
    attempt. The result is the text of group 1 and the start of group 2. *)
Fixpoint scan (pre suf : list ascii) : option (list ascii * list ascii) :=
  match attempt pre suf with
  | Some r => Some ([], r)
  | None =>
      match suf with
      | x :: suf' =>
          if Regex.dot x
          then match scan (x :: pre) suf' with
               | Some (g, r) => Some (x :: g, r)
               | None => None
               end
          else None
      | [] => None
      end
  end.

Definition match_of (found : option (list ascii * list ascii)) : option Regex.captures :=
  match found with
  | Some (g, r) => Some [ (2, text (line r)); (1, text g) ]
  | None => None
  end.

(** A separator of [suf] whose hyphen comes right after [a]: the hyphen
    is at the start (with [pre] before it) or follows whitespace, and
    [r] is the text after the gap that follows it. *)
Definition separator_in (pre suf a r : list ascii) : Prop :=
  ∃ t, suf = a ++ hyphen :: t ∧ prev_ok (rev a ++ pre) = true ∧ after_hyphen t = Some r.

(** The pattern after group 1, split where the proofs need it. *)
Definition after_gap : Regex.regex := Regex.seq [ Regex.Chr Regex.ws; Regex.Ahead Regex.non_ws; Regex.Group 2 (Regex.Star true Regex.dot) ].

Definition gap_and_entity : Regex.regex := Regex.Seq (Regex.Star true (Regex.only Py.space)) after_gap.

Definition from_hyphen : Regex.regex := Regex.Seq (Regex.Chr (Regex.only hyphen)) gap_and_entity.

Definition from_position : Regex.regex :=
  Regex.Seq (Regex.NotBehind Regex.non_ws) (Regex.Seq (Regex.Star true (Regex.only Py.space)) from_hyphen).

(** The statement on strings. *)

Fixpoint spaces (k : nat) : string :=
  match k with
  | 0 => EmptyString
  | S k' => String Py.space (spaces k')
  end.

Fixpoint last_char (s : string) : option ascii :=
  match s with
  | EmptyString => None
  | String c EmptyString => Some c
  | String _ s' => last_char s'
  end.

(** [a] is empty or ends with a whitespace character. *)
Definition bounded_left (a : string) : Prop :=
  match last_char a with
  | None => True
  | Some c => Py.isspace c = true
  end.

(** [r] starts with a character that is not whitespace. *)
Definition starts_entity (r : string) : Prop :=
  match r with
  | String c _ => Py.isspace c = false
  | EmptyString => False
  end.

(** [s] has a separator between [a] and [r]: after [a], which is empty or
    ends with whitespace, come a hyphen, spaces and one more whitespace
    character, and then [r], which starts with a character that is not
    whitespace. *)
Definition separator_at (s a r : string) : Prop :=
  ∃ k w, s = a +:+ String hyphen (spaces k +:+ String w r) ∧
         bounded_left a ∧ Py.isspace w = true ∧ starts_entity r.

Definition no_line_feed (s : string) : Prop :=
  Py.contains (String Py.newline EmptyString) s = false.

End DetailsSpec.

Module CategorizerSpec.
Import Categorizer.
(** Some configured operator of the spec succeeds on the value. *)
Definition some_operator_succeeds (field_value : string) (fp : field_patterns) : bool :=
  contains_hit field_value fp || equals_hit field_value fp ||
  startswith_hit field_value fp || startswith_numeric_hit field_value fp ||
  not_starts_with_hit field_value fp.

(** The spec has none of the five operator keys. *)
Definition no_recognized_operator (fp : field_patterns) : bool :=
  negb (has (contains fp)) && negb (has (equals fp)) && negb (has (startswith fp)) &&
  negb (has (startswith_numeric fp)) && negb (has (not_starts_with fp)).

Definition only_not_starts_with (prefix : string) : field_patterns :=
  mkFieldPatterns None None None None (Some prefix) [].

(** A record carries the data of the row it was made from. *)
Definition of_row (row : Cleaner.Transaction) (r : CategorizedTransaction) : Prop :=
  receiptno r = Cleaner.receiptno row ∧
  completiontime r = Cleaner.completiontime row ∧
  details r = Cleaner.details row ∧
  paidin r = Cleaner.paidin row ∧
  withdrawn r = Cleaner.withdrawn row ∧
  entity r = Cleaner.entity row ∧
  type_class r = Cleaner.type_class row ∧
  type_desc r = Cleaner.type_desc row.

(** The records that categorization of [df] under [defs] tags with
    category [c], in row order: the membership of category [c]. *)
Definition membership (defs : list CategoryDefinition) (df : list Cleaner.Transaction)
    (c : string) : list CategorizedTransaction :=
  List.filter (fun r => bool_decide (category r = Some c))
    (flat_map (categorize_transaction defs) df).

(** The keys of the result: the defined names and the two sentinels. *)
Definition known_category (defs : list CategoryDefinition) (c : string) : bool :=
  Py.mem c (map name defs) || Py.str_eqb c "NoDetails" || Py.str_eqb c "uncategorized".
End CategorizerSpec.

Module AnalyzerSpec.
Import Categorizer Analyzer.
(** Rows in non-increasing order of amount. *)
Definition amount_ge (a b : AggRow) : Prop := (amount b <= amount a)%Q.
(** Strictly increasing order of strings. *)
Definition str_lt (a b : string) : Prop := String.leb a b = true ∧ a ≠ b.
(** The rows that enter the totals: the non-charge rows of a frame with an
    [is_charge] column, every row of a frame without one. *)
Definition principal_rows (df : Frame) : list CategorizedTransaction :=
  if has_is_charge df then List.filter (fun r => negb (is_charge r)) (rows df)
  else rows df.
Definition charge_rows (df : Frame) : list CategorizedTransaction :=
  List.filter (fun r => is_charge r) (rows df).
End AnalyzerSpec.

Module TextSpec.
(** No whitespace character but the space, and no two spaces in a row. *)
Fixpoint single_spaced_go (after_space : bool) (s : string) : bool :=
  match s with
  | EmptyString => true
  | String c s' =>
      if Py.isspace c
      then Py.chr_eqb c Py.space && negb after_space && single_spaced_go true s'
      else single_spaced_go false s'
  end.
Definition single_spaced (s : string) : bool := single_spaced_go false s.
End TextSpec.

Module TableSpec.
Import Cleaner.
(** Every column has one cell per row. *)
Definition well_formed (df : DataFrame) : Prop :=
  Forall (fun c => length (snd c) = nrows df) (columns df).

(** A label after [.str.lower().str.strip()]. *)
Definition standardized (label : string) : string := Py.strip (Py.lower label).

(** The columns that _clean_column_values reads without a test, in the
    order in which it reads them. *)
Definition required_columns : list string :=
  [ "completiontime"; "receiptno"; "withdrawn"; "paidin" ].

(** The cells of a column that are not missing. *)
Definition present (cells : list cell) : list cell :=
  List.filter (fun c => negb (isnull c)) cells.

(** A function on the cells, applied to the result of [df[label]]. *)
Definition lookup_map (g : list cell -> list cell) (r : lookup) : lookup :=
  match r with
  | Unique v => Unique (g v)
  | other => other
  end.

(** The frame from which _clean_column_values reads its columns: labels
    standardized, rows without a completion time dropped, the two aliases
    renamed. *)
Definition read_frame (df : DataFrame) (times : list cell) : DataFrame :=
  rename_if_present ("withdraw" +:+ String Py.newline "n") "withdrawn"
    (rename_if_present "receiptno." "receiptno"
       (filter_rows (map (fun c => negb (isnull c)) times) (standardize_labels df))).
End TableSpec.

Module KeywordSpec.
Import Categorizer.

(** The four fields of a transaction that a definition can name. *)
Definition field_names : list string :=
  [ "details"; "type_desc"; "type_class"; "entity" ].

(** Some character of the string is an upper-case letter. *)
Definition has_upper (s : string) : bool :=
  existsb Py.isupper (list_ascii_of_string s).

(** The keywords that the three textual operators of a spec compare with. *)
Definition keywords (fp : field_patterns) : list string :=
  default [] (contains fp) ++
  match equals fp with
  | Some (EqStr s) => [s]
  | _ => []
  end ++
  default [] (startswith fp).

(** The spec has a textual operator and neither of the other two. *)
Definition textual_only (fp : field_patterns) : bool :=
  (has (contains fp) || has (equals fp) || has (startswith fp)) &&
  negb (has (startswith_numeric fp)) && negb (has (not_starts_with fp)).

(** The categories for which _process_entity does something. *)
Definition processed_categories : list string :=
  money_transfer_cats ++ [ "PayBillPayments"; "airtime_bundle"; "Pochi" ].

(** The value of a field as matching sees it: in lower case. *)
Definition field_value (row : Cleaner.Transaction) (field_name : string) : option string :=
  if Py.str_eqb field_name "details" then Some (Py.lower (Cleaner.details row))
  else if Py.str_eqb field_name "type_desc" then Some (Py.lower (Cleaner.type_desc row))
  else if Py.str_eqb field_name "type_class" then Some (Py.lower (Cleaner.type_class row))
  else if Py.str_eqb field_name "entity" then Some (Py.lower (Cleaner.entity row))
  else None.
End KeywordSpec.

Module FormSpec.
Import Categorizer App.
(** The operators that the form offers. *)
Definition form_operators : list string := [ "contains"; "equals"; "startswith" ].

(** The category that the form describes, as handle_user_category builds
    it before it looks at the session. *)
Definition described_category
    (cat_name cat_type cat_description merchant_type color_map : string)
    (match_field match_operator match_values : string) (add_advanced : bool)
    (match_field_2 match_operator_2 match_values_2 : string) : CategoryDefinition :=
  let primary :=
    match operator_patterns match_operator (values_list match_values) with
    | Some fp => dict_set match_field fp []
    | None => []
    end in
  mkCategoryDefinition cat_name cat_type
    (if Py.nonempty cat_description then cat_description
     else cat_name +:+ " transactions")
    merchant_type color_map
    (if add_advanced && Py.nonempty match_values_2
     then match operator_patterns match_operator_2 (values_list_2 match_values_2) with
          | Some fp => dict_set match_field_2 fp primary
          | None => primary
          end
     else primary).
End FormSpec.

Module EntitySpec.
Import DetailsSpec.
(** Every character is whitespace. *)
Definition all_space (w : list ascii) : bool := forallb Py.isspace w.

(** The text does not end with a whitespace character. *)
Definition ends_in_text (g : list ascii) : Prop :=
  match last g with
  | Some c => Py.isspace c = false
  | None => True
  end.

(** The end of the subject, as [$] sees it: nothing left, or one final
    line feed. *)
Definition at_end (suf : list ascii) : bool :=
  match suf with
  | [] => true
  | [x] => Py.chr_eqb x Py.newline
  | _ => false
  end.

(** The first branch of the alternative of paybill_pattern and of
    business_payment_pattern. *)
Definition acc_branch : Regex.regex :=
  Regex.seq [ Regex.plus Regex.ws; Regex.lit "Acc."; Regex.plus Regex.ws;
              Regex.Group 2 (Regex.Star true Regex.dot) ].

Definition via_branch : Regex.regex :=
  Regex.seq [ Regex.plus Regex.ws; Regex.lit_nocase "via";
              Regex.Star false Regex.dot; Regex.lit_nocase "is";
              Regex.plus Regex.ws;
              Regex.Group 2 (Regex.Star true Regex.dot) ].
End EntitySpec.

Module Samples.
Import Cleaner.

(** A statement table of three rows as a loader could hand it over: the
    second row has no completion time, the time of the third does not
    parse. *)
Definition three_rows : DataFrame :=
  mkDataFrame 3
    [ (" receiptno", [CStr "R1"; CStr "R2"; CNaN]);
      ("CompletionTime", [CStr "2025-01-01 10:00:00"; CNaN; CStr "yesterday"]);
      ("details", [CStr "Pay  bill to 12345 - netflix ke"; CStr "Airtime purchase";
                   CStr "Customer transfer of funds charge"]);
      ("PaidIn", [CStr ""; CStr "50"; CNaN]);
      ("Withdrawn", [CStr "-1,100"; CStr "-"; CStr "-33"]);
      ("Balance", [CStr "5"; CStr "6"; CStr "7"]) ].

Definition three_rows_cleaned : list Transaction :=
  [ mkTransaction (Some "R1") (Some 1735725600%Z) "Pay Bill To 12345 - Netflix Ke"
      0 1100 "Pay Bill To 12345" "Netflix Ke" "Pay Bill To 12345" "";
    mkTransaction None None "Customer Transfer Of Funds Charge"
      0 33 "Customer Transfer Of Funds Charge" "Customer Transfer Of Funds Charge"
      "Customer Transfer Of Funds" "Charge" ].

(** Tables that pass detection and then fail. *)
Definition without_receipts : DataFrame :=
  mkDataFrame 1
    [ ("details", [CStr "Airtime purchase"]);
      ("completiontime", [CStr "2025-01-01 10:00:00"]) ].

Definition amounts_at (time : string) : list (string * list cell) :=
  [ ("completiontime", [CStr time]); ("receiptno", [CStr "R1"]);
    ("withdrawn", [CStr "10"]); ("paidin", [CStr "0"]) ].

Definition without_dates : DataFrame :=
  mkDataFrame 1 (("details", [CStr "Airtime purchase"]) :: amounts_at "yesterday").

Definition without_details : DataFrame :=
  mkDataFrame 1 (amounts_at "2025-01-01 10:00:00").

End Samples.

Module Cases.
Import Categorizer Analyzer App.

(** A definition whose keyword is written with a capital letter. *)
Definition capitalised : CategoryDefinition :=
  mkCategoryDefinition "Streaming" "Test" "Streaming services" "Merchant" "Blues"
    [ ("entity", Demo.contains_only [ "Netflix" ]) ].

(** A definition whose only spec is under a name that is not a field. *)
Definition by_amount : CategoryDefinition :=
  mkCategoryDefinition "Large" "Test" "Large amounts" "Merchant" "Reds"
    [ ("amount", Demo.contains_only [ "1000" ]) ].

(** A cleaned row whose details cell was NaN. *)
Definition nan_row : Cleaner.Transaction :=
  Cleaner.mkTransaction (Some "r2") (Some 1735689600%Z) "Nan" 0 10 "Nan" "Nan" "Nan" "".

(** Day numbers of 1 and 2 January 2025. *)
Definition new_year : Z := 20089.
Definition second_day : Z := 20090.

Definition timed (receipt : string) (time : option Z) : CategorizedTransaction :=
  mkCategorized (Some receipt) time "Customer Transfer" 0 100 "JOHN"
    "Customer Transfer To" "" "JOHN" false (Some "Send Money") None None.

(** Four transfers: at the two midnights, one second into the second day,
    and without a time. *)
Definition first_days : gmap string Frame :=
  {[ "Send Money" :=
       mkFrame true
         [ timed "r1" (Some 1735689600%Z); timed "r2" (Some 1735776000%Z);
           timed "r3" (Some 1735776001%Z); timed "r4" None ] ]}.

Definition january (_ : Z) : string := "January_2025".

(** A frame of deposits as a caller could pass it, without an is_charge
    column. *)
Definition deposits : gmap string Frame :=
  {[ "Deposit" :=
       mkFrame false
         [ mkCategorized (Some "d1") (Some 1735689600%Z) "Deposit Of Funds At Agent" 500 0
             "AGENT 1" "Deposit Of Funds At" "Agent" "AGENT 1" false (Some "Deposit")
             None None ] ]}.

Definition shop : CategorizedTransaction := Demo.with_entity "KPLC PREPAID ".

Definition one_custom : session := mkSession [ capitalised ] None.

End Cases.

(** * Properties *)

Section PyFacts.
Lemma str_eqb_eq a b : Py.str_eqb a b = true ↔ a = b.
Proof. apply String.eqb_eq. Qed.

Lemma mem_elem_of x xs : Py.mem x xs = true ↔ x ∈ xs.
Proof.
  unfold Py.mem. rewrite existsb_exists. split.
  - intros (y & Hy & E). apply str_eqb_eq in E as ->. by apply list_elem_of_In.
  - intros H. exists x. split; [by apply list_elem_of_In | by apply str_eqb_eq].
Qed.

Lemma mem_false x xs : Py.mem x xs = false ↔ x ∉ xs.
Proof. rewrite <- mem_elem_of. destruct (Py.mem x xs); naive_solver. Qed.

Lemma mem_same_elements x xs ys :
  (∀ y, y ∈ xs ↔ y ∈ ys) → Py.mem x xs = Py.mem x ys.
Proof.
  intros H. destruct (Py.mem x ys) eqn:E.
  - apply mem_elem_of, H, mem_elem_of, E.
  - apply mem_false. intros Hx. apply H, mem_elem_of in Hx. congruence.
Qed.
End PyFacts.

Section Duplicates.
Import Cleaner CleanerSpec.

Lemma select_keep_last cs :
  select (map negb (duplicated_last (map fst cs))) cs = keep_last cs.
Proof.
  induction cs as [|c cs IH]; simpl; [done|].
  destruct (Py.mem c.1 (map fst cs)); simpl; by rewrite IH.
Qed.

Lemma duplicated_first_none seen ls :
  existsb id (duplicated_first seen ls) = false ↔
  NoDup ls ∧ ∀ x, x ∈ ls → x ∉ seen.
Proof.
  revert seen. induction ls as [|l ls IH]; intros seen; simpl.
  - split; [intros _; split; [constructor | intros x Hx; inversion Hx] | done].
  - unfold id at 1. rewrite orb_false_iff, IH, mem_false, NoDup_cons.
    split.
    + intros (Hl & Hnd & Hseen). split; [split; [|done]|].
      * intros Hin. apply (Hseen _ Hin). left.
      * intros x [->|Hx]%elem_of_cons; [done|].
        intros Hs. apply (Hseen _ Hx). by right.
    + intros ((Hl & Hnd) & Hseen). split; [apply Hseen; left|]. split; [done|].
      intros x Hx [->|Hs]%elem_of_cons; [done|]. apply (Hseen x); [by right | done].
Qed.

Lemma no_duplicates_iff ls :
  existsb id (duplicated_first [] ls) = false ↔ NoDup ls.
Proof.
  rewrite duplicated_first_none. split; [by intros [? _]|].
  intros H; split; [done|]. intros x _ Hx. inversion Hx.
Qed.

Lemma keep_last_NoDup_id cs : NoDup (map fst cs) → keep_last cs = cs.
Proof.
  induction cs as [|c cs IH]; simpl; [done|].
  rewrite NoDup_cons. intros [Hc Hnd].
  apply mem_false in Hc. rewrite Hc. by rewrite IH.
Qed.

Lemma drop_duplicate_columns_eq df :
  drop_duplicate_columns df = mkDataFrame (nrows df) (keep_last (columns df)).
Proof.
  unfold drop_duplicate_columns, labels.
  destruct (existsb id (duplicated_first [] (map fst (columns df)))) eqn:E.
  - by rewrite select_keep_last.
  - apply no_duplicates_iff in E. rewrite keep_last_NoDup_id by done. by destruct df.
Qed.

Lemma keep_last_sublist cs : keep_last cs `sublist_of` cs.
Proof.
  induction cs as [|c cs IH]; simpl; [done|].
  destruct (Py.mem _ _); [by apply sublist_cons | by apply sublist_skip].
Qed.

Lemma keep_last_labels cs l : l ∈ map fst (keep_last cs) ↔ l ∈ map fst cs.
Proof.
  induction cs as [|c cs IH]; simpl; [done|].
  destruct (Py.mem c.1 (map fst cs)) eqn:E; simpl.
  - rewrite IH, elem_of_cons. apply mem_elem_of in E.
    split; [by right | by intros [->|?]].
  - by rewrite !elem_of_cons, IH.
Qed.

Lemma keep_last_NoDup cs : NoDup (map fst (keep_last cs)).
Proof.
  induction cs as [|c cs IH]; simpl; [constructor|].
  destruct (Py.mem c.1 (map fst cs)) eqn:E; simpl; [done|].
  apply NoDup_cons. split; [|done].
  rewrite keep_last_labels. by apply mem_false.
Qed.

Lemma keep_last_elem_of cs l vals :
  (l, vals) ∈ keep_last cs ↔
  ∃ pre post, cs = pre ++ (l, vals) :: post ∧ l ∉ map fst post.
Proof.
  induction cs as [|[l' v'] cs IH]; simpl.
  - rewrite elem_of_nil. split; [done|]. intros (pre & post & H & _). by destruct pre.
  - destruct (Py.mem l' (map fst cs)) eqn:E.
    + rewrite IH. split.
      * intros (pre & post & -> & Hn). by exists ((l', v') :: pre), post.
      * intros (pre & post & H & Hn). destruct pre as [|c' pre]; simplify_eq/=.
        -- by apply mem_elem_of in E.
        -- by exists pre, post.
    + rewrite elem_of_cons, IH. split.
      * intros [Heq|(pre & post & -> & Hn)].
        -- simplify_eq. exists [], cs. split; [done|]. by apply mem_false.
        -- by exists ((l', v') :: pre), post.
      * intros (pre & post & H & Hn). destruct pre as [|c' pre]; simplify_eq/=.
        -- by left.
        -- right. by exists pre, post.
Qed.

Lemma keep_last_empty cs : length (keep_last cs) = 0 ↔ length cs = 0.
Proof.
  split; [|by destruct cs].
  induction cs as [|c cs IH]; simpl; [done|].
  destruct (Py.mem c.1 (map fst cs)) eqn:E; simpl; [|done].
  intros H. apply IH in H. destruct cs; [|done]. done.
Qed.
End Duplicates.

Section DuplicatesTheorem.
Import Cleaner CleanerSpec.

Lemma existsb_pointwise {A} (f g : A → bool) l :
  (∀ x, f x = g x) → existsb f l = existsb g l.
Proof. intros H. induction l as [|x l IH]; simpl; [done|]. by rewrite H, IH. Qed.

Lemma elem_of_map_same {A B} (f : A → B) (xs ys : list A) :
  (∀ x, x ∈ xs ↔ x ∈ ys) → ∀ y, y ∈ map f xs ↔ y ∈ map f ys.
Proof.
  intros H y. rewrite !list_elem_of_In, !in_map_iff.
  split; intros (x & <- & Hx); exists x; (split; [done|]);
    apply list_elem_of_In, H, list_elem_of_In, Hx.
Qed.

Lemma has_expected_cols_same_labels df1 df2 :
  (∀ l, l ∈ labels df1 ↔ l ∈ labels df2) →
  has_expected_cols df1 = has_expected_cols df2.
Proof.
  intros H. unfold has_expected_cols. apply existsb_pointwise. intros e.
  apply mem_same_elements, elem_of_map_same, H.
Qed.

Lemma drop_duplicate_columns_labels df l :
  l ∈ labels (drop_duplicate_columns df) ↔ l ∈ labels df.
Proof. rewrite drop_duplicate_columns_eq. apply keep_last_labels. Qed.

Lemma drop_duplicate_columns_idem df :
  drop_duplicate_columns (drop_duplicate_columns df) = drop_duplicate_columns df.
Proof.
  rewrite !drop_duplicate_columns_eq. simpl.
  by rewrite (keep_last_NoDup_id (keep_last _)) by apply keep_last_NoDup.
Qed.

Lemma drop_duplicate_columns_empty df :
  empty (drop_duplicate_columns df) = empty df.
Proof.
  rewrite drop_duplicate_columns_eq. unfold empty. simpl. f_equal.
  destruct (Nat.eqb (length (columns df)) 0) eqn:E.
  - apply Nat.eqb_eq in E. apply Nat.eqb_eq. by apply keep_last_empty.
  - apply Nat.eqb_neq in E. apply Nat.eqb_neq. by rewrite keep_last_empty.
Qed.

(** C10. The duplicate-label step of clean_data keeps, in their order, the
    columns whose label does not come again further right: of every repeated
    label only the last occurrence stays, labels are unique afterwards, a
    frame without repeated labels is unchanged, and the number of rows is
    untouched. The step comes before any value cleaning: cleaning a table
    and cleaning its deduplicated version give the same result. *)
Theorem drop_duplicate_columns_keeps_last (df : DataFrame) :
  let df' := drop_duplicate_columns df in
  nrows df' = nrows df ∧
  columns df' `sublist_of` columns df ∧
  NoDup (labels df') ∧
  (∀ l vals, (l, vals) ∈ columns df' ↔
     ∃ pre post, columns df = pre ++ (l, vals) :: post ∧ l ∉ map fst post) ∧
  (NoDup (labels df) → df' = df) ∧
  (∀ to_numeric to_datetime,
     clean_data to_numeric to_datetime (Some df) =
     clean_data to_numeric to_datetime (Some df')).
Proof.
  simpl. rewrite drop_duplicate_columns_eq. simpl.
  split; [done|]. split; [apply keep_last_sublist|].
  split; [apply keep_last_NoDup|]. split; [apply keep_last_elem_of|].
  split.
  - intros H. rewrite keep_last_NoDup_id by done. by destruct df.
  - intros to_numeric to_datetime. rewrite <- drop_duplicate_columns_eq.
    unfold clean_data.
    rewrite drop_duplicate_columns_empty, drop_duplicate_columns_idem.
    by rewrite (has_expected_cols_same_labels (drop_duplicate_columns df) df)
      by apply drop_duplicate_columns_labels.
Qed.
End DuplicatesTheorem.

Section MatchField.
Import Categorizer CategorizerSpec.

Lemma matches_field_pattern_eq field_value fp :
  _matches_field_pattern field_value fp =
    some_operator_succeeds field_value fp ||
    (negb (has (contains fp)) && negb (has (equals fp)) &&
     negb (has (startswith fp)) && negb (has (startswith_numeric fp))).
Proof.
  unfold _matches_field_pattern, some_operator_succeeds, truthy.
  destruct (contains_hit field_value fp), (equals_hit field_value fp),
    (startswith_hit field_value fp), (startswith_numeric_hit field_value fp),
    (not_starts_with_hit field_value fp); simpl; try reflexivity.
  destruct (has (contains fp)), (has (equals fp)), (has (startswith fp)),
    (has (startswith_numeric fp)), (has (not_starts_with fp)), (other_keys fp);
    reflexivity.
Qed.

Lemma matches_field_when_claimed field_value fp :
  has (not_starts_with fp) = false ∨ not_starts_with_hit field_value fp = true ∨
  has (contains fp) || has (equals fp) || has (startswith fp) || has (startswith_numeric fp) = true →
  (_matches_field_pattern field_value fp = true ↔
   some_operator_succeeds field_value fp = true ∨ no_recognized_operator fp = true).
Proof.
  rewrite matches_field_pattern_eq. unfold no_recognized_operator, some_operator_succeeds.
  destruct (has (contains fp)), (has (equals fp)), (has (startswith fp)),
    (has (startswith_numeric fp)), (has (not_starts_with fp)),
    (not_starts_with_hit field_value fp); simpl;
    rewrite ?orb_true_r, ?orb_false_r; intuition congruence.
Qed.

(** C4, the defect. With not_starts_with as the only key of the spec, and a
    field value that does start with the prefix, no configured operator
    succeeds and a recognized key is present, yet _matches_field_pattern
    returns true: the final test of the function leaves not_starts_with out
    of the keys it looks for. *)
Theorem matches_field_not_starts_with_alone :
  let fp := only_not_starts_with "x" in
  _matches_field_pattern "xyz" fp = true ∧
  some_operator_succeeds "xyz" fp = false ∧
  no_recognized_operator fp = false.
Proof. vm_compute. done. Qed.
End MatchField.

Section Aggregation.
Import Categorizer Analyzer AnalyzerSpec.

Lemma nunique_size (xs : list (option string)) :
  nunique xs = size (list_to_set (omap id xs) : gset string).
Proof.
  unfold nunique.
  rewrite <- (size_list_to_set (C := gset string) (remove_dups (omap id xs)))
    by apply NoDup_remove_dups.
  f_equal. apply set_eq. intros x.
  by rewrite !elem_of_list_to_set, elem_of_remove_dups.
Qed.

Lemma filter_partition {A} (p : A → bool) (l : list A) :
  l ≡ₚ List.filter (fun x => negb (p x)) l ++ List.filter p l.
Proof.
  induction l as [|x l IH]; simpl; [done|].
  destruct (p x); simpl.
  - rewrite <- Permutation_middle. by constructor.
  - by constructor.
Qed.

(** Group keys *)
Lemma leb_trans a b c :
  String.leb a b = true → String.leb b c = true → String.leb a c = true.
Proof.
  intros H1 H2. apply Is_true_true.
  apply (transitivity (R := String.le) (y := b)); by apply Is_true_true.
Qed.

Lemma str_lt_trans a b c : str_lt a b → str_lt b c → str_lt a c.
Proof.
  intros [H1 N1] [H2 N2]. split; [by eapply leb_trans|].
  intros ->. apply N1. by apply String.leb_antisym.
Qed.

Lemma elem_of_insert_key x k ks : x ∈ insert_key k ks ↔ x = k ∨ x ∈ ks.
Proof.
  induction ks as [|k' ks IH]; simpl.
  - rewrite list_elem_of_singleton, elem_of_nil. tauto.
  - destruct (Py.str_eqb k k') eqn:E.
    + apply str_eqb_eq in E as ->. rewrite elem_of_cons. tauto.
    + destruct (String.leb k k'); rewrite !elem_of_cons, ?IH; tauto.
Qed.

Lemma insert_key_sorted k ks :
  StronglySorted str_lt ks → StronglySorted str_lt (insert_key k ks).
Proof.
  induction 1 as [|k' ks Hs IH Hall]; simpl.
  - repeat constructor.
  - destruct (Py.str_eqb k k') eqn:E; [by constructor|].
    assert (k ≠ k') as Hne by (intros ->; by rewrite String.eqb_refl in E).
    destruct (String.leb k k') eqn:L.
    + constructor; [by constructor|]. constructor; [done|].
      eapply Forall_impl; [exact Hall|]. intros y Hy. by apply (str_lt_trans _ k').
    + constructor; [done|]. apply Forall_forall. intros y Hy.
      apply elem_of_insert_key in Hy as [->|Hy].
      * split; [|done]. destruct (String.leb_total k k') as [?|?]; congruence.
      * rewrite Forall_forall in Hall. by apply Hall.
Qed.

Lemma group_keys_sorted rs : StronglySorted str_lt (group_keys rs).
Proof.
  induction rs as [|r rs IH]; simpl; [constructor|]. by apply insert_key_sorted.
Qed.

Lemma sorted_NoDup ks : StronglySorted str_lt ks → NoDup ks.
Proof.
  induction 1 as [|k ks Hs IH Hall]; [constructor|].
  apply NoDup_cons. split; [|done]. intros Hin.
  rewrite Forall_forall in Hall. apply Hall in Hin as [_ ?]. done.
Qed.

Lemma elem_of_group_keys e rs :
  e ∈ group_keys rs ↔ ∃ r, r ∈ rs ∧ processed_entity r = e.
Proof.
  induction rs as [|r rs IH]; simpl.
  - rewrite elem_of_nil. split; [done|]. intros (r & Hr & _). by apply elem_of_nil in Hr.
  - rewrite elem_of_insert_key, IH. split.
    + intros [->|(r' & Hr & He)]; [exists r | exists r']; rewrite elem_of_cons; auto.
    + intros (r' & [->|Hr]%elem_of_cons & He); [by left | right; by exists r'].
Qed.

(** Sorting by amount *)
Lemma insert_desc_perm x l : insert_desc x l ≡ₚ x :: l.
Proof.
  induction l as [|y l IH]; simpl; [done|].
  destruct (Qle_bool (amount y) (amount x)); [done|].
  rewrite IH. apply perm_swap.
Qed.

Lemma sort_values_desc_perm l : sort_values_desc l ≡ₚ l.
Proof.
  induction l as [|x l IH]; simpl; [done|].
  rewrite insert_desc_perm. by constructor.
Qed.

Lemma amount_ge_trans a b c : amount_ge a b → amount_ge b c → amount_ge a c.
Proof. unfold amount_ge. intros. by apply (Qle_trans _ (amount b)). Qed.

Lemma insert_desc_sorted x l :
  StronglySorted amount_ge l → StronglySorted amount_ge (insert_desc x l).
Proof.
  induction 1 as [|y l Hs IH Hall]; simpl.
  - repeat constructor.
  - destruct (Qle_bool (amount y) (amount x)) eqn:E.
    + apply Qle_bool_iff in E.
      constructor; [by constructor|]. constructor; [done|].
      eapply Forall_impl; [exact Hall|]. intros z Hz. by apply (amount_ge_trans _ y).
    + assert (amount_ge y x) as Hyx.
      { unfold amount_ge. destruct (Qlt_le_dec (amount y) (amount x)) as [Hlt|Hle]; [|done].
        apply Qlt_le_weak, Qle_bool_iff in Hlt. congruence. }
      constructor; [done|]. apply Forall_forall. intros z Hz.
      rewrite insert_desc_perm in Hz.
      apply elem_of_cons in Hz as [->|Hz]; [done|].
      rewrite Forall_forall in Hall. by apply Hall.
Qed.

Lemma sort_values_desc_sorted l : StronglySorted amount_ge (sort_values_desc l).
Proof.
  induction l as [|x l IH]; simpl; [constructor|]. by apply insert_desc_sorted.
Qed.

Lemma sorted_lookup_le (l : list AggRow) i j a b :
  StronglySorted amount_ge l → i < j →
  l !! i = Some a → l !! j = Some b → amount_ge a b.
Proof.
  intros Hs. revert i j. induction Hs as [|x l Hs IH Hall]; intros i j Hij Hi Hj.
  - done.
  - destruct j as [|j]; [lia|]. simpl in Hj.
    destruct i as [|i]; simpl in Hi.
    + simplify_eq. rewrite Forall_forall in Hall. apply Hall.
      by eapply list_elem_of_lookup_2.
    + apply (IH i j); [lia|done..].
Qed.
End Aggregation.

Section AnalyzeCategory.
Import Categorizer Analyzer AnalyzerSpec.

Lemma analyze_category_rows data category_name is_money_in df :
  data !! category_name = Some df → rows df ≠ [] →
  analyze_category data category_name is_money_in =
    mkAnalysisResult
      (sum (map (amount_of is_money_in) (principal_rows df)))
      (if has_is_charge df then sum (map (amount_of is_money_in) (charge_rows df))
       else 0%Q)
      (nunique (map receiptno (principal_rows df)))
      (sort_values_desc (agg is_money_in (principal_rows df)))
      (rows df).
Proof.
  intros Hdf Hrows. unfold analyze_category, principal_rows, charge_rows.
  rewrite Hdf. simpl. by destruct (rows df).
Qed.

Lemma analyze_category_no_rows data category_name is_money_in :
  (∀ df, data !! category_name = Some df → rows df = []) →
  analyze_category data category_name is_money_in = _empty_result.
Proof.
  intros H. unfold analyze_category.
  destruct (data !! category_name) as [df|]; simpl; [|done].
  by rewrite (H df).
Qed.

Lemma omap_id_map {A B} (f : A → option B) (l : list A) :
  omap id (map f l) = omap f l.
Proof.
  induction l as [|x l IH]; simpl; [done|].
  destruct (f x); simpl; [f_equal|]; exact IH.
Qed.

(** C6. analyze_category with is_money_in=False, on a frame with an
    is_charge column, splits the rows into the non-charge and the charge
    rows; total_amount is the sum of withdrawn over the non-charge rows,
    total_charges the sum of withdrawn over the charge rows, and
    transaction_count the number of distinct receipt numbers of the
    non-charge rows. On the rows [{withdrawn 300, not a charge}, {withdrawn
    30, a charge}] the three values are 300, 30 and 1. *)
Theorem analyze_category_money_out :
  (∀ (data : gmap string Frame) category_name df,
     data !! category_name = Some df → has_is_charge df = true →
     let res := analyze_category data category_name false in
     let principal := List.filter (fun r => negb (is_charge r)) (rows df) in
     let charges := List.filter (fun r => is_charge r) (rows df) in
     rows df ≡ₚ principal ++ charges ∧
     total_amount res = sum (map withdrawn principal) ∧
     total_charges res = sum (map withdrawn charges) ∧
     transaction_count res =
       size (list_to_set (omap receiptno principal) : gset string)) ∧
  (∀ category_name r1 r2 rc,
     withdrawn r1 = 300%Q → is_charge r1 = false → receiptno r1 = Some rc →
     withdrawn r2 = 30%Q → is_charge r2 = true →
     let res := analyze_category {[ category_name := frame_of [r1; r2] ]}
                  category_name false in
     total_amount res = 300%Q ∧ total_charges res = 30%Q ∧
     transaction_count res = 1).
Proof.
  split.
  - intros data category_name df Hdf Hcol. simpl.
    split; [apply filter_partition|].
    destruct (decide (rows df = [])) as [Hrows|Hrows].
    + rewrite analyze_category_no_rows; [by rewrite Hrows|].
      intros df' Hdf'. by simplify_eq.
    + rewrite (analyze_category_rows _ _ _ df) by done.
      unfold principal_rows, charge_rows. rewrite Hcol. simpl.
      split; [done|]. split; [done|].
      by rewrite nunique_size, omap_id_map.
  - intros category_name r1 r2 rc W1 C1 R1 W2 C2. simpl.
    rewrite (analyze_category_rows _ _ _ (frame_of [r1; r2]))
      by (by rewrite ?lookup_singleton_eq).
    unfold principal_rows, charge_rows. simpl. rewrite C1, C2. simpl.
    rewrite W1, W2, R1. done.
Qed.

Lemma agg_entities is_money_in rs :
  map agg_entity (agg is_money_in rs) = group_keys rs.
Proof.
  unfold agg. rewrite map_map. simpl. apply map_id.
Qed.

Lemma elem_of_agg is_money_in rs g :
  g ∈ agg is_money_in rs →
  count g = count_non_null (map receiptno (group (agg_entity g) rs)) ∧
  amount g = sum (map (amount_of is_money_in) (group (agg_entity g) rs)).
Proof.
  unfold agg. rewrite list_elem_of_In, in_map_iff. by intros (k & <- & _).
Qed.

(** C7. The aggregated frame of analyze_category is sorted by amount, largest
    first: every row's amount is >= the amount of the next row, and of every
    later row, so the first K rows are the K largest. For a category with
    rows, the frame has one row per processed_entity of the non-charge rows,
    with the number of their receipts as count and the sum of their amounts
    (paid_in or withdrawn, by direction) as amount. *)
Theorem aggregated_frame_sorted (data : gmap string Frame) category_name is_money_in :
  let frame := aggregated_frame (analyze_category data category_name is_money_in) in
  (∀ i a b, frame !! i = Some a → frame !! S i = Some b →
            (amount b <= amount a)%Q) ∧
  (∀ i j a b, i ≤ j → frame !! i = Some a → frame !! j = Some b →
              (amount b <= amount a)%Q) ∧
  (∀ df, data !! category_name = Some df → rows df ≠ [] →
     let transactions := principal_rows df in
     NoDup (map agg_entity frame) ∧
     (∀ e, e ∈ map agg_entity frame ↔
           ∃ r, r ∈ transactions ∧ processed_entity r = e) ∧
     (∀ g, g ∈ frame →
        let members := List.filter
                         (fun r => Py.str_eqb (processed_entity r) (agg_entity g))
                         transactions in
        count g = count_non_null (map receiptno members) ∧
        amount g = sum (map (amount_of is_money_in) members))).
Proof.
  simpl.
  assert (StronglySorted amount_ge
            (aggregated_frame (analyze_category data category_name is_money_in)))
    as Hsorted.
  { destruct (data !! category_name) as [df|] eqn:Hdf.
    - destruct (decide (rows df = [])) as [Hrows|Hrows].
      + rewrite analyze_category_no_rows; [constructor|].
        intros df' Hdf'. by simplify_eq.
      + rewrite (analyze_category_rows _ _ _ df) by done. simpl.
        apply sort_values_desc_sorted.
    - rewrite analyze_category_no_rows; [constructor|]. intros df' Hdf'. by simplify_eq. }
  split; [|split].
  - intros i a b Ha Hb. by apply (sorted_lookup_le _ i (S i) a b Hsorted); [lia|..].
  - intros i j a b Hij Ha Hb. destruct (decide (i = j)) as [->|Hne].
    + simplify_eq. apply Qle_refl.
    + by apply (sorted_lookup_le _ i j a b Hsorted); [lia|..].
  - intros df Hdf Hrows. rewrite (analyze_category_rows _ _ _ df) by done. simpl.
    pose proof (sort_values_desc_perm (agg is_money_in (principal_rows df))) as Hperm.
    assert (map agg_entity (sort_values_desc (agg is_money_in (principal_rows df)))
              ≡ₚ group_keys (principal_rows df)) as Hkeys.
    { rewrite <- (agg_entities is_money_in). by apply Permutation_map. }
    split; [|split].
    + rewrite Hkeys. apply sorted_NoDup, group_keys_sorted.
    + intros e. rewrite Hkeys. apply elem_of_group_keys.
    + intros g Hg. rewrite Hperm in Hg. by apply (elem_of_agg is_money_in).
Qed.
End AnalyzeCategory.

Section Categorize.
Import Categorizer CategorizerSpec.

Lemma process_entity_fields t c :
  let t' := _process_entity t c in
  category t' = category t ∧ receiptno t' = receiptno t ∧
  completiontime t' = completiontime t ∧ details t' = details t ∧
  paidin t' = paidin t ∧ withdrawn t' = withdrawn t ∧ entity t' = entity t ∧
  type_class t' = type_class t ∧ type_desc t' = type_desc t ∧
  is_charge t' = is_charge t.
Proof.
  unfold _process_entity.
  repeat match goal with
         | |- context [if ?b then _ else _] => destruct b
         | |- context [let '(_, _) := ?p in _] => destruct p
         end; simpl; repeat split.
Qed.

Lemma matched_record_of_row row d :
  category (matched_record row d) = Some (name d) ∧ of_row row (matched_record row d).
Proof.
  unfold matched_record, of_row.
  destruct (process_entity_fields (set_category (name d) (base_transaction_data row)) (name d))
    as (-> & -> & -> & -> & -> & -> & -> & -> & -> & _).
  simpl. repeat split.
Qed.

Lemma matching_loop {A B} (p : A → bool) (f : A → B) (l : list A) (acc : list B) :
  fold_left (fun matched x => if p x then matched ++ [f x] else matched) l acc =
  acc ++ map f (List.filter p l).
Proof.
  revert acc. induction l as [|x l IH]; intros acc; simpl.
  - by rewrite app_nil_r.
  - rewrite IH. destruct (p x); simpl; [|done]. by rewrite <- app_assoc.
Qed.

Lemma lower_empty s : Py.lower s = "" ↔ s = "".
Proof. by destruct s. Qed.

Lemma no_details_false s :
  no_details (Py.lower s) = false ↔ s ≠ "" ∧ Py.lower s ≠ "nan".
Proof.
  unfold no_details. rewrite orb_false_iff, negb_false_iff. split.
  - intros [H1 H2]. split.
    + intros ->. done.
    + intros E. rewrite E in H1. done.
  - intros [H1 H2]. split.
    + destruct (Py.str_eqb (Py.lower s) "nan") eqn:E; [|done].
      by apply str_eqb_eq in E.
    + destruct s; [done|]. done.
Qed.

Lemma categorize_transaction_eq defs row :
  no_details (Py.lower (Cleaner.details row)) = false →
  categorize_transaction defs row =
    match map (matched_record row) (List.filter (matches row) defs) with
    | [] => [ set_category "uncategorized" (base_transaction_data row) ]
    | matched => matched
    end.
Proof.
  intros H. unfold categorize_transaction. rewrite H.
  pose proof (matching_loop (matches row) (matched_record row) defs []) as L.
  simpl in L. rewrite L. by destruct (map _ _).
Qed.

(** C5. categorize_transaction never returns an empty list. For a row whose
    details are not empty and not nan (compared in lower case, as the code
    does), the result is one record per matching definition, in definition
    order, each tagged with that definition's name and carrying the data of
    the row; so a row that matches two definitions has a record in both
    categories. When no definition matches, the result is the single record
    tagged uncategorized. *)
Theorem categorize_transaction_fan_out (defs : list CategoryDefinition)
    (row : Cleaner.Transaction) :
  categorize_transaction defs row ≠ [] ∧
  (Cleaner.details row ≠ "" → Py.lower (Cleaner.details row) ≠ "nan" →
   let hits := List.filter (matches row) defs in
   (hits ≠ [] → categorize_transaction defs row = map (matched_record row) hits) ∧
   (hits = [] → categorize_transaction defs row =
                [ set_category "uncategorized" (base_transaction_data row) ]) ∧
   (∀ d, d ∈ defs → matches row d = true →
         ∃ r, r ∈ categorize_transaction defs row ∧
              category r = Some (name d) ∧ of_row row r)).
Proof.
  split.
  - destruct (no_details (Py.lower (Cleaner.details row))) eqn:E.
    + unfold categorize_transaction. by rewrite E.
    + rewrite categorize_transaction_eq by done.
      by destruct (map _ _).
  - intros H1 H2. simpl.
    assert (no_details (Py.lower (Cleaner.details row)) = false) as E
      by by apply no_details_false.
    rewrite categorize_transaction_eq by done.
    split; [|split].
    + intros Hne. destruct (List.filter (matches row) defs); done.
    + by intros ->.
    + intros d Hd Hm. exists (matched_record row d).
      destruct (matched_record_of_row row d) as [Hc Hr].
      split; [|done].
      assert (matched_record row d ∈ map (matched_record row) (List.filter (matches row) defs))
        as Hin.
      { apply list_elem_of_In, in_map, filter_In. split; [by apply list_elem_of_In|done]. }
      destruct (map _ _); [by apply elem_of_nil in Hin | done].
Qed.
End Categorize.

Section MaskedPhone.
Import Regex Categorizer.
#[local] Arguments Py.chr_eqb : simpl never.

Lemma chr_eqb_sym a b : Py.chr_eqb a b = Py.chr_eqb b a.
Proof.
  unfold Py.chr_eqb. destruct (Ascii.eqb b a) eqn:E.
  - apply Ascii.eqb_eq in E as ->. apply Ascii.eqb_refl.
  - apply Ascii.eqb_neq. apply Ascii.eqb_neq in E. congruence.
Qed.

Lemma startswith_empty s : Py.startswith s "" = true.
Proof. by destruct s. Qed.

Lemma star_greedy_accept p caps pre suf :
  star_greedy p accept caps pre suf = Some caps.
Proof.
  revert pre. induction suf as [|x suf IH]; intros pre; simpl; [done|].
  destruct (p x); [by rewrite IH | done].
Qed.

(** The asterisk pattern is found exactly in the strings with an asterisk. *)
Lemma search_masked_phone s :
  is_Some (search masked_phone_pattern s) ↔ Py.contains "*" s = true.
Proof.
  unfold search. generalize (@nil ascii) as pre.
  induction s as [|c s IH]; intros pre; simpl.
  - split; [by intros [? ?] | done].
  - unfold only. rewrite (chr_eqb_sym "*" c), startswith_empty, andb_true_r.
    destruct (Py.chr_eqb c "*"); simpl.
    + rewrite star_greedy_accept. simpl. split; [done | by eexists].
    + apply IH.
Qed.

Lemma no_space_cons c s :
  Py.contains " " (String c s) = false ↔
  Py.chr_eqb c Py.space = false ∧ Py.contains " " s = false.
Proof.
  simpl. rewrite startswith_empty, orb_false_iff, andb_true_r, (chr_eqb_sym " " c). done.
Qed.

Lemma split_first_space_cut token rest :
  Py.contains " " token = false →
  Py.split_first_space (token +:+ String Py.space rest) = [token; rest].
Proof.
  induction token as [|c token IH]; intros H.
  - done.
  - apply no_space_cons in H as [Hc H]. change (String c token +:+ ?x) with (String c (token +:+ x)).
    simpl. rewrite Hc, IH by done. done.
Qed.

Lemma split_first_space_whole s :
  Py.contains " " s = false → Py.split_first_space s = [s].
Proof.
  induction s as [|c s IH]; intros H; [done|].
  apply no_space_cons in H as [Hc H]. simpl. by rewrite Hc, IH.
Qed.

Lemma contains_nonempty sub s :
  Py.nonempty sub = true → Py.contains sub s = true → Py.nonempty s = true.
Proof. destruct s, sub; done. Qed.

Lemma process_masked_phone_masked entity :
  Py.contains "*" entity = true →
  process_masked_phone entity =
    match Py.split_first_space entity with
    | part0 :: part1 :: _ => (Py.title part1, Py.title part0)
    | [part0] => (Py.title part0, "")
    | [] => (entity, "")
    end.
Proof.
  intros H. unfold process_masked_phone.
  destruct entity as [|c e]; [done|]. simpl Py.str_eqb. cbv iota.
  apply search_masked_phone in H as [m ->]. done.
Qed.

Lemma process_masked_phone_unmasked entity :
  entity ≠ "" → Py.contains "*" entity = false →
  process_masked_phone entity = (Py.title entity, "").
Proof.
  intros Hne H. unfold process_masked_phone.
  destruct entity as [|c e]; [done|]. simpl Py.str_eqb. cbv iota.
  destruct (search masked_phone_pattern (String c e)) eqn:E; [|done].
  assert (Py.contains "*" (String c e) = true) by (apply search_masked_phone; by eexists).
  congruence.
Qed.

Lemma process_entity_money_transfer_phone t category :
  Py.mem category money_transfer_cats = true →
  looks_like_phone (entity t) = true →
  processed_entity (_process_entity t category) = fst (process_masked_phone (entity t)) ∧
  account_no (_process_entity t category) = Some (snd (process_masked_phone (entity t))).
Proof.
  intros Hc Hp. unfold _process_entity. rewrite Hc, Hp.
  by destruct (process_masked_phone (entity t)).
Qed.

(** C8, amended. For a record in a money-transfer category whose entity
    contains the masking character, entity processing cuts the entity at its
    first space: processed_entity is the title-cased remainder and account_no
    the title-cased leading token; without a space the whole title-cased
    entity is the name and account_no is empty. An entity that starts with a
    digit and has no masking character is not cut: processed_entity is the
    whole title-cased entity and account_no is empty. *)
Theorem process_entity_masked_phone (t : CategorizedTransaction) (category : string) :
  Py.mem category money_transfer_cats = true →
  let t' := _process_entity t category in
  (Py.contains "*" (entity t) = true →
     (∀ token rest,
        entity t = token +:+ String Py.space rest → Py.contains " " token = false →
        processed_entity t' = Py.title rest ∧ account_no t' = Some (Py.title token)) ∧
     (Py.contains " " (entity t) = false →
        processed_entity t' = Py.title (entity t) ∧ account_no t' = Some "")) ∧
  (starts_with_digit (entity t) = true → Py.contains "*" (entity t) = false →
     processed_entity t' = Py.title (entity t) ∧ account_no t' = Some "").
Proof.
  intros Hc. simpl. split.
  - intros Hstar.
    assert (looks_like_phone (entity t) = true) as Hp.
    { unfold looks_like_phone. rewrite Hstar, orb_true_r, andb_true_r.
      by apply (contains_nonempty "*"). }
    destruct (process_entity_money_transfer_phone t category Hc Hp) as [-> ->].
    rewrite process_masked_phone_masked by done. split.
    + intros token rest -> Hsp. by rewrite split_first_space_cut.
    + intros Hsp. by rewrite split_first_space_whole.
  - intros Hd Hstar.
    assert (entity t ≠ "") as Hne by (intros E; by rewrite E in Hd).
    assert (looks_like_phone (entity t) = true) as Hp.
    { unfold looks_like_phone. rewrite Hd. simpl. rewrite andb_true_r. by destruct (entity t). }
    destruct (process_entity_money_transfer_phone t category Hc Hp) as [-> ->].
    by rewrite process_masked_phone_unmasked.
Qed.
End MaskedPhone.

Section Runs.
Import Categorizer CategorizerSpec.

Lemma add_to_category_lookup cats r c :
  add_to_category cats r !! c =
    (fun l => l ++ List.filter (fun r => bool_decide (category r = Some c)) [r])
      <$> cats !! c.
Proof.
  unfold add_to_category. simpl.
  destruct (category r) as [c'|] eqn:Hc.
  - destruct (decide (c' = c)) as [->|Hne].
    + rewrite bool_decide_true by done.
      destruct (cats !! c) as [l|] eqn:Hl; simpl.
      * by rewrite lookup_insert_eq.
      * by rewrite Hl.
    + rewrite bool_decide_false by congruence.
      destruct (cats !! c') as [l|] eqn:Hl; simpl.
      * rewrite lookup_insert_ne by done.
        destruct (cats !! c); simpl; [by rewrite app_nil_r | done].
      * destruct (cats !! c); simpl; [by rewrite app_nil_r | done].
  - rewrite bool_decide_false by done.
    destruct (cats !! c); simpl; [by rewrite app_nil_r | done].
Qed.

Lemma add_all_lookup rs cats c :
  fold_left add_to_category rs cats !! c =
    (fun l => l ++ List.filter (fun r => bool_decide (category r = Some c)) rs)
      <$> cats !! c.
Proof.
  revert cats. induction rs as [|r rs IH]; intros cats.
  - simpl. destruct (cats !! c); simpl; [by rewrite app_nil_r | done].
  - cbn [fold_left]. rewrite IH, add_to_category_lookup.
    destruct (cats !! c) as [l|]; simpl; [|done].
    destruct (bool_decide (category r = Some c)); simpl; by rewrite <- ?app_assoc.
Qed.

Lemma categorize_rows_lookup defs df cats c :
  fold_left
    (fun cats row => fold_left add_to_category (categorize_transaction defs row) cats)
    df cats !! c =
  (fun l => l ++ membership defs df c) <$> cats !! c.
Proof.
  unfold membership. revert cats. induction df as [|row df IH]; intros cats.
  - simpl. destruct (cats !! c); simpl; [by rewrite app_nil_r | done].
  - cbn [fold_left flat_map]. rewrite IH, add_all_lookup, List.filter_app.
    destruct (cats !! c) as [l|]; simpl; [|done]. by rewrite app_assoc.
Qed.

Lemma init_names_lookup defs (m0 : gmap string (list CategorizedTransaction)) c :
  fold_left (fun m cat => <[name cat := []]> m) defs m0 !! c =
    if Py.mem c (map name defs) then Some [] else m0 !! c.
Proof.
  revert m0. induction defs as [|d defs IH]; intros m0; [done|].
  cbn [fold_left]. rewrite IH. simpl.
  destruct (Py.mem c (map name defs)) eqn:E.
  - by rewrite orb_true_r.
  - rewrite orb_false_r. destruct (Py.str_eqb c (name d)) eqn:E'.
    + apply str_eqb_eq in E' as ->. by rewrite lookup_insert_eq.
    + rewrite lookup_insert_ne; [done|]. intros Heq.
      unfold Py.str_eqb in E'. by rewrite Heq, String.eqb_refl in E'.
Qed.

Lemma init_lookup loaded custom c :
  categories (__init__ loaded custom) !! c =
    if known_category (category_definitions (__init__ loaded custom)) c
    then Some [] else None.
Proof.
  unfold __init__, known_category. cbn [categories category_definitions].
  set (defs := match custom with Some (c0 :: cs) => (c0 :: cs) ++ loaded | _ => loaded end).
  destruct (Py.str_eqb c "uncategorized") eqn:E1.
  { apply str_eqb_eq in E1 as ->. rewrite lookup_insert_eq. by rewrite !orb_true_r. }
  rewrite lookup_insert_ne by (intros <-; unfold Py.str_eqb in E1; by rewrite String.eqb_refl in E1).
  destruct (Py.str_eqb c "NoDetails") eqn:E2.
  { apply str_eqb_eq in E2 as ->. rewrite lookup_insert_eq. by rewrite !orb_true_r. }
  rewrite lookup_insert_ne by (intros <-; unfold Py.str_eqb in E2; by rewrite String.eqb_refl in E2).
  rewrite init_names_lookup, lookup_empty, !orb_false_r.
  by destruct (Py.mem c (map name defs)).
Qed.

(** C9, amended. On a categorizer constructed for the run, as every caller
    in the repository does, the result maps each defined name and the two
    sentinels to exactly the records that categorization of the input tags
    with it, in input order: a function of the definition list and the
    input alone, hence the same on every such run. A second call on the same
    categorizer object returns, for every category, the list of the first
    call followed by itself. *)
Theorem categorization_on_new_and_used_categorizer
    (loaded : list CategoryDefinition) (custom : option (list CategoryDefinition))
    (df : list Cleaner.Transaction) :
  let self := __init__ loaded custom in
  let defs := category_definitions self in
  let first_run := categorize_transactions self df in
  let second_run := categorize_transactions (fst first_run) df in
  categorize_with_new_categorizer loaded custom df = snd first_run ∧
  (∀ c, snd first_run !! c =
        if known_category defs c then Some (membership defs df c) else None) ∧
  (∀ c, snd second_run !! c = (fun l => l ++ l) <$> snd first_run !! c).
Proof.
  intros self defs first_run second_run.
  subst second_run first_run defs self. split; [done|]. split.
  - intros c. unfold categorize_transactions. cbn [snd].
    rewrite categorize_rows_lookup, init_lookup.
    by destruct (known_category _ c).
  - intros c. unfold categorize_transactions. cbn [fst snd category_definitions categories].
    rewrite !categorize_rows_lookup, init_lookup.
    by destruct (known_category _ c).
Qed.
End Runs.

Section Amounts.
Import Cleaner CleanerSpec.
Variable to_numeric : string → option Q.
Variable to_datetime : string → option Z.

Lemma clean_withdrawn_nonneg c : (0 <= clean_withdrawn to_numeric c)%Q.
Proof.
  unfold clean_withdrawn. destruct (to_numeric (amount_text c)); simpl.
  - apply Qabs_nonneg.
  - apply Qle_refl.
Qed.

Lemma clean_paidin_negative c :
  (clean_paidin to_numeric c < 0)%Q ↔
  ∃ q, to_numeric (amount_text c) = Some q ∧ (q < 0)%Q.
Proof.
  unfold clean_paidin. destruct (to_numeric (amount_text c)) as [q|]; simpl.
  - split; [by exists q | by intros (? & [= <-] & ?)].
  - split; [intros H; by apply Qlt_irrefl in H | by intros (? & ? & ?)].
Qed.

Lemma remove_char_absent c s : Py.contains (String c "") (Py.remove_char c s) = false.
Proof.
  induction s as [|x s IH]; [done|]. simpl Py.remove_char.
  destruct (Py.chr_eqb x c) eqn:E; [done|].
  cbn [Py.contains Py.startswith]. rewrite IH.
  replace (Py.chr_eqb c x) with false; [by destruct (Py.remove_char c s)|].
  symmetry. apply Ascii.eqb_neq. apply Ascii.eqb_neq in E. congruence.
Qed.

Lemma amount_text_no_comma c : Py.contains "," (amount_text c) = false.
Proof.
  unfold amount_text. destruct (Py.mem _ placeholders); [done|].
  apply remove_char_absent.
Qed.

Lemma make_rows_elem t rs ts ds ps ws :
  t ∈ make_rows rs ts ds ps ws → paidin t ∈ ps ∧ withdrawn t ∈ ws.
Proof.
  revert ts ds ps ws.
  induction rs as [|r rs IH]; intros [|t0 ts] [|d ds] [|p ps] [|w ws]; simpl;
    try (intros H; by apply elem_of_nil in H).
  intros [->|H]%elem_of_cons.
  - unfold make_transaction. destruct (split_details d), (split_type _). simpl.
    split; left.
  - apply IH in H as [? ?]. split; by right.
Qed.

Lemma clean_column_values_amounts df cols :
  _clean_column_values to_numeric to_datetime df = Ok cols →
  ∃ withdrawns paidins,
    col_withdrawn cols = map (clean_withdrawn to_numeric) withdrawns ∧
    col_paidin cols = map (clean_paidin to_numeric) paidins.
Proof.
  unfold _clean_column_values.
  destruct (get "completiontime" _) as [times|]; [|done]. cbn [mbind result_bind bind].
  match goal with |- context [List.filter ?f expected_cols_lower] =>
    destruct (List.filter f expected_cols_lower) end; [done|].
  repeat match goal with
         | |- context [get ?l ?d] => destruct (get l d); cbn [mbind result_bind bind]; [|done]
         end.
  match goal with |- context [column "details" ?d] => destruct (column "details" d) end;
    cbn [mbind result_bind bind]; try done; intros [= <-]; by eexists _, _.
Qed.

Lemma clean_data_rows df rows :
  clean_data to_numeric to_datetime df = Ok rows →
  ∃ cols ds,
    rows = make_rows (col_receiptno cols) (col_completiontime cols) ds
             (col_paidin cols) (col_withdrawn cols) ∧
    ∃ withdrawns paidins,
      col_withdrawn cols = map (clean_withdrawn to_numeric) withdrawns ∧
      col_paidin cols = map (clean_paidin to_numeric) paidins.
Proof.
  unfold clean_data. destruct df as [df|]; [|done].
  destruct (empty df); [done|]. destruct (negb (has_expected_cols df)); [done|].
  destruct (_clean_column_values _ _ _) as [cols|] eqn:Hcols; [|done].
  cbn [mbind result_bind bind].
  destruct (date_range cols); [|done]. cbn [mbind result_bind bind].
  unfold _extract_transaction_info. destruct (col_details cols) as [ds|]; [|done].
  intros [= <-]. exists cols, ds. split; [done|].
  by eapply clean_column_values_amounts.
Qed.

(** C3, amended. For every row that clean_data produces, withdrawn is the
    cleaned value of a source cell and is >= 0 whatever the sign or format of
    the source, while paid_in is the parsed value taken as it is: it is
    negative exactly when the source text parses to a negative number. In
    both columns the thousands separators are removed before parsing, the
    placeholders (empty, hyphen, N/A, nan) become the text 0 and so the
    amount 0 for a parser that reads 0 as zero, and a text that does not
    parse gives 0. *)
Theorem amounts_after_cleaning :
  (∀ df rows t,
     clean_data to_numeric to_datetime df = Ok rows → t ∈ rows →
     ∃ w p,
       withdrawn t = clean_withdrawn to_numeric w ∧
       paidin t = clean_paidin to_numeric p ∧
       (0 <= withdrawn t)%Q ∧
       ((paidin t < 0)%Q ↔ ∃ q, to_numeric (amount_text p) = Some q ∧ (q < 0)%Q)) ∧
  (∀ c, Py.contains "," (amount_text c) = false ∧
        amount_text c = amount_text (CStr (Py.remove_char "," (astype_str c)))) ∧
  (∀ c, Py.mem (Py.remove_char "," (astype_str c)) placeholders = true →
        amount_text c = "0" ∧
        (to_numeric "0" = Some 0%Q →
         clean_withdrawn to_numeric c = 0%Q ∧ clean_paidin to_numeric c = 0%Q)) ∧
  (∀ c, to_numeric (amount_text c) = None →
        clean_withdrawn to_numeric c = 0%Q ∧ clean_paidin to_numeric c = 0%Q).
Proof.
  split; [|split; [|split]].
  - intros df rows t Hclean Ht.
    apply clean_data_rows in Hclean as (cols & ds & -> & ws & ps & Hw & Hp).
    apply make_rows_elem in Ht as [Hin_p Hin_w].
    rewrite Hw in Hin_w. rewrite Hp in Hin_p.
    apply list_elem_of_In, in_map_iff in Hin_w as (w & Ew & _).
    apply list_elem_of_In, in_map_iff in Hin_p as (p & Ep & _).
    exists w, p. rewrite <- Ew, <- Ep. split; [done|]. split; [done|].
    split; [apply clean_withdrawn_nonneg | apply clean_paidin_negative].
  - intros c. split; [apply amount_text_no_comma|].
    unfold amount_text. simpl astype_str.
    assert (∀ s, Py.remove_char "," (Py.remove_char "," s) = Py.remove_char "," s) as Hidem.
    { induction s as [|x s IH]; [done|]. simpl.
      destruct (Py.chr_eqb x ",") eqn:E; [done|]. simpl. by rewrite E, IH. }
    by rewrite Hidem.
  - intros c Hc. unfold clean_withdrawn, clean_paidin, amount_text. rewrite Hc.
    split; [done|]. by intros ->.
  - intros c Hc. unfold clean_withdrawn, clean_paidin. by rewrite Hc.
Qed.
End Amounts.

Section SchemaError.
Import Cleaner CleanerSpec.
Variable to_numeric : string → option Q.
Variable to_datetime : string → option Z.

Lemma not_schema_error_bind {A B} (r : result A) (f : A → result B) :
  not_schema_error r → (∀ a, not_schema_error (f a)) → not_schema_error (r ≫= f).
Proof.
  intros Hr Hf msg. destruct r as [a|e]; cbn [mbind result_bind bind].
  - apply Hf.
  - intros [= ->]. by apply (Hr msg).
Qed.

Lemma not_schema_error_get l df : not_schema_error (get l df).
Proof. intros msg. unfold get. by destruct (column l df). Qed.

Lemma recognized_labels_eq :
  map (fun expected => Py.remove_char Py.space (Py.lower expected)) EXPECTED_COLUMNS =
  recognized_labels.
Proof. reflexivity. Qed.

Lemma has_expected_cols_iff df :
  has_expected_cols df = true ↔
  ∃ l, l ∈ labels df ∧ Py.strip l ∈ recognized_labels.
Proof.
  unfold has_expected_cols. rewrite <- recognized_labels_eq, existsb_exists. split.
  - intros (e & He & Hm). apply mem_elem_of, list_elem_of_In, in_map_iff in Hm as (l & El & Hl).
    exists l. split; [by apply list_elem_of_In|]. rewrite El.
    apply list_elem_of_In, in_map_iff. by exists e.
  - intros (l & Hl & Hr). apply list_elem_of_In, in_map_iff in Hr as (e & Ee & He).
    exists e. split; [done|]. rewrite Ee. apply mem_elem_of, list_elem_of_In, in_map_iff.
    exists l. split; [done | by apply list_elem_of_In].
Qed.

Lemma get_Ok_label l df v : get l df = Ok v → Py.mem l (labels df) = true.
Proof.
  unfold get, column, labels. intros H.
  destruct (List.filter _ (columns df)) as [|c cs] eqn:E; [done|].
  assert (In c (List.filter (fun c => Py.str_eqb c.1 l) (columns df))) as Hc
    by (rewrite E; by left).
  apply filter_In in Hc as [Hc Hl]. apply str_eqb_eq in Hl as <-.
  apply mem_elem_of, list_elem_of_In, in_map. done.
Qed.

Lemma labels_filter_rows mask df : labels (filter_rows mask df) = labels df.
Proof. unfold labels, filter_rows. simpl. by rewrite map_map. Qed.

Lemma mem_rename l old new df :
  Py.str_eqb l old = false → Py.mem l (labels df) = true →
  Py.mem l (labels (rename old new df)) = true.
Proof.
  intros Hne H. apply mem_elem_of, list_elem_of_In, in_map_iff in H as ([l' v] & <- & Hin).
  apply mem_elem_of, list_elem_of_In, in_map_iff.
  exists (if Py.str_eqb l' old then new else l', v). simpl in *. rewrite Hne.
  split; [done|]. unfold rename. simpl. apply in_map_iff. exists (l', v).
  simpl. by rewrite Hne.
Qed.

Lemma mem_rename_if_present l old new df :
  Py.str_eqb l old = false → Py.mem l (labels df) = true →
  Py.mem l (labels (rename_if_present old new df)) = true.
Proof.
  intros Hne H. unfold rename_if_present.
  destruct (Py.mem old (labels df)); [by apply mem_rename | done].
Qed.

Lemma clean_column_values_not_schema_error df :
  not_schema_error (_clean_column_values to_numeric to_datetime df).
Proof.
  unfold _clean_column_values.
  destruct (get "completiontime" (standardize_labels df)) as [times|e] eqn:Htimes;
    cbn [mbind result_bind bind].
  2: { pose proof (not_schema_error_get "completiontime" (standardize_labels df)) as Hg.
       rewrite Htimes in Hg. intros msg [= ->]. by apply (Hg msg). }
  apply get_Ok_label in Htimes.
  match goal with
  | |- context [List.filter (fun col => Py.mem col (labels ?d)) expected_cols_lower] =>
      set (df3 := d)
  end.
  assert (Py.mem "completiontime" (labels df3) = true) as H3.
  { unfold df3. do 2 (apply mem_rename_if_present; [done|]).
    by rewrite labels_filter_rows. }
  clearbody df3.
  destruct (List.filter _ expected_cols_lower) as [|c cs] eqn:E.
  { exfalso.
    assert (In "completiontime"
              (List.filter (fun col => Py.mem col (labels df3)) expected_cols_lower)) as Hin.
    { apply filter_In. split; [|done]. vm_compute. tauto. }
    by rewrite E in Hin. }
  repeat (apply not_schema_error_bind; [apply not_schema_error_get | intros ?]).
  apply not_schema_error_bind; [by destruct (column "details" df3) | by intros ?].
Qed.

Lemma clean_data_after_detection df :
  empty df = false → has_expected_cols df = true →
  not_schema_error (clean_data to_numeric to_datetime (Some df)).
Proof.
  intros He Hh. unfold clean_data. rewrite He, Hh. simpl negb. cbv iota.
  apply not_schema_error_bind; [apply clean_column_values_not_schema_error|].
  intros cols. apply not_schema_error_bind.
  - unfold date_range. by destruct (forallb _ _).
  - intros _. unfold _extract_transaction_info. by destruct (col_details cols).
Qed.

Lemma empty_iff df : empty df = true ↔ nrows df = 0 ∨ columns df = [].
Proof.
  unfold empty. rewrite orb_true_iff, !Nat.eqb_eq.
  split; (intros [?|H]; [by left | right]); by destruct (columns df).
Qed.

(** C2, what the code does. clean_data raises DataCleaningError exactly
    when the table is None, has no row or no column, or has no column label
    that, stripped of surrounding whitespace, equals one of the recognized
    names written in lower case: detection lower-cases the expected names
    only, so the comparison is case-sensitive on the table's side. The
    check after standardization adds no case of its own. In particular a
    table with a row, a column and such a label raises no DataCleaningError,
    at detection or later. *)
Theorem clean_data_schema_error (df : option DataFrame) :
  ((∃ msg, clean_data to_numeric to_datetime df = Raise (DataCleaningError msg)) ↔
   df = None ∨
   ∃ d, df = Some d ∧
        (nrows d = 0 ∨ columns d = [] ∨
         ¬ ∃ l, l ∈ labels d ∧ Py.strip l ∈ recognized_labels)) ∧
  (∀ d, df = Some d → nrows d ≠ 0 → columns d ≠ [] →
        (∃ l, l ∈ labels d ∧ Py.strip l ∈ recognized_labels) →
        not_schema_error (clean_data to_numeric to_datetime df)).
Proof.
  assert (∀ d, nrows d ≠ 0 → columns d ≠ [] →
               (∃ l, l ∈ labels d ∧ Py.strip l ∈ recognized_labels) →
               not_schema_error (clean_data to_numeric to_datetime (Some d))) as Hpass.
  { intros d Hn Hc Hl. apply clean_data_after_detection.
    - destruct (empty d) eqn:E; [|done]. apply empty_iff in E as [?|?]; done.
    - by apply has_expected_cols_iff. }
  split.
  - split.
    + intros [msg Hmsg]. destruct df as [d|]; [right | by left].
      exists d. split; [done|].
      destruct (decide (nrows d = 0)) as [?|Hn]; [by left|].
      destruct (decide (columns d = [])) as [?|Hc]; [by right; left|].
      right; right. intros Hl. by apply (Hpass d Hn Hc Hl msg).
    + intros [->|(d & -> & H)]; [by eexists|].
      unfold clean_data. destruct (empty d) eqn:E; [by eexists|].
      destruct (has_expected_cols d) eqn:Hh; [|by eexists].
      exfalso. destruct H as [H|[H|H]].
      * assert (empty d = true) by (apply empty_iff; by left). congruence.
      * assert (empty d = true) by (apply empty_iff; by right). congruence.
      * by apply H, has_expected_cols_iff.
  - intros d ->. apply Hpass.
Qed.
End SchemaError.

Section DetailsPattern.
Import Regex Cleaner DetailsSpec.
#[local] Arguments Py.chr_eqb : simpl never.
#[local] Arguments Py.isspace : simpl never.

Lemma consumed_eq pre0 suf0 g suf :
  consumed (Cursor pre0 suf0) (Cursor (rev g ++ pre0) suf) = text g.
Proof.
  unfold consumed. simpl. f_equal.
  rewrite length_app, length_rev.
  replace (length g + length pre0 - length pre0) with (length (rev g)) by (rewrite length_rev; lia).
  by rewrite take_app_length, rev_involutive.
Qed.

Lemma star_greedy_capture n z0 caps g t :
  star_greedy dot (fun z' caps' => accept z' ((n, consumed z0 z') :: caps')) caps
    (rev g ++ before z0) t =
  Some ((n, text (g ++ line t)) :: caps).
Proof.
  destruct z0 as [pre0 suf0]. simpl before.
  revert g. induction t as [|x t IH]; intros g; simpl.
  - by rewrite consumed_eq, app_nil_r.
  - destruct (dot x) eqn:E.
    + change (x :: rev g ++ pre0) with ((x :: rev g) ++ pre0).
      replace (x :: rev g) with (rev (g ++ [x])) by (by rewrite rev_app_distr).
      rewrite IH. simpl. by rewrite <- app_assoc.
    + by rewrite consumed_eq, app_nil_r.
Qed.

Lemma exec_group2 pre t caps :
  exec (Group 2 (Star true dot)) accept (Cursor pre t) caps =
  Some ((2, text (line t)) :: caps).
Proof.
  simpl. apply (star_greedy_capture 2 (Cursor pre t) caps []).
Qed.

Lemma exec_after_gap pre x t caps :
  exec after_gap accept (Cursor pre (x :: t)) caps =
  if Py.isspace x
  then option_map (fun r => (2, text (line r)) :: caps) (entity_start t)
  else None.
Proof.
  unfold after_gap. cbn [seq exec after before]. unfold ws.
  destruct (Py.isspace x); [|done].
  destruct t as [|c t]; [done|]. cbn [after entity_start]. unfold non_ws.
  destruct (Py.isspace c); [done|]. simpl negb. cbv iota.
  apply (exec_group2 (x :: pre) (c :: t)).
Qed.

Lemma orelse_none_r a : orelse a None = a.
Proof. by destruct a. Qed.

Lemma exec_gap_and_entity pre t caps :
  exec gap_and_entity accept (Cursor pre t) caps =
  option_map (fun r => (2, text (line r)) :: caps) (after_hyphen t).
Proof.
  unfold gap_and_entity. cbn [exec before after].
  revert pre. induction t as [|x t IH]; intros pre.
  - done.
  - cbn [star_greedy after_hyphen]. unfold only at 1.
    rewrite exec_after_gap.
    destruct (Py.chr_eqb x Py.space) eqn:E.
    + rewrite IH. apply Ascii.eqb_eq in E as ->.
      change (Py.isspace Py.space) with true. cbv iota.
      by destruct (after_hyphen t).
    + by destruct (Py.isspace x).
Qed.

Lemma exec_from_hyphen pre x t caps :
  exec from_hyphen accept (Cursor pre (x :: t)) caps =
  if Py.chr_eqb x hyphen
  then option_map (fun r => (2, text (line r)) :: caps) (after_hyphen t)
  else None.
Proof.
  unfold from_hyphen. cbn [exec after before]. unfold only.
  destruct (Py.chr_eqb x hyphen); [|done]. apply exec_gap_and_entity.
Qed.

Lemma skip_then_hyphen pre suf caps :
  star_greedy (only Py.space) (exec from_hyphen accept) caps pre suf =
  match skip_spaces suf with
  | x :: t =>
      if Py.chr_eqb x hyphen
      then option_map (fun r => (2, text (line r)) :: caps) (after_hyphen t)
      else None
  | [] => None
  end.
Proof.
  revert pre. induction suf as [|x suf IH]; intros pre.
  - done.
  - cbn [star_greedy skip_spaces]. unfold only at 1.
    destruct (Py.chr_eqb x Py.space) eqn:E.
    + rewrite IH, exec_from_hyphen. apply Ascii.eqb_eq in E as ->.
      change (Py.chr_eqb Py.space hyphen) with false. cbv iota.
      apply orelse_none_r.
    + apply exec_from_hyphen.
Qed.

Lemma exec_from_position pre suf caps :
  exec from_position accept (Cursor pre suf) caps =
  option_map (fun r => (2, text (line r)) :: caps) (attempt pre suf).
Proof.
  unfold from_position, attempt. cbn [exec before after].
  rewrite skip_then_hyphen. unfold non_ws.
  destruct pre as [|p pre]; simpl prev_ok.
  - destruct (skip_spaces suf) as [|x t]; [done|]. by destruct (Py.chr_eqb x hyphen).
  - destruct (Py.isspace p); simpl negb; cbv iota; [|done].
    destruct (skip_spaces suf) as [|x t]; [done|]. by destruct (Py.chr_eqb x hyphen).
Qed.

Lemma DETAILS_PATTERN_eq :
  DETAILS_PATTERN = Seq (Group 1 (Star false dot)) from_position.
Proof. reflexivity. Qed.

Lemma lazy_group1 z0 g suf :
  star_lazy dot
    (fun z' caps' => exec from_position accept z' ((1, consumed z0 z') :: caps'))
    [] (rev g ++ before z0) suf =
  match scan (rev g ++ before z0) suf with
  | Some (g', r) => Some [ (2, text (line r)); (1, text (g ++ g')) ]
  | None => None
  end.
Proof.
  destruct z0 as [pre0 suf0]. simpl before.
  revert g. induction suf as [|x suf IH]; intros g.
  - cbn [star_lazy scan]. rewrite exec_from_position, consumed_eq.
    destruct (attempt (rev g ++ pre0) []); simpl; [by rewrite app_nil_r | done].
  - cbn [star_lazy scan]. rewrite exec_from_position, consumed_eq.
    destruct (attempt (rev g ++ pre0) (x :: suf)); simpl; [by rewrite app_nil_r|].
    destruct (dot x); [|done].
    change (x :: rev g ++ pre0) with ((x :: rev g) ++ pre0).
    replace (x :: rev g) with (rev (g ++ [x])) by (by rewrite rev_app_distr).
    rewrite IH. destruct (scan _ suf) as [[g' r]|]; [|done].
    by rewrite <- app_assoc.
Qed.

Lemma exec_DETAILS_PATTERN pre suf :
  exec DETAILS_PATTERN accept (Cursor pre suf) [] = match_of (scan pre suf).
Proof.
  rewrite DETAILS_PATTERN_eq. cbn [exec before after].
  exact (lazy_group1 (Cursor pre suf) [] suf).
Qed.

(** *** The scan finds the first separator *)

Lemma space_is_not_hyphen x : Py.chr_eqb x Py.space = true → Py.chr_eqb x hyphen = false.
Proof. intros E. by apply Ascii.eqb_eq in E as ->. Qed.

Lemma skip_spaces_hyphen t : skip_spaces (hyphen :: t) = hyphen :: t.
Proof. done. Qed.

Lemma skip_spaces_spec suf x t :
  skip_spaces suf = x :: t → Py.chr_eqb x hyphen = true →
  ∃ j, suf = repeat Py.space j ++ hyphen :: t.
Proof.
  intros H Hx. apply Ascii.eqb_eq in Hx as ->.
  induction suf as [|y suf IH]; [done|]. simpl in H.
  destruct (Py.chr_eqb y Py.space) eqn:E.
  - apply Ascii.eqb_eq in E as ->. destruct (IH H) as [j ->]. by exists (S j).
  - simplify_eq. by exists 0.
Qed.

Lemma hyphen_after_spaces j (y a t : list ascii) :
  repeat Py.space j ++ hyphen :: y = a ++ hyphen :: t → j ≤ length a.
Proof.
  revert a. induction j as [|j IH]; intros a H; [lia|].
  destruct a as [|c a]; [done|]. simpl in H. injection H as _ H.
  apply IH in H. simpl. lia.
Qed.

Lemma attempt_at_hyphen pre t r :
  prev_ok pre = true → after_hyphen t = Some r → attempt pre (hyphen :: t) = Some r.
Proof. intros Hp Ht. unfold attempt. by rewrite Hp, skip_spaces_hyphen. Qed.

Lemma rev_repeat_same {A} (x : A) n : rev (repeat x n) = repeat x n.
Proof.
  induction n as [|n IH]; [done|]. simpl. rewrite IH. symmetry. apply repeat_cons.
Qed.

Lemma attempt_spec pre suf r :
  attempt pre suf = Some r →
  ∃ j, separator_in pre suf (repeat Py.space j) r.
Proof.
  unfold attempt, separator_in. destruct (prev_ok pre) eqn:Hp; [|done].
  destruct (skip_spaces suf) as [|x t] eqn:Hs; [done|].
  destruct (Py.chr_eqb x hyphen) eqn:Hx; [|done]. intros Ht.
  destruct (skip_spaces_spec _ _ _ Hs Hx) as [j ->].
  exists j, t. split; [done|]. split; [|done].
  rewrite rev_repeat_same. by destruct j.
Qed.

Lemma rev_cons_app {A} (x : A) g pre : rev (x :: g) ++ pre = rev g ++ x :: pre.
Proof. simpl. by rewrite <- app_assoc. Qed.

Lemma separator_in_cons pre x suf a r :
  separator_in (x :: pre) suf a r ↔ separator_in pre (x :: suf) (x :: a) r.
Proof.
  unfold separator_in. split; intros (t & H1 & H2 & H3); exists t.
  - rewrite rev_cons_app. by subst.
  - rewrite rev_cons_app in H2. by simplify_eq/=.
Qed.

Lemma scan_finds pre suf g r :
  scan pre suf = Some (g, r) →
  ∃ j, separator_in pre suf (g ++ repeat Py.space j) r ∧
       ∀ a2 r2, separator_in pre suf a2 r2 → length (g ++ repeat Py.space j) ≤ length a2.
Proof.
  revert pre g. induction suf as [|x suf IH]; intros pre g; cbn [scan].
  - destruct (attempt pre []) eqn:Ha; [|done]. intros [= <- <-].
    apply attempt_spec in Ha as [j Hj]. exists j. split; [done|].
    destruct Hj as (t & Ht & _). by destruct j.
  - destruct (attempt pre (x :: suf)) as [r0|] eqn:Ha.
    + intros [= <- <-]. apply attempt_spec in Ha as [j Hj]. exists j. split; [done|].
      intros a2 r2 (t2 & H2 & _). destruct Hj as (t & Ht & _).
      rewrite Ht in H2. simpl. rewrite repeat_length. by apply hyphen_after_spaces in H2.
    + destruct (Regex.dot x); [|done].
      destruct (scan (x :: pre) suf) as [[g' r']|] eqn:Hs; [|done].
      intros [= <- <-]. destruct (IH _ _ Hs) as (j & Hsep & Hmin).
      exists j. split; [by apply separator_in_cons in Hsep|].
      intros a2 r2 Hsep2. destruct a2 as [|y a2].
      * destruct Hsep2 as (t2 & H2 & Hp & Ht2). simplify_eq/=.
        by rewrite (attempt_at_hyphen pre t2 r2) in Ha.
      * assert (y = x) as -> by (destruct Hsep2 as (t2 & H2 & _); by simplify_eq/=).
        apply separator_in_cons, Hmin in Hsep2. simpl in *. lia.
Qed.

Lemma scan_none pre suf :
  scan pre suf = None → forallb Regex.dot suf = true →
  ∀ a r, ¬ separator_in pre suf a r.
Proof.
  revert pre. induction suf as [|x suf IH]; intros pre; cbn [scan forallb].
  - intros _ _ a r (t & H & _). by destruct a.
  - destruct (attempt pre (x :: suf)) as [r0|] eqn:Ha; [done|].
    intros Hs [Hx Hdot]%andb_true_iff. rewrite Hx in Hs.
    destruct (scan (x :: pre) suf) as [[g' r']|] eqn:Hs'; [done|].
    intros [|y a] r Hsep.
    + destruct Hsep as (t2 & H2 & Hp & Ht2). simplify_eq/=.
      by rewrite (attempt_at_hyphen pre t2 r) in Ha.
    + assert (y = x) as -> by (destruct Hsep as (t2 & H2 & _); by simplify_eq/=).
      apply separator_in_cons in Hsep. by apply (IH _ Hs' Hdot a r).
Qed.

(** *** The search *)

Lemma scan_none_later pre x suf :
  scan pre (x :: suf) = None → Regex.dot x = true → scan (x :: pre) suf = None.
Proof.
  cbn [scan]. destruct (attempt pre (x :: suf)); [done|]. intros H Hx.
  rewrite Hx in H. by destruct (scan (x :: pre) suf) as [[? ?]|].
Qed.

Lemma search_one_line pre suf :
  forallb Regex.dot suf = true →
  search_from DETAILS_PATTERN pre suf = match_of (scan pre suf).
Proof.
  revert pre. induction suf as [|x suf IH]; intros pre Hdot; cbn [search_from].
  - rewrite exec_DETAILS_PATTERN. apply orelse_none_r.
  - rewrite exec_DETAILS_PATTERN. cbn [forallb] in Hdot.
    apply andb_true_iff in Hdot as [Hx Hdot].
    destruct (scan pre (x :: suf)) as [[g r]|] eqn:Hs; [done|].
    simpl. rewrite IH by done. by rewrite (scan_none_later _ _ _ Hs Hx).
Qed.

Lemma search_found pre suf m :
  search_from DETAILS_PATTERN pre suf = Some m →
  ∃ a r, separator_in pre suf a r.
Proof.
  revert pre. induction suf as [|x suf IH]; intros pre; cbn [search_from];
    rewrite exec_DETAILS_PATTERN.
  - destruct (scan pre []) as [[g r]|] eqn:Hs; [|done]. intros _.
    destruct (scan_finds _ _ _ _ Hs) as (j & Hsep & _). by eexists _, _.
  - destruct (scan pre (x :: suf)) as [[g r]|] eqn:Hs.
    + intros _. destruct (scan_finds _ _ _ _ Hs) as (j & Hsep & _). by eexists _, _.
    + simpl. intros H. apply IH in H as (a & r & Hsep).
      exists (x :: a), r. by apply separator_in_cons.
Qed.
End DetailsPattern.

Section SplitDetails.
Import Regex Cleaner DetailsSpec.
#[local] Arguments Py.chr_eqb : simpl never.
#[local] Arguments Py.isspace : simpl never.

Lemma append_String c a b : String c a +:+ b = String c (a +:+ b).
Proof. reflexivity. Qed.

Lemma chars_append a b : chars (a +:+ b) = chars a ++ chars b.
Proof. induction a as [|c a IH]; [done|]. rewrite append_String. simpl. by rewrite IH. Qed.

Lemma text_app l1 l2 : text (l1 ++ l2) = text l1 +:+ text l2.
Proof. induction l1 as [|c l1 IH]; [done|]. simpl. by rewrite IH. Qed.

Lemma chars_spaces k : chars (spaces k) = repeat Py.space k.
Proof. induction k as [|k IH]; [done|]. simpl. by rewrite IH. Qed.

Lemma text_spaces k : text (repeat Py.space k) = spaces k.
Proof. induction k as [|k IH]; [done|]. simpl. by rewrite IH. Qed.

Lemma length_chars s : length (chars s) = String.length s.
Proof. induction s as [|c s IH]; [done|]. simpl. by rewrite IH. Qed.

Lemma prev_ok_snoc l x : l ≠ [] → prev_ok (l ++ [x]) = prev_ok l.
Proof. by destruct l. Qed.

Lemma prev_ok_last_char a :
  prev_ok (rev (chars a) ++ []) = true ↔ bounded_left a.
Proof.
  rewrite app_nil_r. unfold bounded_left.
  induction a as [|c a IH]; [done|].
  destruct a as [|c' a].
  - simpl. tauto.
  - change (last_char (String c (String c' a))) with (last_char (String c' a)).
    rewrite <- IH.
    change (rev (chars (String c (String c' a))))
      with (rev (chars (String c' a)) ++ [c]).
    rewrite prev_ok_snoc; [done|].
    intros E. apply (f_equal (@length _)) in E. by rewrite length_rev in E.
Qed.

Lemma entity_start_spec r : entity_start (chars r) = Some (chars r) ↔ starts_entity r.
Proof.
  destruct r as [|c r]; simpl; [done|]. destruct (Py.isspace c); split; done.
Qed.

Lemma entity_start_Some t r : entity_start t = Some r → r = t.
Proof. destruct t as [|c t]; simpl; [done|]. destruct (Py.isspace c); congruence. Qed.

Lemma after_hyphen_entity r : entity_start r = Some r → after_hyphen r = None.
Proof.
  destruct r as [|c r]; simpl; [done|].
  destruct (Py.isspace c) eqn:E; [done|]. intros _.
  destruct (Py.chr_eqb c Py.space) eqn:E'; [|done].
  apply Ascii.eqb_eq in E' as ->. done.
Qed.

Lemma after_hyphen_spec t r :
  after_hyphen t = Some r ↔
  ∃ k w, t = repeat Py.space k ++ w :: r ∧ Py.isspace w = true ∧ entity_start r = Some r.
Proof.
  split.
  - revert r. induction t as [|x t IH]; intros r; simpl; [done|].
    destruct (Py.chr_eqb x Py.space) eqn:E.
    + apply Ascii.eqb_eq in E as ->.
      destruct (after_hyphen t) as [r'|] eqn:Ht.
      * intros [= ->]. destruct (IH r eq_refl) as (k & w & -> & Hw & Hr).
        by exists (S k), w.
      * intros Hr. pose proof (entity_start_Some _ _ Hr) as ->. by exists 0, Py.space.
    + destruct (Py.isspace x) eqn:Hx; [|done].
      intros Hr. pose proof (entity_start_Some _ _ Hr) as ->. by exists 0, x.
  - intros (k & w & -> & Hw & Hr). induction k as [|k IH]; simpl.
    + rewrite Hw, Hr, (after_hyphen_entity r Hr). by destruct (Py.chr_eqb w Py.space).
    + change (Py.chr_eqb Py.space Py.space) with true. cbv iota. by rewrite IH.
Qed.

Lemma separator_at_in s a r :
  separator_at s a r ↔ separator_in [] (chars s) (chars a) (chars r).
Proof.
  unfold separator_at, separator_in. split.
  - intros (k & w & -> & Hl & Hw & Hr).
    exists (repeat Py.space k ++ w :: chars r).
    split; [|split].
    + rewrite chars_append. simpl. by rewrite chars_append, chars_spaces.
    + by apply prev_ok_last_char.
    + apply after_hyphen_spec. exists k, w. by rewrite entity_start_spec.
  - intros (t & Hs & Hl & Ht). apply after_hyphen_spec in Ht as (k & w & -> & Hw & Hr).
    exists k, w. split; [|split; [|split]].
    + rewrite <- (string_of_list_ascii_of_string s), Hs, text_app.
      cbn [string_of_list_ascii]. rewrite text_app, text_spaces.
      cbn [string_of_list_ascii]. by rewrite !string_of_list_ascii_of_string.
    + by apply prev_ok_last_char.
    + done.
    + by apply entity_start_spec.
Qed.

Lemma separator_in_text s l r :
  separator_in [] (chars s) l r → separator_at s (text l) (text r).
Proof.
  intros H. apply separator_at_in. by rewrite !list_ascii_of_string_of_list_ascii.
Qed.

Lemma no_line_feed_dot s : no_line_feed s ↔ forallb dot (chars s) = true.
Proof.
  unfold no_line_feed. induction s as [|c s IH]; [done|].
  cbn [Py.contains Py.startswith chars forallb]. rewrite startswith_empty, andb_true_r.
  rewrite orb_false_iff, andb_true_iff, IH. unfold dot.
  rewrite (chr_eqb_sym Py.newline c), negb_true_iff. done.
Qed.

Lemma line_all r : forallb dot r = true → line r = r.
Proof.
  induction r as [|x r IH]; [done|]. simpl. intros [-> H]%andb_true_iff. by rewrite IH.
Qed.

(** Stripping ignores trailing spaces. *)
Lemma rstrip_spaces k : Py.rstrip (spaces k) = "".
Proof. induction k as [|k IH]; [done|]. simpl. by rewrite IH. Qed.

Lemma rstrip_append_spaces s k : Py.rstrip (s +:+ spaces k) = Py.rstrip s.
Proof.
  induction s as [|c s IH].
  - simpl. apply rstrip_spaces.
  - rewrite append_String. simpl. by rewrite IH.
Qed.

Lemma lstrip_spaces k : Py.lstrip (spaces k) = "".
Proof. induction k as [|k IH]; [done|]. simpl. by rewrite IH. Qed.

Lemma strip_append_spaces s k : Py.strip (s +:+ spaces k) = Py.strip s.
Proof.
  unfold Py.strip. induction s as [|c s IH].
  - change ("" +:+ spaces k) with (spaces k). by rewrite lstrip_spaces.
  - rewrite append_String. simpl. destruct (Py.isspace c); [done|].
    apply (rstrip_append_spaces (String c s)).
Qed.

Lemma length_append a b : String.length (a +:+ b) = String.length a + String.length b.
Proof. by rewrite <- !length_chars, chars_append, length_app. Qed.

Lemma length_text l : String.length (text l) = length l.
Proof. by rewrite <- length_chars, list_ascii_of_string_of_list_ascii. Qed.

(** C1, amended. For every details string without a line feed that has a
    separator (a hyphen at the start of the string or right after a
    whitespace character, followed by spaces, one more whitespace character
    and then a character that is not whitespace), split_details returns as
    type the text before the FIRST such separator and as entity the text
    after it, both stripped. For every string with no such separator, both
    returned values are the input string unchanged. *)
Theorem split_details_first_separator :
  (∀ s a r,
     no_line_feed s → separator_at s a r →
     (∀ a2 r2, separator_at s a2 r2 → String.length a ≤ String.length a2) →
     split_details s = (Py.strip a, Py.strip r)) ∧
  (∀ s, (∀ a r, ¬ separator_at s a r) → split_details s = (s, s)).
Proof.
  split.
  - intros s a r Hnl Hsep Hfirst. apply no_line_feed_dot in Hnl.
    unfold split_details, search. rewrite search_one_line by done.
    destruct (scan [] (chars s)) as [[g r']|] eqn:Hs; cbn [match_of].
    2: { exfalso. apply separator_at_in in Hsep. by apply (scan_none _ _ Hs Hnl _ _ Hsep). }
    destruct (scan_finds _ _ _ _ Hs) as (j & Hin & Hmin).
    pose proof (proj1 (separator_at_in _ _ _) Hsep) as Hsep_l.
    pose proof (Hmin _ _ Hsep_l) as Hle1.
    pose proof (Hfirst _ _ (separator_in_text _ _ _ Hin)) as Hle2.
    rewrite length_text, <- length_chars in Hle2.
    destruct Hin as (t1 & E1 & _ & A1). destruct Hsep_l as (t2 & E2 & _ & A2).
    pose proof E1 as E. rewrite E2 in E.
    apply app_inj_1 in E as [Ea Et]; [|lia]. injection Et as <-.
    rewrite A2 in A1. injection A1 as <-.
    assert (forallb dot (chars r) = true) as Hr.
    { apply after_hyphen_spec in A2 as (k & w & -> & _ & _).
      rewrite E2 in Hnl. rewrite forallb_app in Hnl. apply andb_true_iff in Hnl as [_ Hnl].
      cbn [forallb] in Hnl. apply andb_true_iff in Hnl as [_ Hnl].
      rewrite forallb_app in Hnl. apply andb_true_iff in Hnl as [_ Hnl].
      cbn [forallb] in Hnl. by apply andb_true_iff in Hnl as [_ Hnl]. }
    unfold group_or_empty. simpl Regex.group. cbv iota.
    rewrite (line_all _ Hr), string_of_list_ascii_of_string. f_equal.
    rewrite <- (string_of_list_ascii_of_string a), Ea, text_app, text_spaces.
    symmetry. apply strip_append_spaces.
  - intros s Hnone. unfold split_details, search.
    destruct (search_from DETAILS_PATTERN [] (chars s)) as [m|] eqn:Hm; [|done].
    exfalso. apply search_found in Hm as (a & r & Hsep).
    by apply (Hnone _ _ (separator_in_text _ _ _ Hsep)).
Qed.

(** C1 as stated fails: in "A - B - C" the last separator stands between
    "A - B " and "C", yet split_details cuts at the first one and returns
    ("A", "B - C"). *)
Lemma split_details_not_last_separator :
  let s := "A - B - C" in
  separator_at s "A - B " "C" ∧
  (∀ a2 r2, separator_at s a2 r2 → String.length a2 ≤ String.length "A - B ") ∧
  split_details s = ("A", "B - C") ∧
  split_details s ≠ (Py.strip "A - B ", Py.strip "C").
Proof.
  cbv zeta. split; [|split; [|split]].
  - exists 0, Py.space. by vm_compute.
  - intros a2 r2 (k & w & Hs & _ & _ & Hr).
    apply (f_equal String.length) in Hs. rewrite length_append in Hs.
    cbn [String.length] in Hs. rewrite length_append in Hs. cbn [String.length] in Hs.
    destruct r2 as [|c r2]; [done|]. cbn [String.length] in Hs |- *. lia.
  - by vm_compute.
  - by vm_compute.
Qed.

(** Cleaned details have no line feed: whitespace runs were collapsed to
    single spaces, and title-casing changes letters only. *)
Lemma title_go_dot b s :
  forallb dot (chars s) = true → forallb dot (chars (Py.title_go b s)) = true.
Proof.
  revert b. induction s as [|c s IH]; intros b; [done|].
  cbn [chars forallb Py.title_go]. intros [Hc Hs]%andb_true_iff.
  destruct (Py.islower c || Py.isupper c) eqn:E; cbn [chars forallb];
    rewrite IH by done; rewrite andb_true_r; [|done].
  clear -E. by destruct b, c as [[] [] [] [] [] [] [] []].
Qed.

Lemma collapse_ws_go_dot b s : forallb dot (chars (Py.collapse_ws_go b s)) = true.
Proof.
  revert b. induction s as [|c s IH]; intros b; [done|].
  cbn [Py.collapse_ws_go]. destruct (Py.isspace c) eqn:E.
  - destruct b; [apply IH|]. cbn [chars forallb]. by rewrite IH.
  - cbn [chars forallb]. rewrite IH, andb_true_r.
    clear -E. by destruct c as [[] [] [] [] [] [] [] []].
Qed.

Lemma clean_details_no_line_feed c : no_line_feed (clean_details c).
Proof.
  apply no_line_feed_dot. unfold clean_details, Py.title, Py.collapse_ws.
  apply title_go_dot, collapse_ws_go_dot.
Qed.
End SplitDetails.

Section Examples.
Import Cleaner Categorizer Analyzer DetailsSpec CategorizerSpec CleanerSpec AnalyzerSpec Demo.

Lemma scan_first_length s g r :
  scan [] (chars s) = Some (g, r) →
  ∀ a2 r2, separator_at s a2 r2 → length g ≤ String.length a2.
Proof.
  intros Hs a2 r2 Hsep. destruct (scan_finds _ _ _ _ Hs) as (j & _ & Hmin).
  apply separator_at_in, Hmin in Hsep. rewrite length_app, length_chars in Hsep. lia.
Qed.

Lemma scan_none_no_separator s :
  scan [] (chars s) = None → no_line_feed s → ∀ a r, ¬ separator_at s a r.
Proof.
  intros Hs Hnl a r Hsep. apply no_line_feed_dot in Hnl.
  apply separator_at_in in Hsep. by apply (scan_none _ _ Hs Hnl _ _ Hsep).
Qed.

(** C1, witness: the string of tests/unit/test_cleaner.py, which has one
    separator, and the string with none. *)
Lemma split_details_first_separator_witness :
  let s := "Customer transfer to 254712345678 - JOHN DOE" in
  let a := "Customer transfer to 254712345678 " in
  let r := "JOHN DOE" in
  (no_line_feed s ∧ separator_at s a r ∧
   (∀ a2 r2, separator_at s a2 r2 → String.length a ≤ String.length a2) ∧
   split_details s = ("Customer transfer to 254712345678", "JOHN DOE")) ∧
  ((∀ a r, ¬ separator_at "no separator here" a r) ∧
   split_details "no separator here" = ("no separator here", "no separator here")).
Proof.
  cbv zeta. split.
  - assert (no_line_feed "Customer transfer to 254712345678 - JOHN DOE") as H1
      by (vm_compute; reflexivity).
    assert (separator_at "Customer transfer to 254712345678 - JOHN DOE"
              "Customer transfer to 254712345678 " "JOHN DOE") as H2.
    { exists 0, Py.space. vm_compute. auto. }
    assert (∀ a2 r2,
              separator_at "Customer transfer to 254712345678 - JOHN DOE" a2 r2 →
              String.length "Customer transfer to 254712345678 " ≤ String.length a2) as H3.
    { apply (scan_first_length _ (chars "Customer transfer to 254712345678 ")
               (chars "JOHN DOE")). vm_compute. reflexivity. }
    split; [exact H1|]. split; [exact H2|]. split; [exact H3|].
    exact (proj1 split_details_first_separator _ _ _ H1 H2 H3).
  - assert (∀ a r, ¬ separator_at "no separator here" a r) as H.
    { apply scan_none_no_separator; vm_compute; reflexivity. }
    split; [exact H|]. exact (proj2 split_details_first_separator _ H).
Defined.

(** C2, instances of the behaviour: a table without rows, a table without
    a recognized label, and a statement table that passes. *)
Lemma clean_data_schema_error_witness :
  (∃ msg, clean_data Demo.to_numeric Demo.to_datetime
            (Some (mkDataFrame 0 [ ("details", []) ])) = Raise (DataCleaningError msg)) ∧
  (∃ msg, clean_data Demo.to_numeric Demo.to_datetime
            (Some (mkDataFrame 1 [ ("amount", [CStr "5"]) ])) = Raise (DataCleaningError msg)) ∧
  not_schema_error
    (clean_data Demo.to_numeric Demo.to_datetime (Some (statement "0" "300"))).
Proof.
  split; [|split].
  - apply (proj1 (clean_data_schema_error Demo.to_numeric Demo.to_datetime _)).
    right. eexists. split; [reflexivity|]. left. reflexivity.
  - apply (proj1 (clean_data_schema_error Demo.to_numeric Demo.to_datetime _)).
    right. eexists. split; [reflexivity|]. right. right.
    intros (l & Hl & Hr). apply list_elem_of_singleton in Hl. subst l.
    vm_compute in Hr. repeat (apply elem_of_cons in Hr as [Hr|Hr]; [discriminate Hr|]).
    by apply elem_of_nil in Hr.
  - apply (proj2 (clean_data_schema_error Demo.to_numeric Demo.to_datetime _)
             (statement "0" "300") eq_refl).
    + discriminate.
    + discriminate.
    + exists "details". split; [|by vm_compute; repeat constructor].
      unfold labels, statement. simpl. repeat constructor.
Defined.

(** C2, the defect. A table with one row whose only column is labelled
    "Details", a recognized name up to letter case (it is the entry of
    EXPECTED_COLUMNS itself), is rejected at column detection with
    DataCleaningError: detection lower-cases the expected names but only
    strips the labels of the table, which the next step of cleaning does
    lower-case before it compares them. *)
Lemma clean_data_rejects_capitalised_label :
  let d := mkDataFrame 1 [ ("Details", [CStr "Pay Bill to 12345 - NETFLIX"]) ] in
  empty d = false ∧
  (∃ l e, l ∈ labels d ∧ e ∈ EXPECTED_COLUMNS ∧ Py.lower (Py.strip l) = Py.lower e) ∧
  clean_data Demo.to_numeric Demo.to_datetime (Some d) =
    Raise (DataCleaningError "No M-Pesa transaction columns found in data.").
Proof.
  cbv zeta. split; [reflexivity|]. split; [|reflexivity].
  exists "Details", "Details". split; [repeat constructor|]. split; [|reflexivity].
  unfold EXPECTED_COLUMNS. repeat constructor.
Qed.

(** C3, witness: a statement row with a placeholder in paid_in and a
    negative withdrawn amount with a thousands separator. *)
Lemma amounts_after_cleaning_witness :
  let t := mkTransaction (Some "R1") (Some 1735725600%Z)
             "Customer Transfer To 254712345678 - John Doe" 0 1500
             "Customer Transfer To 254712345678" "John Doe"
             "Customer Transfer To 254712345678" "" in
  clean_data Demo.to_numeric Demo.to_datetime (Some (statement "-" "-1,500")) = Ok [t] ∧
  t ∈ [t] ∧
  (0 <= Cleaner.withdrawn t)%Q ∧
  amount_text (CStr "-") = "0" ∧
  clean_paidin Demo.to_numeric (CStr "n/a") = 0%Q.
Proof.
  cbv zeta.
  set (t := mkTransaction _ _ _ _ _ _ _ _ _).
  assert (clean_data Demo.to_numeric Demo.to_datetime (Some (statement "-" "-1,500")) = Ok [t])
    as H1 by (vm_compute; reflexivity).
  assert (t ∈ [t]) as H2 by constructor.
  pose proof (amounts_after_cleaning Demo.to_numeric Demo.to_datetime)
    as (Hrows & _ & Hplace & Hunparsed).
  destruct (Hrows _ _ _ H1 H2) as (w & p & _ & _ & Hw & _).
  split; [exact H1|]. split; [exact H2|]. split; [exact Hw|]. split.
  - exact (proj1 (Hplace (CStr "-") eq_refl)).
  - exact (proj2 (Hunparsed (CStr "n/a") eq_refl)).
Defined.

(** C3 as stated fails: a source paid_in of -500 stays -500 after
    cleaning. *)
Lemma paidin_negative_after_cleaning :
  let t := mkTransaction (Some "R1") (Some 1735725600%Z)
             "Customer Transfer To 254712345678 - John Doe" (-500) 1500
             "Customer Transfer To 254712345678" "John Doe"
             "Customer Transfer To 254712345678" "" in
  clean_data Demo.to_numeric Demo.to_datetime (Some (statement "-500" "1,500")) = Ok [t] ∧
  t ∈ [t] ∧ ¬ (0 <= Cleaner.paidin t)%Q.
Proof.
  cbv zeta. split; [vm_compute; reflexivity|]. split; [constructor|].
  simpl. intros H. vm_compute in H. by apply H.
Qed.

(** C5, witness: the row of tests/unit/test_categorizer.py matches both
    definitions and gets both records; a row that matches nothing is
    uncategorized. *)
Lemma categorize_transaction_fan_out_witness :
  Cleaner.details netflix_row ≠ "" ∧
  Py.lower (Cleaner.details netflix_row) ≠ "nan" ∧
  categorize_transaction [ my_bill; streaming ] netflix_row =
    [ matched_record netflix_row my_bill; matched_record netflix_row streaming ] ∧
  categorize_transaction [ my_bill ] (Cleaner.mkTransaction (Some "r2") None "Airtime"
                                        0 50 "Airtime" "Airtime" "Airtime" "") =
    [ set_category "uncategorized"
        (base_transaction_data (Cleaner.mkTransaction (Some "r2") None "Airtime"
                                  0 50 "Airtime" "Airtime" "Airtime" "")) ].
Proof.
  assert (Cleaner.details netflix_row ≠ "") as H1 by discriminate.
  assert (Py.lower (Cleaner.details netflix_row) ≠ "nan") as H2 by (vm_compute; discriminate).
  split; [exact H1|]. split; [exact H2|]. split.
  - apply (proj1 (proj2 (categorize_transaction_fan_out [ my_bill; streaming ] netflix_row)
                    H1 H2)).
    vm_compute. discriminate.
  - apply (proj2 (categorize_transaction_fan_out [ my_bill ] _)).
    + discriminate.
    + vm_compute. discriminate.
    + vm_compute. reflexivity.
Defined.

(** C6, witness: the two rows of the example, sharing a receipt number. *)
Lemma analyze_category_money_out_witness :
  let df := frame_of [ record "r1" "Jane Doe" 300 false; record "r1" "Jane Doe" 30 true ] in
  let data : gmap string Frame := {[ "Send Money" := df ]} in
  data !! "Send Money" = Some df ∧ has_is_charge df = true ∧
  total_amount (analyze_category data "Send Money" false) = 300%Q ∧
  total_charges (analyze_category data "Send Money" false) = 30%Q ∧
  transaction_count (analyze_category data "Send Money" false) = 1.
Proof.
  cbv zeta.
  set (df := frame_of _). set (data := {[ "Send Money" := df ]} : gmap string Frame).
  assert (data !! "Send Money" = Some df) as H1 by apply lookup_singleton_eq.
  assert (has_is_charge df = true) as H2 by reflexivity.
  split; [exact H1|]. split; [exact H2|].
  destruct (proj1 analyze_category_money_out data "Send Money" df H1 H2)
    as (_ & -> & -> & ->).
  repeat split.
Defined.

(** C7, witness: four rows of two counterparties, one of them a charge. *)
Lemma aggregated_frame_sorted_witness :
  let df := frame_of [ record "r1" "Jane Doe" 300 false; record "r2" "Ann Lee" 500 false;
                       record "r3" "Jane Doe" 100 false; record "r3" "Jane Doe" 30 true ] in
  let data : gmap string Frame := {[ "Send Money" := df ]} in
  aggregated_frame (analyze_category data "Send Money" false) =
    [ mkAggRow "Ann Lee" 1 500; mkAggRow "Jane Doe" 2 400 ] ∧
  NoDup (map agg_entity (aggregated_frame (analyze_category data "Send Money" false))) ∧
  (amount (mkAggRow "Jane Doe" 2 400) <= amount (mkAggRow "Ann Lee" 1 500))%Q.
Proof.
  cbv zeta.
  set (df := frame_of _). set (data := {[ "Send Money" := df ]} : gmap string Frame).
  assert (aggregated_frame (analyze_category data "Send Money" false) =
            [ mkAggRow "Ann Lee" 1 500; mkAggRow "Jane Doe" 2 400 ]) as H
    by (vm_compute; reflexivity).
  pose proof (aggregated_frame_sorted data "Send Money" false) as (Hadj & _ & Hgroups).
  split; [exact H|]. split.
  - apply (Hgroups df); [apply lookup_singleton_eq | discriminate].
  - apply (Hadj 0); by rewrite H.
Defined.

(** C8, witness: a masked number followed by a name. *)
Lemma process_entity_masked_phone_witness :
  let t := with_entity "0712***678 john doe" in
  Py.mem "Send Money" money_transfer_cats = true ∧
  Py.contains "*" (entity t) = true ∧
  entity t = "0712***678" +:+ String Py.space "john doe" ∧
  Py.contains " " "0712***678" = false ∧
  processed_entity (_process_entity t "Send Money") = "John Doe" ∧
  account_no (_process_entity t "Send Money") = Some "0712***678".
Proof.
  cbv zeta.
  assert (Py.mem "Send Money" money_transfer_cats = true) as H1 by reflexivity.
  assert (Py.contains "*" (entity (with_entity "0712***678 john doe")) = true) as H2
    by reflexivity.
  assert (entity (with_entity "0712***678 john doe") =
            "0712***678" +:+ String Py.space "john doe") as H3 by reflexivity.
  assert (Py.contains " " "0712***678" = false) as H4 by reflexivity.
  split; [exact H1|]. split; [exact H2|]. split; [exact H3|]. split; [exact H4|].
  exact (proj1 (proj1 (process_entity_masked_phone _ "Send Money" H1) H2) _ _ H3 H4).
Defined.

(** C8 as stated fails: an entity that starts with a digit and has no
    masking character is not split at its first space. *)
Lemma process_entity_unmasked_phone_not_split :
  let t := with_entity "0712345678 john doe" in
  Py.mem "Send Money" money_transfer_cats = true ∧
  starts_with_digit (entity t) = true ∧
  entity t = "0712345678" +:+ String Py.space "john doe" ∧
  Py.contains " " "0712345678" = false ∧
  processed_entity (_process_entity t "Send Money") = "0712345678 John Doe" ∧
  account_no (_process_entity t "Send Money") = Some "" ∧
  processed_entity (_process_entity t "Send Money") ≠ Py.title "john doe" ∧
  account_no (_process_entity t "Send Money") ≠ Some (Py.title "0712345678").
Proof. cbv zeta. repeat split; vm_compute; discriminate. Qed.

(** C9 as stated fails: running categorize_transactions twice on one
    categorizer, with the same definitions and the same input, gives two
    different results. *)
Lemma second_run_on_same_categorizer_differs :
  let self := __init__ [ my_bill ] None in
  let df := [ netflix_row ] in
  let first_run := categorize_transactions self df in
  let second_run := categorize_transactions (fst first_run) df in
  snd first_run !! "MyBill" = Some [ matched_record netflix_row my_bill ] ∧
  snd second_run !! "MyBill" =
    Some [ matched_record netflix_row my_bill; matched_record netflix_row my_bill ] ∧
  snd second_run ≠ snd first_run.
Proof.
  cbv zeta.
  assert (snd (categorize_transactions (__init__ [my_bill] None) [netflix_row]) !! "MyBill" =
            Some [ matched_record netflix_row my_bill ]) as H1 by (vm_compute; reflexivity).
  assert (snd (categorize_transactions
                 (fst (categorize_transactions (__init__ [my_bill] None) [netflix_row]))
                 [netflix_row]) !! "MyBill" =
            Some [ matched_record netflix_row my_bill; matched_record netflix_row my_bill ])
    as H2 by (vm_compute; reflexivity).
  split; [exact H1|]. split; [exact H2|].
  intros E. rewrite E, H1 in H2. discriminate H2.
Qed.

(** C10, witness: a frame with a repeated label, and one without. *)
Lemma drop_duplicate_columns_keeps_last_witness :
  let df := mkDataFrame 1 [ ("details", [CStr "first"]); ("paidin", [CStr "5"]);
                            ("details", [CStr "last"]) ] in
  let unique := mkDataFrame 1 [ ("details", [CStr "only"]); ("paidin", [CStr "5"]) ] in
  columns (drop_duplicate_columns df) = [ ("paidin", [CStr "5"]); ("details", [CStr "last"]) ] ∧
  NoDup (labels unique) ∧
  drop_duplicate_columns unique = unique.
Proof.
  cbv zeta. split; [reflexivity|].
  assert (NoDup (labels (mkDataFrame 1 [ ("details", [CStr "only"]); ("paidin", [CStr "5"]) ])))
    as H.
  { unfold labels. simpl. apply NoDup_cons. split.
    - intros Hin. apply list_elem_of_singleton in Hin. discriminate Hin.
    - apply NoDup_singleton. }
  split; [exact H|].
  exact (proj1 (proj2 (proj2 (proj2 (proj2 (drop_duplicate_columns_keeps_last _))))) H).
Defined.
End Examples.

(** ** Cleaner: words, types and the details text *)

Section Words.

Lemma chr_eqb_eq a b : Py.chr_eqb a b = true ↔ a = b.
Proof. apply Ascii.eqb_eq. Qed.

Lemma split_space_cons s : ∃ w ws, Py.split_space s = w :: ws.
Proof.
  destruct s as [|c s]; simpl; [by eexists _, _|].
  destruct (Py.chr_eqb c Py.space); [by eexists _, _|].
  destruct (Py.split_space s); by eexists _, _.
Qed.

Lemma join_space_cons w w' ws :
  Py.join_space (w :: w' :: ws) = w +:+ String Py.space (Py.join_space (w' :: ws)).
Proof. reflexivity. Qed.

Lemma join_space_String c w ws :
  Py.join_space (String c w :: ws) = String c (Py.join_space (w :: ws)).
Proof. by destruct ws. Qed.

Lemma join_split_space s : Py.join_space (Py.split_space s) = s.
Proof.
  induction s as [|c s IH]; [done|]. cbn [Py.split_space].
  destruct (split_space_cons s) as (w & ws & Hs). rewrite Hs in *.
  destruct (Py.chr_eqb c Py.space) eqn:E; cbv iota.
  - apply chr_eqb_eq in E as ->.
    rewrite join_space_cons, IH. done.
  - by rewrite join_space_String, IH.
Qed.

Lemma append_assoc3 (a b c : string) : (a +:+ b) +:+ c = a +:+ (b +:+ c).
Proof. induction a as [|x a IH]; [done|]. by rewrite !append_String, IH. Qed.

Lemma join_space_app l1 l2 :
  l1 ≠ [] → l2 ≠ [] →
  Py.join_space (l1 ++ l2) = Py.join_space l1 +:+ String Py.space (Py.join_space l2).
Proof.
  intros H1 H2. induction l1 as [|w l1 IH]; [done|].
  destruct l1 as [|w' l1].
  - destruct l2; [done|]. reflexivity.
  - change ((w :: w' :: l1) ++ l2) with (w :: (w' :: l1 ++ l2)).
    rewrite !join_space_cons.
    change (w' :: l1 ++ l2) with ((w' :: l1) ++ l2). rewrite IH by done.
    by rewrite append_assoc3.
Qed.

(** A word: no space in it. *)
Lemma split_space_word w :
  Py.contains " " w = false → Py.split_space w = [w].
Proof.
  induction w as [|c w IH]; [done|].
  intros [Hc H]%no_space_cons. cbn [Py.split_space]. by rewrite Hc, IH.
Qed.

Lemma split_space_words s : Forall (fun w => Py.contains " " w = false) (Py.split_space s).
Proof.
  induction s as [|c s IH]; simpl; [by constructor|].
  destruct (Py.chr_eqb c Py.space) eqn:E.
  - by constructor.
  - destruct (Py.split_space s) as [|w ws].
    { constructor; [by apply no_space_cons | constructor]. }
    inversion IH as [|? ? Hw Hws]; subst. constructor; [|done].
    by apply no_space_cons.
Qed.

Lemma split_space_append_word w s :
  Py.contains " " w = false →
  Py.split_space (w +:+ String Py.space s) = w :: Py.split_space s.
Proof.
  induction w as [|c w IH]; [done|].
  intros [Hc H]%no_space_cons. rewrite append_String. cbn [Py.split_space].
  by rewrite Hc, IH.
Qed.

Lemma split_join_space ws :
  ws ≠ [] → Forall (fun w => Py.contains " " w = false) ws →
  Py.split_space (Py.join_space ws) = ws.
Proof.
  intros Hne H. induction H as [|w ws Hw Hws IH]; [done|].
  destruct ws as [|w' ws].
  - by apply split_space_word.
  - rewrite join_space_cons, split_space_append_word by done. by rewrite IH.
Qed.

End Words.

Section SplitType.
Import Cleaner.

(** split_type cuts a type after its fourth word and loses nothing: the
    class is the first four words of the type; a type of four words or
    fewer is its own class, with an empty description; a longer type is the
    class, one space and the description, and the description holds the
    remaining words. *)
Theorem split_type_rejoins (transaction_type : string) :
  let words := Py.split_space transaction_type in
  let type_class := fst (split_type transaction_type) in
  let type_desc := snd (split_type transaction_type) in
  Py.split_space type_class = take 4 words ∧
  (length words ≤ 4 → type_class = transaction_type ∧ type_desc = "") ∧
  (4 < length words →
     transaction_type = type_class +:+ " " +:+ type_desc ∧
     Py.split_space type_desc = drop 4 words).
Proof.
  simpl. pose proof (split_space_words transaction_type) as Hw.
  pose proof (join_split_space transaction_type) as Hj.
  destruct (split_space_cons transaction_type) as (w & ws & Hs).
  set (words := Py.split_space transaction_type) in *.
  split; [|split].
  - apply split_join_space.
    + rewrite Hs. done.
    + by apply Forall_take.
  - intros Hlen. rewrite take_ge, drop_ge by done. by rewrite Hj.
  - intros Hlen. split.
    + rewrite <- Hj at 1. rewrite <- (take_drop 4 words) at 1.
      apply join_space_app.
      * rewrite Hs. done.
      * intros E. apply (f_equal length) in E. rewrite length_drop in E. simpl in E. lia.
    + apply split_join_space.
      * intros E. apply (f_equal length) in E. rewrite length_drop in E. simpl in E. lia.
      * by apply Forall_drop.
Qed.

Lemma split_type_rejoins_witness :
  let long := "Customer Transfer To 254712345678 From Account" in
  let short := "Funds Received From" in
  (4 < length (Py.split_space long) ∧
   long = fst (split_type long) +:+ " " +:+ snd (split_type long) ∧
   Py.split_space (snd (split_type long)) = [ "From"; "Account" ]) ∧
  (length (Py.split_space short) ≤ 4 ∧
   fst (split_type short) = short ∧ snd (split_type short) = "").
Proof.
  split.
  - split; [vm_compute; lia|].
    apply (proj2 (proj2 (split_type_rejoins "Customer Transfer To 254712345678 From Account"))).
    vm_compute. lia.
  - split; [vm_compute; lia|].
    apply (proj1 (proj2 (split_type_rejoins "Funds Received From"))).
    vm_compute. lia.
Defined.

End SplitType.

Section Characters.

Ltac by_cases c := destruct c as [[] [] [] [] [] [] [] []]; reflexivity.

Lemma isspace_lower_char c : Py.isspace (Py.lower_char c) = Py.isspace c.
Proof. by_cases c. Qed.

Lemma isspace_upper_char c : Py.isspace (Py.upper_char c) = Py.isspace c.
Proof. by_cases c. Qed.

Lemma cased_lower_char c :
  Py.islower (Py.lower_char c) || Py.isupper (Py.lower_char c) = Py.islower c || Py.isupper c.
Proof. by_cases c. Qed.

Lemma cased_upper_char c :
  Py.islower (Py.upper_char c) || Py.isupper (Py.upper_char c) = Py.islower c || Py.isupper c.
Proof. by_cases c. Qed.

Lemma cased_not_space c : Py.islower c || Py.isupper c = true → Py.isspace c = false.
Proof. destruct c as [[] [] [] [] [] [] [] []]; done. Qed.

Lemma lower_char_idem c : Py.lower_char (Py.lower_char c) = Py.lower_char c.
Proof. by_cases c. Qed.

Lemma upper_char_idem c : Py.upper_char (Py.upper_char c) = Py.upper_char c.
Proof. by_cases c. Qed.

Lemma lower_upper_char c : Py.lower_char (Py.upper_char c) = Py.lower_char c.
Proof. by_cases c. Qed.

Lemma isupper_lower_char c : Py.isupper (Py.lower_char c) = false.
Proof. by_cases c. Qed.

Lemma space_isspace : Py.isspace Py.space = true.
Proof. reflexivity. Qed.

End Characters.

Section CleanDetails.
Import Cleaner TextSpec.
#[local] Arguments Py.chr_eqb : simpl never.
#[local] Arguments Py.isspace : simpl never.
#[local] Arguments Py.islower : simpl never.
#[local] Arguments Py.isupper : simpl never.
#[local] Arguments Py.lower_char : simpl never.
#[local] Arguments Py.upper_char : simpl never.

Lemma title_go_idem p s : Py.title_go p (Py.title_go p s) = Py.title_go p s.
Proof.
  revert p. induction s as [|c s IH]; intros p; [done|]. simpl.
  destruct (Py.islower c || Py.isupper c) eqn:E; simpl.
  - destruct p.
    + rewrite cased_lower_char, E, lower_char_idem, IH. done.
    + rewrite cased_upper_char, E, upper_char_idem, IH. done.
  - by rewrite E, IH.
Qed.

Lemma collapse_ws_go_idem b s :
  Py.collapse_ws_go b (Py.collapse_ws_go b s) = Py.collapse_ws_go b s.
Proof.
  revert b. induction s as [|c s IH]; intros b; [done|]. simpl.
  destruct (Py.isspace c) eqn:E.
  - destruct b; [apply IH|]. cbn [Py.collapse_ws_go]. rewrite space_isspace. by rewrite IH.
  - cbn [Py.collapse_ws_go]. by rewrite E, IH.
Qed.

Lemma collapse_title_go b p s :
  (b = true → p = false) →
  Py.collapse_ws_go b (Py.title_go p s) = Py.title_go p (Py.collapse_ws_go b s).
Proof.
  revert b p. induction s as [|c s IH]; intros b p Hbp; [done|]. simpl.
  destruct (Py.islower c || Py.isupper c) eqn:E.
  - rewrite (cased_not_space c E). simpl. rewrite E.
    assert (Py.isspace (if p then Py.lower_char c else Py.upper_char c) = false) as ->.
    { destruct p; [rewrite isspace_lower_char | rewrite isspace_upper_char];
        by apply cased_not_space. }
    by rewrite IH.
  - simpl. destruct (Py.isspace c) eqn:Es.
    + destruct b.
      * rewrite (Hbp eq_refl). by apply IH.
      * simpl. rewrite IH by done. done.
    + simpl. rewrite E. by rewrite IH.
Qed.

Lemma single_spaced_collapse b s :
  single_spaced_go b (Py.collapse_ws_go b s) = true.
Proof.
  revert b. induction s as [|c s IH]; intros b; [done|]. simpl.
  destruct (Py.isspace c) eqn:E.
  - destruct b; [apply IH|]. cbn [single_spaced_go]. rewrite space_isspace, IH. done.
  - cbn [single_spaced_go]. by rewrite E, IH.
Qed.

Lemma single_spaced_title b p s :
  single_spaced_go b (Py.title_go p s) = single_spaced_go b s.
Proof.
  revert b p. induction s as [|c s IH]; intros b p; [done|]. simpl.
  destruct (Py.islower c || Py.isupper c) eqn:E; simpl.
  - rewrite (cased_not_space c E).
    assert (Py.isspace (if p then Py.lower_char c else Py.upper_char c) = false) as ->.
    { destruct p; [rewrite isspace_lower_char | rewrite isspace_upper_char];
        by apply cased_not_space. }
    apply IH.
  - destruct (Py.isspace c); by rewrite IH.
Qed.

Lemma lower_String c s : Py.lower (String c s) = String (Py.lower_char c) (Py.lower s).
Proof. reflexivity. Qed.

Lemma lower_title_go p s : Py.lower (Py.title_go p s) = Py.lower s.
Proof.
  revert p. induction s as [|c s IH]; intros p; [done|]. simpl.
  destruct (Py.islower c || Py.isupper c); rewrite !lower_String, IH; [|done].
  destruct p; by rewrite ?lower_char_idem, ?lower_upper_char.
Qed.

Lemma clean_details_facts c :
  single_spaced (clean_details c) = true ∧
  Py.collapse_ws (clean_details c) = clean_details c ∧
  Py.title (clean_details c) = clean_details c ∧
  Py.lower (clean_details c) = Py.lower (Py.collapse_ws (astype_str c)).
Proof.
  unfold clean_details, single_spaced, Py.title, Py.collapse_ws.
  repeat split.
  - by rewrite single_spaced_title, single_spaced_collapse.
  - rewrite collapse_title_go by done. by rewrite collapse_ws_go_idem.
  - apply title_go_idem.
  - apply lower_title_go.
Qed.

(** Cleaned details are in a normal form: the only whitespace characters
    are spaces, never two in a row, the text is title-cased, and cleaning
    it again changes nothing. Lower-casing it, as the categorizer
    does, gives the lower-cased source text with its whitespace collapsed. *)
Theorem clean_details_normal_form (c : cell) :
  let details := clean_details c in
  single_spaced details = true ∧
  Py.collapse_ws details = details ∧
  Py.title details = details ∧
  clean_details (CStr details) = details ∧
  Py.lower details = Py.lower (Py.collapse_ws (astype_str c)).
Proof.
  cbv zeta. destruct (clean_details_facts c) as (H1 & H2 & H3 & H4).
  repeat split; try done.
  unfold clean_details at 1. cbn [astype_str]. by rewrite H2, H3.
Qed.

End CleanDetails.

(** ** Cleaner: the rows that clean_data returns and the errors it raises *)

Section Tables.
Import Cleaner CleanerSpec TableSpec.

Lemma str_eqb_sym a b : Py.str_eqb a b = Py.str_eqb b a.
Proof. apply String.eqb_sym. Qed.

Lemma select_map_filter {A} (f : A → bool) (l : list A) :
  select (map f l) l = List.filter f l.
Proof. induction l as [|x l IH]; simpl; [done|]. by rewrite IH. Qed.

Lemma length_select {A} (mask : list bool) (l : list A) :
  length l = length mask → length (select mask l) = length (List.filter id mask).
Proof.
  revert l. induction mask as [|b mask IH]; intros [|x l]; simpl; try done.
  intros [= H]. destruct b; simpl; by rewrite IH.
Qed.

Lemma filter_label_map (g : string * list cell → string * list cell) l cs :
  (∀ c, Py.str_eqb (g c).1 l = Py.str_eqb c.1 l) →
  List.filter (fun c => Py.str_eqb c.1 l) (map g cs) =
  map g (List.filter (fun c => Py.str_eqb c.1 l) cs).
Proof.
  intros Hg. induction cs as [|c cs IH]; simpl; [done|].
  rewrite Hg. destruct (Py.str_eqb c.1 l); simpl; by rewrite IH.
Qed.

Lemma column_filter_rows l mask df :
  column l (filter_rows mask df) = lookup_map (select mask) (column l df).
Proof.
  unfold column, filter_rows. simpl.
  rewrite (filter_label_map (fun c => (c.1, select mask c.2))) by done.
  destruct (List.filter _ (columns df)) as [|c [|c' cs]]; done.
Qed.

Lemma column_rename l old new df :
  Py.str_eqb l old = false → Py.str_eqb l new = false →
  column l (rename old new df) = column l df.
Proof.
  intros Ho Hn. unfold column, rename. simpl.
  assert (∀ cs, List.filter (fun c => Py.str_eqb c.1 l)
                  (map (fun c : string * list cell =>
                          (if Py.str_eqb c.1 old then new else c.1, c.2)) cs)
                = List.filter (fun c => Py.str_eqb c.1 l) cs) as ->; [|done].
  induction cs as [|[l0 v0] cs IH]; simpl; [done|].
  destruct (Py.str_eqb l0 old) eqn:E.
  - simpl. apply str_eqb_eq in E. rewrite E.
    rewrite (str_eqb_sym new l), (str_eqb_sym old l), Hn, Ho. done.
  - simpl. destruct (Py.str_eqb l0 l); simpl; by rewrite IH.
Qed.

Lemma column_rename_if_present l old new df :
  Py.str_eqb l old = false → Py.str_eqb l new = false →
  column l (rename_if_present old new df) = column l df.
Proof.
  intros Ho Hn. unfold rename_if_present.
  destruct (Py.mem old (labels df)); [by apply column_rename | done].
Qed.

Lemma rename_if_present_absent old new df :
  Py.mem old (labels df) = false → rename_if_present old new df = df.
Proof. intros H. unfold rename_if_present. by rewrite H. Qed.

Lemma column_elem_of l df v : column l df = Unique v → (l, v) ∈ columns df.
Proof.
  unfold column. intros H.
  destruct (List.filter _ (columns df)) as [|c [|c' cs]] eqn:E; try done.
  injection H as <-.
  assert (In c (List.filter (fun c => Py.str_eqb c.1 l) (columns df))) as Hc
    by (rewrite E; by left).
  apply filter_In in Hc as [Hc Hl]. apply str_eqb_eq in Hl as <-.
  apply list_elem_of_In. by destruct c.
Qed.

Lemma column_absent l df : column l df = Absent ↔ Py.mem l (labels df) = false.
Proof.
  unfold column, labels. split.
  - intros H. apply mem_false. intros Hin.
    apply list_elem_of_In, in_map_iff in Hin as (c & Hc & Hin).
    assert (In c (List.filter (fun c => Py.str_eqb c.1 l) (columns df))) as Hf.
    { apply filter_In. split; [done|]. by apply str_eqb_eq. }
    destruct (List.filter _ (columns df)) as [|? [|? ?]]; done.
  - intros H. destruct (List.filter _ (columns df)) as [|c cs] eqn:E; [done|].
    exfalso. assert (In c (List.filter (fun c => Py.str_eqb c.1 l) (columns df))) as Hc
      by (rewrite E; by left).
    apply filter_In in Hc as [Hc Hl]. apply str_eqb_eq in Hl.
    apply mem_false in H. apply H. rewrite <- Hl.
    apply list_elem_of_In, in_map. done.
Qed.

Lemma filter_label_NoDup l (cs : list (string * list cell)) :
  NoDup (map fst cs) →
  length (List.filter (fun c => Py.str_eqb c.1 l) cs) ≤ 1.
Proof.
  induction cs as [|c cs IH]; simpl; [lia|].
  intros [Hc Hcs]%NoDup_cons. destruct (Py.str_eqb c.1 l) eqn:E; [|by apply IH].
  apply str_eqb_eq in E. simpl.
  assert (List.filter (fun c => Py.str_eqb c.1 l) cs = []) as ->; [|simpl; lia].
  destruct (List.filter _ cs) as [|c' cs'] eqn:E'; [done|]. exfalso.
  assert (In c' (List.filter (fun c => Py.str_eqb c.1 l) cs)) as Hin
    by (rewrite E'; by left).
  apply filter_In in Hin as [Hin Hl]. apply str_eqb_eq in Hl.
  apply Hc. rewrite E, <- Hl. apply list_elem_of_In, in_map. done.
Qed.

Lemma column_NoDup l df :
  NoDup (labels df) → Py.mem l (labels df) = true → ∃ v, column l df = Unique v.
Proof.
  intros Hn Hm. pose proof (filter_label_NoDup l (columns df) Hn) as Hlen.
  destruct (column l df) as [|v|] eqn:E.
  - apply column_absent in E. congruence.
  - by exists v.
  - unfold column in E.
    destruct (List.filter _ (columns df)) as [|c [|c' cs]]; try done. simpl in Hlen. lia.
Qed.

Lemma get_column l df v : get l df = Ok v ↔ column l df = Unique v.
Proof. unfold get. destruct (column l df); split; congruence. Qed.

Lemma get_absent l df : Py.mem l (labels df) = false → get l df = Raise (KeyError l).
Proof. intros H. unfold get. by rewrite (proj2 (column_absent l df) H). Qed.

End Tables.

Section CleaningPipeline.
Import Cleaner CleanerSpec TableSpec TextSpec.
Variable to_numeric : string → option Q.
Variable to_datetime : string → option Z.

Lemma clean_column_values_eq df times :
  get "completiontime" (standardize_labels df) = Ok times →
  _clean_column_values to_numeric to_datetime df =
    (let df3 := read_frame df times in
     receipts ← get "receiptno" df3;
     times ← get "completiontime" df3;
     withdrawns ← get "withdrawn" df3;
     paidins ← get "paidin" df3;
     details ← match column "details" df3 with
                | Absent => Ok None
                | Unique v => Ok (Some (map (clean_details) v))
                | Repeated => Raise (Unmodelled "repeated column label")
                end;
     Ok (mkTyped (map astype_string receipts)
                 (map (fun c => to_datetime (astype_str c)) times)
                 (map (clean_withdrawn to_numeric) withdrawns)
                 (map (clean_paidin to_numeric) paidins)
                 details)).
Proof.
  intros Htimes. unfold _clean_column_values. rewrite Htimes.
  cbn [mbind result_bind bind]. fold (read_frame df times).
  apply get_Ok_label in Htimes.
  assert (Py.mem "completiontime" (labels (read_frame df times)) = true) as H3.
  { unfold read_frame. do 2 (apply mem_rename_if_present; [done|]).
    by rewrite labels_filter_rows. }
  destruct (List.filter _ expected_cols_lower) as [|c cs] eqn:E; [|done].
  exfalso.
  assert (In "completiontime"
            (List.filter (fun col => Py.mem col (labels (read_frame df times)))
               expected_cols_lower)) as Hin.
  { apply filter_In. split; [|done]. vm_compute. tauto. }
  by rewrite E in Hin.
Qed.

Lemma clean_data_eq d :
  empty d = false → has_expected_cols d = true →
  clean_data to_numeric to_datetime (Some d) =
    (df_clean ← _clean_column_values to_numeric to_datetime (drop_duplicate_columns d);
     _ ← date_range df_clean;
     _extract_transaction_info df_clean).
Proof. intros He Hh. unfold clean_data. by rewrite He, Hh. Qed.

Lemma clean_data_Ok_detected d rows :
  clean_data to_numeric to_datetime (Some d) = Ok rows →
  empty d = false ∧ has_expected_cols d = true.
Proof.
  unfold clean_data. destruct (empty d); [done|].
  destruct (has_expected_cols d); done.
Qed.

Lemma well_formed_drop_duplicate_columns d :
  well_formed d → well_formed (drop_duplicate_columns d).
Proof.
  unfold well_formed. rewrite drop_duplicate_columns_eq. simpl.
  rewrite !Forall_forall. intros H c Hc. apply H.
  eapply elem_of_sublist; [exact Hc | apply keep_last_sublist].
Qed.

Lemma well_formed_read_frame d times :
  well_formed d → (∃ l, (l, times) ∈ columns (standardize_labels d)) →
  well_formed (read_frame d times).
Proof.
  intros Hwf (l & Hl).
  assert (length times = nrows d) as Hlen.
  { unfold standardize_labels in Hl. simpl in Hl.
    apply list_elem_of_In, in_map_iff in Hl as (c & [= _ <-] & Hc).
    unfold well_formed in Hwf. rewrite Forall_forall in Hwf.
    apply Hwf. by apply list_elem_of_In. }
  assert (∀ old new df, well_formed df → well_formed (rename_if_present old new df)) as Hren.
  { intros old new df H. unfold rename_if_present.
    destruct (Py.mem old (labels df)); [|done].
    unfold well_formed, rename in *. simpl. rewrite Forall_map. simpl. exact H. }
  unfold read_frame. do 2 apply Hren.
  unfold well_formed, filter_rows, standardize_labels. simpl.
  rewrite !Forall_map. simpl. unfold well_formed in Hwf.
  eapply Forall_impl; [exact Hwf|]. intros c Hc. simpl.
  apply length_select. rewrite length_map. congruence.
Qed.

Lemma get_length l df v : well_formed df → get l df = Ok v → length v = nrows df.
Proof.
  intros Hwf H. apply get_column, column_elem_of in H.
  unfold well_formed in Hwf. rewrite Forall_forall in Hwf. by apply (Hwf (l, v)).
Qed.

Lemma make_rows_completiontime rs ts ds ps ws :
  length rs = length ts → length ds = length ts → length ps = length ts →
  length ws = length ts →
  map completiontime (make_rows rs ts ds ps ws) = ts.
Proof.
  revert rs ds ps ws. induction ts as [|t ts IH]; intros [|r rs] [|d ds] [|p ps] [|w ws];
    simpl; try done.
  intros [= H1] [= H2] [= H3] [= H4]. rewrite IH by done.
  unfold make_transaction. destruct (split_details d), (split_type _). done.
Qed.

Lemma make_rows_elem_of t rs ts ds ps ws :
  t ∈ make_rows rs ts ds ps ws →
  ∃ r ti d p w, d ∈ ds ∧ t = make_transaction r ti d p w.
Proof.
  revert ts ds ps ws.
  induction rs as [|r rs IH]; intros [|t0 ts] [|d ds] [|p ps] [|w ws]; simpl;
    try (intros H; by apply elem_of_nil in H).
  intros [->|H]%elem_of_cons.
  - exists r, t0, d, p, w. split; [left | done].
  - apply IH in H as (r' & ti & d' & p' & w' & Hd & ->).
    exists r', ti, d', p', w'. split; [by right | done].
Qed.

(** What a successful run of clean_data went through. *)
Lemma clean_data_Ok_inv d rows :
  clean_data to_numeric to_datetime (Some d) = Ok rows →
  ∃ times rs ts ws ps v,
    let d' := drop_duplicate_columns d in
    get "completiontime" (standardize_labels d') = Ok times ∧
    get "receiptno" (read_frame d' times) = Ok rs ∧
    get "completiontime" (read_frame d' times) = Ok ts ∧
    get "withdrawn" (read_frame d' times) = Ok ws ∧
    get "paidin" (read_frame d' times) = Ok ps ∧
    column "details" (read_frame d' times) = Unique v ∧
    forallb (fun t => negb (bool_decide (is_Some t)))
      (map (fun c => to_datetime (astype_str c)) ts) = false ∧
    rows = make_rows (map astype_string rs)
             (map (fun c => to_datetime (astype_str c)) ts)
             (map clean_details v)
             (map (clean_paidin to_numeric) ps)
             (map (clean_withdrawn to_numeric) ws).
Proof.
  intros H. destruct (clean_data_Ok_detected _ _ H) as [He Hh].
  rewrite clean_data_eq in H by done.
  set (d' := drop_duplicate_columns d) in *.
  destruct (get "completiontime" (standardize_labels d')) as [times|e] eqn:Htimes.
  2: { unfold _clean_column_values in H. rewrite Htimes in H. done. }
  rewrite (clean_column_values_eq _ _ Htimes) in H. cbv zeta in H.
  destruct (get "receiptno" _) as [rs|] eqn:Hrs; [|done].
  destruct (get "completiontime" (read_frame d' times)) as [ts|] eqn:Hts; [|done].
  destruct (get "withdrawn" _) as [ws|] eqn:Hws; [|done].
  destruct (get "paidin" _) as [ps|] eqn:Hps; [|done].
  cbn [mbind result_bind bind] in H.
  destruct (column "details" _) as [|v|] eqn:Hv; cbn [mbind result_bind bind] in H.
  - unfold date_range in H. simpl in H.
    destruct (forallb _ _); cbn [mbind result_bind bind] in H; done.
  - unfold date_range in H. simpl in H.
    destruct (forallb _ _) eqn:Hd; cbn [mbind result_bind bind] in H; [done|].
    unfold _extract_transaction_info in H. simpl in H. injection H as <-.
    by exists times, rs, ts, ws, ps, v.
  - done.
Qed.

Lemma read_frame_completiontime d times :
  get "completiontime" (standardize_labels d) = Ok times →
  get "completiontime" (read_frame d times) = Ok (present times).
Proof.
  intros H. apply get_column in H. apply get_column. unfold read_frame.
  rewrite !column_rename_if_present by done.
  rewrite column_filter_rows, H. simpl. by rewrite select_map_filter.
Qed.

Lemma clean_data_times d rows :
  well_formed d →
  clean_data to_numeric to_datetime (Some d) = Ok rows →
  ∃ times,
    get "completiontime" (standardize_labels (drop_duplicate_columns d)) = Ok times ∧
    map completiontime rows = map (fun c => to_datetime (astype_str c)) (present times) ∧
    forallb (fun t => negb (bool_decide (is_Some t))) (map completiontime rows) = false.
Proof.
  intros Hwf H.
  destruct (clean_data_Ok_inv _ _ H) as (times & rs & ts & ws & ps & v & Hinv).
  cbv zeta in Hinv. destruct Hinv as (Htimes & Hrs & Hts & Hws & Hps & Hv & Hd & ->).
  exists times. split; [done|].
  rewrite (read_frame_completiontime _ _ Htimes) in Hts. injection Hts as <-.
  assert (well_formed (read_frame (drop_duplicate_columns d) times)) as Hwf3.
  { apply well_formed_read_frame; [by apply well_formed_drop_duplicate_columns|].
    exists "completiontime". by apply column_elem_of, get_column. }
  pose proof (get_length _ _ _ Hwf3 Hrs) as Lrs.
  pose proof (get_length _ _ _ Hwf3 Hws) as Lws.
  pose proof (get_length _ _ _ Hwf3 Hps) as Lps.
  pose proof (get_length _ _ _ Hwf3 (proj2 (get_column _ _ _) Hv)) as Lv.
  pose proof (get_length _ _ _ Hwf3 (read_frame_completiontime _ _ Htimes)) as Lts.
  assert (map completiontime
            (make_rows (map astype_string rs)
               (map (fun c => to_datetime (astype_str c)) (present times))
               (map clean_details v) (map (clean_paidin to_numeric) ps)
               (map (clean_withdrawn to_numeric) ws))
          = map (fun c => to_datetime (astype_str c)) (present times)) as Hm.
  { apply make_rows_completiontime; rewrite !length_map; congruence. }
  split; [exact Hm|]. by rewrite Hm.
Qed.

(** clean_data keeps exactly the rows that have a completion time, in
    their order: for a table whose columns all have one cell per row, the
    completion times of the returned rows are the parsed texts of the
    completion-time cells that are not missing (a text that does not parse
    gives a row without a time, it does not drop the row). *)
Theorem clean_data_keeps_dated_rows (d : DataFrame) (rows : list Transaction) :
  well_formed d →
  clean_data to_numeric to_datetime (Some d) = Ok rows →
  ∃ times,
    get "completiontime" (standardize_labels (drop_duplicate_columns d)) = Ok times ∧
    map completiontime rows = map (fun c => to_datetime (astype_str c)) (present times) ∧
    length rows = length (present times).
Proof.
  intros Hwf H. destruct (clean_data_times d rows Hwf H) as (times & Ht & Hm & _).
  exists times. split; [done|]. split; [done|].
  apply (f_equal length) in Hm. by rewrite !length_map in Hm.
Qed.

(** clean_data never returns an empty table: when it returns, some row has
    a parsed completion time (the date range that it logs is formatted from
    the earliest time, and formatting a missing time raises). *)
Theorem clean_data_returns_a_dated_row (d : DataFrame) (rows : list Transaction) :
  well_formed d →
  clean_data to_numeric to_datetime (Some d) = Ok rows →
  ∃ t time, t ∈ rows ∧ completiontime t = Some time.
Proof.
  intros Hwf H. destruct (clean_data_times d rows Hwf H) as (times & _ & _ & Hd).
  assert (∃ t, t ∈ rows ∧ is_Some (completiontime t)) as (t & Ht & [time Htime]).
  { clear -Hd. induction rows as [|t rows IH]; simpl in Hd; [done|].
    destruct (completiontime t) as [time|] eqn:E.
    - exists t. split; [left | by eexists].
    - simpl in Hd. destruct IH as (t' & Ht' & Hs); [done|].
      exists t'. split; [by right | done]. }
  by exists t, time.
Qed.

(** Every row that clean_data returns is derived from its details alone:
    the details are a cleaned cell (single-spaced and title-cased), type
    and entity are what split_details makes of the details, and type_class
    and type_desc are what split_type makes of the type. *)
Theorem clean_data_row_fields (df : option DataFrame) (rows : list Transaction)
    (t : Transaction) :
  clean_data to_numeric to_datetime df = Ok rows → t ∈ rows →
  (∃ c, details t = clean_details c) ∧
  single_spaced (details t) = true ∧
  Py.title (details t) = details t ∧
  split_details (details t) = (type t, entity t) ∧
  split_type (type t) = (type_class t, type_desc t).
Proof.
  intros H Ht. destruct df as [d|]; [|done].
  destruct (clean_data_Ok_inv _ _ H) as (times & rs & ts & ws & ps & v & Hinv).
  cbv zeta in Hinv. destruct Hinv as (_ & _ & _ & _ & _ & _ & _ & ->).
  apply make_rows_elem_of in Ht as (r & ti & dt & p & w & Hd & ->).
  apply list_elem_of_In, in_map_iff in Hd as (c & <- & _).
  destruct (clean_details_facts c) as (H1 & _ & H3 & _).
  unfold make_transaction.
  destruct (split_details (clean_details c)) as [ty ent] eqn:Esd.
  destruct (split_type ty) as [cls desc] eqn:Est. simpl.
  rewrite Esd, Est. split; [by exists c | done].
Qed.

Lemma standardize_labels_labels d :
  labels (standardize_labels d) = map standardized (labels d).
Proof. unfold labels, standardize_labels. simpl. by rewrite !map_map. Qed.

(** Detection run on the labels as _clean_column_values standardizes them
    (lower case, then stripped) accepts every table that has a recognized
    column up to letter case and surrounding whitespace: the comparison
    that clean_data makes on the raw labels misses these tables only
    because it leaves the letter case of the labels as it is. *)
Lemma detection_after_standardization d :
  (∃ l, l ∈ labels d ∧ standardized l ∈ recognized_labels) →
  has_expected_cols (standardize_labels d) = true.
Proof.
  intros (l & Hl & Hr). apply has_expected_cols_iff. exists (standardized l). split.
  - rewrite standardize_labels_labels. by apply list_elem_of_In, in_map, list_elem_of_In.
  - assert (Py.strip (standardized l) = standardized l) as ->; [|done].
    unfold recognized_labels in Hr.
    repeat (apply elem_of_cons in Hr as [Hr|Hr]; [by rewrite Hr|]).
    by apply elem_of_nil in Hr.
Qed.

Lemma NoDup_drop_duplicate_columns d :
  NoDup (labels d) → drop_duplicate_columns d = d.
Proof.
  intros H. unfold drop_duplicate_columns.
  by rewrite (proj2 (no_duplicates_iff (labels d)) H).
Qed.

Lemma read_frame_no_alias d times :
  "receiptno." ∉ map standardized (labels d) →
  "withdraw" +:+ String Py.newline "n" ∉ map standardized (labels d) →
  read_frame d times =
    filter_rows (map (fun c => negb (isnull c)) times) (standardize_labels d).
Proof.
  intros H1 H2. unfold read_frame.
  rewrite (rename_if_present_absent "receiptno.").
  2: { apply mem_false. by rewrite labels_filter_rows, standardize_labels_labels. }
  rewrite rename_if_present_absent; [done|].
  apply mem_false. by rewrite labels_filter_rows, standardize_labels_labels.
Qed.

Lemma get_filter_rows l mask df :
  get l (filter_rows mask df) =
    match get l df with
    | Ok v => Ok (select mask v)
    | Raise e => Raise e
    end.
Proof. unfold get. rewrite column_filter_rows. by destruct (column l df). Qed.

(** A table that passes detection but lacks a column that cleaning reads
    fails with the KeyError of the first such column, in the order in which
    cleaning reads them: completiontime, receiptno, withdrawn, paidin. The
    table is taken with distinct standardized labels and without the two
    aliases that cleaning renames. *)
Theorem clean_data_missing_column (d : DataFrame) (pre post : list string)
    (l : string) :
  empty d = false → has_expected_cols d = true →
  NoDup (map standardized (labels d)) →
  "receiptno." ∉ map standardized (labels d) →
  "withdraw" +:+ String Py.newline "n" ∉ map standardized (labels d) →
  required_columns = pre ++ l :: post →
  Forall (fun x => x ∈ map standardized (labels d)) pre →
  l ∉ map standardized (labels d) →
  clean_data to_numeric to_datetime (Some d) = Raise (KeyError l).
Proof.
  intros He Hh Hnd Ha1 Ha2 Hreq Hpre Hl.
  rewrite clean_data_eq by done.
  rewrite NoDup_drop_duplicate_columns by (by eapply NoDup_fmap_1).
  assert (∀ x, x ∉ map standardized (labels d) →
               get x (standardize_labels d) = Raise (KeyError x)) as Habs.
  { intros x Hx. apply get_absent, mem_false. by rewrite standardize_labels_labels. }
  assert (∀ x, x ∈ map standardized (labels d) →
               ∃ v, get x (standardize_labels d) = Ok v) as Hpres.
  { intros x Hx. destruct (column_NoDup x (standardize_labels d)) as [v Hv].
    - by rewrite standardize_labels_labels.
    - apply mem_elem_of. by rewrite standardize_labels_labels.
    - exists v. by apply get_column. }
  unfold required_columns in Hreq.
  destruct pre as [|x0 pre].
  { injection Hreq as <- _. unfold _clean_column_values. by rewrite (Habs _ Hl). }
  injection Hreq as <- Hreq. apply Forall_cons in Hpre as [Ht Hpre].
  destruct (Hpres _ Ht) as [times Htimes].
  rewrite (clean_column_values_eq _ _ Htimes). cbv zeta.
  rewrite read_frame_no_alias by done. rewrite !get_filter_rows.
  destruct pre as [|x1 pre].
  { injection Hreq as <- _. by rewrite (Habs _ Hl). }
  injection Hreq as <- Hreq. apply Forall_cons in Hpre as [H1 Hpre].
  destruct (Hpres _ H1) as [v1 ->]. rewrite Htimes. cbn [mbind result_bind bind].
  destruct pre as [|x2 pre].
  { injection Hreq as <- _. by rewrite (Habs _ Hl). }
  injection Hreq as <- Hreq. apply Forall_cons in Hpre as [H2 Hpre].
  destruct (Hpres _ H2) as [v2 ->]. cbn [mbind result_bind bind].
  destruct pre as [|x3 pre].
  { injection Hreq as <- _. by rewrite (Habs _ Hl). }
  injection Hreq as _ Hreq. by destruct pre.
Qed.

(** A table with every required column but no parseable completion time
    is rejected with a ValueError, from formatting the missing earliest
    time; one with a parseable time but no details column is rejected with
    KeyError details. Neither is a DataCleaningError. *)
Theorem clean_data_without_dates_or_details (d : DataFrame) (times : list cell) :
  empty d = false → has_expected_cols d = true →
  NoDup (map standardized (labels d)) →
  "receiptno." ∉ map standardized (labels d) →
  "withdraw" +:+ String Py.newline "n" ∉ map standardized (labels d) →
  Forall (fun x => x ∈ map standardized (labels d)) required_columns →
  get "completiontime" (standardize_labels d) = Ok times →
  (Forall (fun c => to_datetime (astype_str c) = None) (present times) →
   clean_data to_numeric to_datetime (Some d) =
     Raise (ValueError "NaTType does not support strftime")) ∧
  (Exists (fun c => is_Some (to_datetime (astype_str c))) (present times) →
   "details" ∉ map standardized (labels d) →
   clean_data to_numeric to_datetime (Some d) = Raise (KeyError "details")).
Proof.
  intros He Hh Hnd Ha1 Ha2 Hreq Htimes.
  rewrite clean_data_eq by done.
  rewrite NoDup_drop_duplicate_columns by (by eapply NoDup_fmap_1).
  assert (∀ x, x ∈ map standardized (labels d) →
               ∃ v, get x (standardize_labels d) = Ok v) as Hpres.
  { intros x Hx. destruct (column_NoDup x (standardize_labels d)) as [v Hv].
    - by rewrite standardize_labels_labels.
    - apply mem_elem_of. by rewrite standardize_labels_labels.
    - exists v. by apply get_column. }
  rewrite (clean_column_values_eq _ _ Htimes). cbv zeta.
  rewrite read_frame_no_alias by done. rewrite !get_filter_rows.
  unfold required_columns in Hreq.
  apply Forall_cons in Hreq as [_ Hreq]. apply Forall_cons in Hreq as [H1 Hreq].
  apply Forall_cons in Hreq as [H2 Hreq]. apply Forall_cons in Hreq as [H3 _].
  destruct (Hpres _ H1) as [v1 ->]. destruct (Hpres _ H2) as [v2 ->].
  destruct (Hpres _ H3) as [v3 ->]. rewrite Htimes. cbn [mbind result_bind bind].
  rewrite select_map_filter. fold (present times).
  rewrite column_filter_rows.
  destruct (column "details" (standardize_labels d)) as [|v|] eqn:Hv.
  - cbn [lookup_map mbind result_bind bind]. unfold date_range. cbn [col_completiontime].
    split.
    + intros Hall.
      assert (forallb (fun t => negb (bool_decide (is_Some t)))
                (map (fun c => to_datetime (astype_str c)) (present times)) = true) as ->; [|done].
      apply forallb_forall. intros t [c [<- Hc]]%in_map_iff.
      rewrite Forall_forall in Hall. rewrite (Hall c) by by apply list_elem_of_In. done.
    + intros Hex _.
      assert (forallb (fun t => negb (bool_decide (is_Some t)))
                (map (fun c => to_datetime (astype_str c)) (present times)) = false) as ->; [|done].
      apply not_true_iff_false. intros Hall. rewrite forallb_forall in Hall.
      apply Exists_exists in Hex as (c & Hc & [time Htime]).
      specialize (Hall (to_datetime (astype_str c))). rewrite Htime in Hall.
      assert (negb (bool_decide (is_Some (Some time))) = true) as Hn; [|done].
      apply Hall, in_map_iff. exists c. split; [done | by apply list_elem_of_In].
  - cbn [lookup_map mbind result_bind bind]. unfold date_range. cbn [col_completiontime].
    split.
    + intros Hall.
      assert (forallb (fun t => negb (bool_decide (is_Some t)))
                (map (fun c => to_datetime (astype_str c)) (present times)) = true) as ->; [|done].
      apply forallb_forall. intros t [c [<- Hc]]%in_map_iff.
      rewrite Forall_forall in Hall. rewrite (Hall c) by by apply list_elem_of_In. done.
    + intros _ Hd. exfalso. apply Hd. rewrite <- standardize_labels_labels.
      apply column_elem_of in Hv. unfold labels.
      apply list_elem_of_In, in_map_iff. exists ("details", v).
      split; [done | by apply list_elem_of_In].
  - exfalso. destruct (Py.mem "details" (labels (standardize_labels d))) eqn:Hm.
    + destruct (column_NoDup "details" (standardize_labels d)) as [v Hv'].
      * by rewrite standardize_labels_labels.
      * done.
      * congruence.
    + apply column_absent in Hm. congruence.
Qed.

End CleaningPipeline.

(** ** Categorizer: matching and entity processing *)

Section MatchPattern.
Import Categorizer CategorizerSpec KeywordSpec.

Lemma str_eqb_refl s : Py.str_eqb s s = true.
Proof. apply String.eqb_refl. Qed.

Lemma str_eqb_neq a b : Py.str_eqb a b = false ↔ a ≠ b.
Proof. apply String.eqb_neq. Qed.

Lemma fields_lookup row field_name :
  fields (Py.lower (Cleaner.details row)) (Py.lower (Cleaner.type_desc row))
    (Py.lower (Cleaner.type_class row)) (Cleaner.entity row) !! field_name =
  field_value row field_name.
Proof.
  unfold fields, field_value. rewrite !lookup_insert, lookup_empty.
  destruct (Py.str_eqb field_name "details") eqn:E1.
  { apply str_eqb_eq in E1 as ->. by repeat case_decide. }
  destruct (Py.str_eqb field_name "type_desc") eqn:E2.
  { apply str_eqb_eq in E2 as ->. by repeat case_decide. }
  destruct (Py.str_eqb field_name "type_class") eqn:E3.
  { apply str_eqb_eq in E3 as ->. by repeat case_decide. }
  destruct (Py.str_eqb field_name "entity") eqn:E4.
  { apply str_eqb_eq in E4 as ->. by repeat case_decide. }
  apply str_eqb_neq in E1, E2, E3, E4.
  repeat case_decide; congruence.
Qed.

Lemma matches_items_true fs items :
  matches_items fs items = true ↔
  ∀ field_name fp v, (field_name, fp) ∈ items → fs !! field_name = Some v →
                     _matches_field_pattern v fp = true.
Proof.
  induction items as [|[f fp] items IH]; simpl.
  - split; [|done]. intros _ ? ? ? H. by apply elem_of_nil in H.
  - destruct (fs !! f) as [v|] eqn:E.
    + destruct (_matches_field_pattern v fp) eqn:Em; simpl.
      * rewrite IH. split.
        -- intros H f' fp' v' [[= -> ->]|Hin]%elem_of_cons Hv; [congruence | eauto].
        -- intros H f' fp' v' Hin Hv. eapply H; [by right | done].
      * split; [done|]. intros H. rewrite <- Em. eapply H; [by left | done].
    + rewrite IH. split.
      * intros H f' fp' v' [[= -> ->]|Hin]%elem_of_cons Hv; [congruence | eauto].
      * intros H f' fp' v' Hin Hv. eapply H; [by right | done].
Qed.

Lemma matches_true row cat_def :
  matches row cat_def = true ↔
  ∀ field_name fp v, (field_name, fp) ∈ patterns cat_def →
                     field_value row field_name = Some v →
                     _matches_field_pattern v fp = true.
Proof.
  unfold matches, _matches_pattern. rewrite matches_items_true.
  split; intros H f fp v Hin Hv; eapply H; try done.
  - by rewrite fields_lookup.
  - by rewrite <- fields_lookup.
Qed.

Lemma field_value_Some row field_name :
  is_Some (field_value row field_name) ↔ field_name ∈ field_names.
Proof.
  unfold field_value, field_names.
  destruct (Py.str_eqb field_name "details") eqn:E1.
  { apply str_eqb_eq in E1 as ->. split; [intros _; repeat constructor | by eexists]. }
  destruct (Py.str_eqb field_name "type_desc") eqn:E2.
  { apply str_eqb_eq in E2 as ->. split; [intros _; repeat constructor | by eexists]. }
  destruct (Py.str_eqb field_name "type_class") eqn:E3.
  { apply str_eqb_eq in E3 as ->. split; [intros _; repeat constructor | by eexists]. }
  destruct (Py.str_eqb field_name "entity") eqn:E4.
  { apply str_eqb_eq in E4 as ->. split; [intros _; repeat constructor | by eexists]. }
  apply str_eqb_neq in E1, E2, E3, E4.
  split; [by intros [? ?]|]. intros H.
  repeat (apply elem_of_cons in H as [H|H]; [congruence|]). by apply elem_of_nil in H.
Qed.

(** A definition matches a row exactly when every spec that it gives for
    one of the four fields matches that field's value in lower case: the
    specs are joined by AND, a spec under any other field name is ignored,
    and a definition without specs matches every row. So the order of the
    specs plays no part. *)
Theorem matches_every_named_field (row : Cleaner.Transaction)
    (cat_def : CategoryDefinition) :
  (matches row cat_def = true ↔
   ∀ field_name fp v, (field_name, fp) ∈ patterns cat_def →
                      field_value row field_name = Some v →
                      _matches_field_pattern v fp = true) ∧
  (∀ field_name, is_Some (field_value row field_name) ↔ field_name ∈ field_names) ∧
  (Forall (fun item => fst item ∉ field_names) (patterns cat_def) →
   matches row cat_def = true) ∧
  (∀ other, patterns other ≡ₚ patterns cat_def →
            matches row other = matches row cat_def).
Proof.
  split; [apply matches_true|]. split; [apply field_value_Some|]. split.
  - intros Hall. apply matches_true. intros f fp v Hin Hv.
    rewrite Forall_forall in Hall. specialize (Hall _ Hin). simpl in Hall.
    exfalso. apply Hall, (field_value_Some row). by eexists.
  - intros other Hperm.
    destruct (matches row cat_def) eqn:E.
    + apply matches_true. intros f fp v Hin Hv.
      apply (proj1 (matches_true row cat_def) E f fp v); [|done]. by rewrite <- Hperm.
    + apply not_true_iff_false. intros E'. apply not_true_iff_false in E. apply E.
      apply matches_true. intros f fp v Hin Hv.
      apply (proj1 (matches_true row other) E' f fp v); [|done]. by rewrite Hperm.
Qed.

End MatchPattern.

Section Keywords.
Import Categorizer CategorizerSpec KeywordSpec.
#[local] Arguments Py.chr_eqb : simpl never.
#[local] Arguments Py.isupper : simpl never.
#[local] Arguments Py.lower_char : simpl never.

Lemma startswith_lower_no_upper v kw :
  Py.startswith (Py.lower v) kw = true → has_upper kw = false.
Proof.
  unfold has_upper. revert v. induction kw as [|a kw IH]; intros v; [done|].
  destruct v as [|b v]; [done|]. rewrite lower_String. simpl.
  intros [Hc Hs]%andb_true_iff. apply chr_eqb_eq in Hc. subst a.
  rewrite isupper_lower_char. simpl. by eapply IH.
Qed.

Lemma contains_lower_no_upper v kw :
  Py.contains kw (Py.lower v) = true → has_upper kw = false.
Proof.
  induction v as [|b v IH].
  - simpl. rewrite orb_false_r. apply (startswith_lower_no_upper "").
  - rewrite lower_String. cbn [Py.contains]. intros [H|H]%orb_true_iff.
    + rewrite <- lower_String in H. by eapply startswith_lower_no_upper.
    + by apply IH.
Qed.

Lemma lower_no_upper v : has_upper (Py.lower v) = false.
Proof.
  unfold has_upper. induction v as [|b v IH]; [done|].
  rewrite lower_String. simpl. by rewrite isupper_lower_char, IH.
Qed.

Lemma capitalised_spec_fails fp v :
  textual_only fp = true → forallb has_upper (keywords fp) = true →
  _matches_field_pattern (Py.lower v) fp = false.
Proof.
  unfold textual_only, keywords.
  intros [[Hany Hn]%andb_true_iff Hs]%andb_true_iff Hkw.
  apply negb_true_iff in Hn, Hs.
  rewrite !forallb_app in Hkw. apply andb_true_iff in Hkw as [Hc Hkw].
  apply andb_true_iff in Hkw as [He Hst].
  assert (contains_hit (Py.lower v) fp = false) as H1.
  { unfold contains_hit. destruct (contains fp) as [l|]; [|done]. simpl in Hc.
    apply not_true_iff_false. intros [kw [Hin Hk]]%existsb_exists.
    apply contains_lower_no_upper in Hk.
    rewrite forallb_forall in Hc. rewrite (Hc _ Hin) in Hk. done. }
  assert (equals_hit (Py.lower v) fp = false) as H2.
  { unfold equals_hit. destruct (equals fp) as [[s|l]|]; try done. simpl in He.
    rewrite andb_true_r in He.
    apply not_true_iff_false. intros Heq%str_eqb_eq. subst s.
    by rewrite lower_no_upper in He. }
  assert (startswith_hit (Py.lower v) fp = false) as H3.
  { unfold startswith_hit. destruct (startswith fp) as [l|]; [|done]. simpl in Hst.
    apply not_true_iff_false. intros [kw [Hin Hk]]%existsb_exists.
    apply startswith_lower_no_upper in Hk.
    rewrite forallb_forall in Hst. rewrite (Hst _ Hin) in Hk. done. }
  unfold _matches_field_pattern. rewrite H1, H2, H3.
  unfold startswith_numeric_hit, not_starts_with_hit, truthy.
  destruct (startswith_numeric fp); [done|]. destruct (not_starts_with fp); [done|].
  simpl. rewrite !orb_false_r. rewrite Hany.
  destruct (contains fp), (equals fp), (startswith fp); done.
Qed.

Lemma capitalised_row_fails (row : Cleaner.Transaction)
    (cat_def : CategoryDefinition) (field_name : string) (fp : field_patterns) :
  (field_name, fp) ∈ patterns cat_def →
  field_name ∈ field_names →
  textual_only fp = true →
  forallb has_upper (keywords fp) = true →
  matches row cat_def = false.
Proof.
  intros Hin Hf Ht Hkw. apply not_true_iff_false. intros Hm.
  apply (field_value_Some row) in Hf as [v Hv].
  pose proof (proj1 (matches_true row cat_def) Hm _ _ _ Hin Hv) as H.
  assert (∃ w, v = Py.lower w) as [w ->].
  { unfold field_value in Hv.
    repeat match type of Hv with
           | (if ?b then _ else _) = _ => destruct b
           end; try done; injection Hv as <-; by eexists. }
  by rewrite capitalised_spec_fails in H.
Qed.

(** Matching compares every field in lower case with the keywords as they
    are written. A spec on one of the four fields that has only textual
    operators (contains, equals, startswith) and whose keywords all have a
    capital letter therefore matches no value, and a definition with such
    a spec matches no transaction. *)
Theorem capitalised_keywords_never_match (row : Cleaner.Transaction)
    (cat_def : CategoryDefinition) (field_name : string) (fp : field_patterns) :
  (field_name, fp) ∈ patterns cat_def →
  field_name ∈ field_names →
  textual_only fp = true →
  forallb has_upper (keywords fp) = true →
  (∀ v, _matches_field_pattern (Py.lower v) fp = false) ∧
  matches row cat_def = false.
Proof.
  intros Hin Hf Ht Hkw. split.
  - intros v. by apply capitalised_spec_fails.
  - by eapply capitalised_row_fails.
Qed.

End Keywords.

Section ProcessEntity.
Import Categorizer CategorizerSpec KeywordSpec.

(** _process_entity writes only processed_entity and account_no. Outside
    the money-transfer categories, PayBillPayments, airtime_bundle and
    Pochi it returns the record as it is; for airtime_bundle and Pochi it
    leaves account_no alone; for the money-transfer categories and
    PayBillPayments the record has an account_no afterwards. *)
Theorem process_entity_writes_two_fields (t : CategorizedTransaction)
    (category_name : string) :
  let t' := _process_entity t category_name in
  (category t' = category t ∧ receiptno t' = receiptno t ∧
   completiontime t' = completiontime t ∧ details t' = details t ∧
   paidin t' = paidin t ∧ withdrawn t' = withdrawn t ∧ entity t' = entity t ∧
   type_class t' = type_class t ∧ type_desc t' = type_desc t ∧
   is_charge t' = is_charge t ∧ subcategory t' = subcategory t) ∧
  (category_name ∉ processed_categories → t' = t) ∧
  (category_name ∈ [ "airtime_bundle"; "Pochi" ] → account_no t' = account_no t) ∧
  (category_name ∈ money_transfer_cats ++ [ "PayBillPayments" ] →
   is_Some (account_no t')).
Proof.
  cbv zeta. split; [|split; [|split]].
  - unfold _process_entity.
    repeat match goal with
           | |- context [if ?b then _ else _] => destruct b
           | |- context [let '(_, _) := ?p in _] => destruct p
           end; simpl; repeat split.
  - intros Hc. unfold _process_entity.
    destruct (Py.mem category_name money_transfer_cats) eqn:E1.
    { exfalso. apply Hc. unfold processed_categories. apply elem_of_app. left.
      by apply mem_elem_of. }
    destruct (Py.str_eqb category_name "PayBillPayments") eqn:E2.
    { exfalso. apply Hc. apply str_eqb_eq in E2 as ->. unfold processed_categories.
      apply elem_of_app. right. repeat constructor. }
    destruct (Py.mem category_name [ "airtime_bundle"; "Pochi" ]) eqn:E3; [|done].
    exfalso. apply Hc. apply mem_elem_of in E3. unfold processed_categories.
    apply elem_of_app. right. by right.
  - intros Hc. unfold _process_entity.
    assert (category_name = "airtime_bundle" ∨ category_name = "Pochi") as Hcases.
    { apply elem_of_cons in Hc as [Hc|Hc]; [by left|].
      apply list_elem_of_singleton in Hc. by right. }
    assert (Py.mem category_name money_transfer_cats = false) as ->
      by (by destruct Hcases as [-> | ->]).
    assert (Py.str_eqb category_name "PayBillPayments" = false) as ->
      by (by destruct Hcases as [-> | ->]).
    destruct (Py.mem category_name _); [|done].
    destruct (looks_like_phone (entity t)); [|done].
    by destruct (process_masked_phone (entity t)).
  - intros [Hc|Hc]%elem_of_app; unfold _process_entity.
    + apply mem_elem_of in Hc. rewrite Hc.
      destruct (looks_like_phone (entity t)).
      * destruct (process_masked_phone (entity t)). simpl. by eexists.
      * destruct (process_business_and_account (entity t)). simpl. by eexists.
    + apply list_elem_of_singleton in Hc as ->.
      assert (Py.mem "PayBillPayments" money_transfer_cats = false) as -> by reflexivity.
      simpl. destruct (extract_paybill_details (entity t)). simpl. by eexists.
Qed.

End ProcessEntity.

(** ** Categorizer: NoDetails, coverage and custom categories *)

Section NoDetails.
Import Cleaner Categorizer CategorizerSpec.
#[local] Arguments Py.chr_eqb : simpl never.
#[local] Arguments Py.isspace : simpl never.
#[local] Arguments Py.lower_char : simpl never.

Lemma lower_char_space : Py.lower_char Py.space = Py.space.
Proof. reflexivity. Qed.

Lemma lower_collapse_ws_go b s :
  Py.lower (Py.collapse_ws_go b s) = Py.collapse_ws_go b (Py.lower s).
Proof.
  revert b. induction s as [|c s IH]; intros b; [done|].
  rewrite lower_String. cbn [Py.collapse_ws_go]. rewrite isspace_lower_char.
  destruct (Py.isspace c).
  - destruct b; [apply IH|]. by rewrite lower_String, lower_char_space, IH.
  - by rewrite lower_String, IH.
Qed.

Lemma lower_collapse_ws s : Py.lower (Py.collapse_ws s) = Py.collapse_ws (Py.lower s).
Proof. apply lower_collapse_ws_go. Qed.

Lemma collapse_ws_go_no_space s :
  forallb (fun c => negb (Py.isspace c)) (list_ascii_of_string (Py.collapse_ws_go false s)) = true →
  Py.collapse_ws_go false s = s.
Proof.
  induction s as [|c s IH]; [done|]. cbn [Py.collapse_ws_go].
  destruct (Py.isspace c) eqn:E.
  - cbn [list_ascii_of_string forallb]. by rewrite space_isspace.
  - cbn [list_ascii_of_string forallb]. rewrite E. simpl. intros H. by rewrite IH.
Qed.

Lemma collapse_ws_nan s : Py.collapse_ws s = "nan" ↔ s = "nan".
Proof.
  unfold Py.collapse_ws. split; [|by intros ->].
  intros H. rewrite <- H. symmetry. apply collapse_ws_go_no_space. by rewrite H.
Qed.

Lemma collapse_ws_empty s : Py.collapse_ws s = "" ↔ s = "".
Proof.
  split; [|by intros ->]. destruct s as [|c s]; [done|].
  unfold Py.collapse_ws. cbn [Py.collapse_ws_go]. by destruct (Py.isspace c).
Qed.

Lemma no_details_clean_details c :
  no_details (Py.lower (clean_details c)) = true ↔
  astype_str c = "" ∨ Py.lower (astype_str c) = "nan".
Proof.
  destruct (clean_details_facts c) as (_ & _ & _ & Hl). rewrite Hl. clear Hl.
  rewrite lower_collapse_ws.
  unfold no_details. rewrite orb_true_iff, negb_true_iff. split.
  - intros [H|H].
    + right. apply str_eqb_eq in H. exact (proj1 (collapse_ws_nan _) H).
    + left. destruct (Py.collapse_ws (Py.lower (astype_str c))) eqn:E; [|done].
      apply (proj1 (collapse_ws_empty _)) in E. exact (proj1 (lower_empty _) E).
  - intros [H|H].
    + right. by rewrite H.
    + left. apply str_eqb_eq. by rewrite H.
Qed.

(** A cleaned row is filed under NoDetails exactly when its details cell
    was empty or spelled nan in any mix of cases, which is how a NaN cell
    reads as text. Such a row gets the single NoDetails record whatever the
    definitions are. A cell holding None is not one of them: it reads as
    the text None and is matched like any other details. *)
Theorem no_details_after_cleaning (c : cell) (row : Transaction)
    (defs : list CategoryDefinition) :
  Cleaner.details row = clean_details c →
  (no_details (Py.lower (Cleaner.details row)) = true ↔
   astype_str c = "" ∨ Py.lower (astype_str c) = "nan") ∧
  (astype_str c = "" ∨ Py.lower (astype_str c) = "nan" →
   categorize_transaction defs row =
     [ set_category "NoDetails" (base_transaction_data row) ]) ∧
  (c = CNaN → no_details (Py.lower (Cleaner.details row)) = true) ∧
  (c = CNone → no_details (Py.lower (Cleaner.details row)) = false).
Proof.
  intros Hd. rewrite Hd. split; [apply no_details_clean_details|]. split; [|split].
  - intros H. apply no_details_clean_details in H.
    unfold categorize_transaction. by rewrite Hd, H.
  - by intros ->.
  - by intros ->.
Qed.

End NoDetails.

Section Coverage.
Import Categorizer CategorizerSpec.

Lemma base_of_row row c : of_row row (set_category c (base_transaction_data row)).
Proof. unfold of_row. simpl. repeat split. Qed.

Lemma known_category_name defs d :
  d ∈ defs → known_category defs (name d) = true.
Proof.
  intros Hd. unfold known_category.
  assert (Py.mem (name d) (map name defs) = true) as ->; [|done].
  apply mem_elem_of, list_elem_of_In, in_map. by apply list_elem_of_In.
Qed.

Lemma categorize_transaction_record defs row r :
  r ∈ categorize_transaction defs row →
  of_row row r ∧ ∃ c, category r = Some c ∧ known_category defs c = true.
Proof.
  destruct (no_details (Py.lower (Cleaner.details row))) eqn:E.
  - unfold categorize_transaction. rewrite E.
    intros ->%list_elem_of_singleton. split; [apply base_of_row|].
    exists "NoDetails". split; [done|]. unfold known_category. by rewrite orb_true_r.
  - rewrite categorize_transaction_eq by done.
    destruct (map _ _) as [|m ms] eqn:Em.
    + intros ->%list_elem_of_singleton. split; [apply base_of_row|].
      exists "uncategorized". split; [done|]. unfold known_category. by rewrite orb_true_r.
    + rewrite <- Em. intros Hr.
      apply list_elem_of_In, in_map_iff in Hr as (d & <- & Hd).
      apply filter_In in Hd as [Hd _].
      destruct (matched_record_of_row row d) as [Hc Hrow].
      split; [done|]. exists (name d). split; [done|].
      apply known_category_name. by apply list_elem_of_In.
Qed.

Lemma categorize_transaction_nonempty defs row : categorize_transaction defs row ≠ [].
Proof.
  destruct (no_details (Py.lower (Cleaner.details row))) eqn:E.
  - unfold categorize_transaction. by rewrite E.
  - rewrite categorize_transaction_eq by done. by destruct (map _ _).
Qed.

Lemma new_categorizer_lookup loaded custom df c :
  categorize_with_new_categorizer loaded custom df !! c =
    if known_category (category_definitions (__init__ loaded custom)) c
    then Some (membership (category_definitions (__init__ loaded custom)) df c)
    else None.
Proof.
  unfold categorize_with_new_categorizer, categorize_transactions. cbn [snd].
  rewrite categorize_rows_lookup, init_lookup. by destruct (known_category _ c).
Qed.

Lemma elem_of_membership defs df c r :
  r ∈ membership defs df c ↔
  category r = Some c ∧ ∃ row, row ∈ df ∧ r ∈ categorize_transaction defs row.
Proof.
  unfold membership. rewrite list_elem_of_In, filter_In, in_flat_map.
  rewrite bool_decide_eq_true. split.
  - intros [(row & Hrow & Hr) Hc]. split; [done|]. exists row.
    split; by apply list_elem_of_In.
  - intros [Hc (row & Hrow & Hr)]. split; [|done]. exists row.
    split; by apply list_elem_of_In.
Qed.

(** Categorization on a new categorizer loses no row and invents none:
    every row of the input has a record in the list of some category, and
    every record of every list carries the data of an input row and the
    name of the category under which it is filed. *)
Theorem categorization_loses_no_row (loaded : list CategoryDefinition)
    (custom : option (list CategoryDefinition)) (df : list Cleaner.Transaction) :
  let categorized := categorize_with_new_categorizer loaded custom df in
  (∀ row, row ∈ df →
     ∃ c records r, categorized !! c = Some records ∧ r ∈ records ∧ of_row row r) ∧
  (∀ c records r, categorized !! c = Some records → r ∈ records →
     category r = Some c ∧ ∃ row, row ∈ df ∧ of_row row r).
Proof.
  cbv zeta. set (defs := category_definitions (__init__ loaded custom)). split.
  - intros row Hrow.
    destruct (categorize_transaction defs row) as [|r rs] eqn:E.
    { by apply categorize_transaction_nonempty in E. }
    assert (r ∈ categorize_transaction defs row) as Hr by (rewrite E; left).
    destruct (categorize_transaction_record _ _ _ Hr) as (Hof & c & Hc & Hk).
    exists c, (membership defs df c), r. split; [|split; [|done]].
    + rewrite new_categorizer_lookup. fold defs. by rewrite Hk.
    + apply elem_of_membership. split; [done|]. by exists row.
  - intros c records r Hl Hr. rewrite new_categorizer_lookup in Hl. fold defs in Hl.
    destruct (known_category defs c); [|done]. injection Hl as <-.
    apply elem_of_membership in Hr as (Hc & row & Hrow & Hr).
    split; [done|]. exists row. split; [done|].
    by apply categorize_transaction_record in Hr as [? _].
Qed.

End Coverage.

Section CustomCategories.
Import Categorizer CategorizerSpec.

Lemma init_definitions loaded custom :
  category_definitions (__init__ loaded (Some custom)) = custom ++ loaded.
Proof. by destruct custom. Qed.

Lemma filter_category_matched row c ds :
  c ∉ map name ds →
  List.filter (fun r => bool_decide (category r = Some c)) (map (matched_record row) ds) = [].
Proof.
  induction ds as [|d ds IH]; [done|]. simpl.
  intros [Hd Hds]%not_elem_of_cons.
  destruct (matched_record_of_row row d) as [Hc _]. rewrite Hc.
  rewrite bool_decide_false by congruence. by apply IH.
Qed.

Lemma not_in_filter_names c (p : CategoryDefinition → bool) ds :
  c ∉ map name ds → c ∉ map name (List.filter p ds).
Proof.
  intros H Hin. apply H.
  apply list_elem_of_In, in_map_iff in Hin as (d & <- & Hd).
  apply filter_In in Hd as [Hd _]. apply list_elem_of_In, in_map. done.
Qed.

(** The records that a row contributes to category [c], with and without
    custom definitions that do not use the name [c]. *)
Lemma custom_row_records custom loaded row c :
  c ∉ map name custom →
  let tagged := List.filter (fun r => bool_decide (category r = Some c)) in
  (c ≠ "uncategorized" →
   tagged (categorize_transaction (custom ++ loaded) row) =
   tagged (categorize_transaction loaded row)) ∧
  tagged (categorize_transaction (custom ++ loaded) row) `sublist_of`
  tagged (categorize_transaction loaded row).
Proof.
  intros Hc. cbv zeta.
  destruct (no_details (Py.lower (Cleaner.details row))) eqn:E.
  { unfold categorize_transaction. rewrite E. done. }
  rewrite !categorize_transaction_eq by done.
  rewrite List.filter_app, map_app.
  pose proof (filter_category_matched row c (List.filter (matches row) custom)
                (not_in_filter_names c _ _ Hc)) as HA.
  destruct (map (matched_record row) (List.filter (matches row) custom)) as [|a A] eqn:EA;
    [done|].
  destruct (map (matched_record row) (List.filter (matches row) loaded)) as [|b B] eqn:EB.
  - rewrite app_nil_r, HA. split.
    + intros Hne. simpl. rewrite bool_decide_false; [done|]. congruence.
    + apply sublist_nil_l.
  - change ((a :: A) ++ b :: B) with ((a :: A) ++ (b :: B)).
    assert (List.filter (fun r => bool_decide (category r = Some c)) ((a :: A) ++ b :: B)
            = List.filter (fun r => bool_decide (category r = Some c)) (b :: B)) as Heq
      by (by rewrite List.filter_app, HA).
    simpl in Heq |- *. by rewrite Heq.
Qed.

Lemma custom_membership custom loaded df c :
  c ∉ map name custom →
  (c ≠ "uncategorized" →
   membership (custom ++ loaded) df c = membership loaded df c) ∧
  membership (custom ++ loaded) df c `sublist_of` membership loaded df c.
Proof.
  intros Hc. unfold membership. induction df as [|row df [IH1 IH2]]; [done|].
  cbn [flat_map]. rewrite !List.filter_app.
  destruct (custom_row_records custom loaded row c Hc) as [H1 H2]. split.
  - intros Hne. by rewrite H1, IH1.
  - by apply sublist_app.
Qed.

(** Custom definitions do not disturb the other categories: a category
    whose name no custom definition uses, uncategorized apart, gets the
    same records with and without the custom definitions. Uncategorized can
    only lose records: its list with custom definitions is a sublist of its
    list without them. *)
Theorem custom_categories_leave_others_alone (loaded custom : list CategoryDefinition)
    (df : list Cleaner.Transaction) :
  let with_custom := categorize_with_new_categorizer loaded (Some custom) df in
  let without := categorize_with_new_categorizer loaded None df in
  (∀ c, c ∉ map name custom → c ≠ "uncategorized" →
        with_custom !! c = without !! c) ∧
  ("uncategorized" ∉ map name custom →
   ∃ l1 l2, with_custom !! "uncategorized" = Some l1 ∧
            without !! "uncategorized" = Some l2 ∧ l1 `sublist_of` l2).
Proof.
  cbv zeta. split.
  - intros c Hc Hne. rewrite !new_categorizer_lookup, init_definitions.
    cbn [__init__ category_definitions].
    destruct (custom_membership custom loaded df c Hc) as [Hm _]. rewrite (Hm Hne).
    assert (known_category (custom ++ loaded) c = known_category loaded c) as ->; [|done].
    unfold known_category. f_equal. f_equal. rewrite map_app.
    apply mem_false in Hc. unfold Py.mem in *. by rewrite existsb_app, Hc.
  - intros Hc. rewrite !new_categorizer_lookup, init_definitions.
    cbn [__init__ category_definitions].
    assert (∀ defs, known_category defs "uncategorized" = true) as Hk.
    { intros defs. unfold known_category. by rewrite orb_true_r. }
    rewrite !Hk. eexists _, _. split; [done|]. split; [done|].
    by apply custom_membership.
Qed.

End CustomCategories.

(** ** Analyzer: sums and the analyses of the fixed categories *)

Section Sums.
Import Categorizer Analyzer AnalyzerSpec.
#[local] Arguments sum : simpl never.
#[local] Arguments group : simpl never.

Lemma group_cons k r rs :
  group k (r :: rs) =
    if Py.str_eqb (processed_entity r) k then r :: group k rs else group k rs.
Proof. reflexivity. Qed.

Lemma sum_cons x l : sum (x :: l) = (x + sum l)%Q.
Proof. reflexivity. Qed.

Lemma sum_nil : sum [] = 0%Q.
Proof. reflexivity. Qed.

Lemma sum_app l1 l2 : (sum (l1 ++ l2) == sum l1 + sum l2)%Q.
Proof.
  induction l1 as [|x l1 IH]; simpl.
  - rewrite sum_nil. lra.
  - rewrite !sum_cons. rewrite IH. lra.
Qed.

Lemma sum_perm l1 l2 : l1 ≡ₚ l2 → (sum l1 == sum l2)%Q.
Proof.
  induction 1 as [|x l1 l2 _ IH|x y l|l1 l2 l3 _ IH1 _ IH2].
  - reflexivity.
  - rewrite !sum_cons, IH. reflexivity.
  - rewrite !sum_cons. lra.
  - by rewrite IH1.
Qed.

Lemma sum_nonneg l : Forall (fun x => (0 <= x)%Q) l → (0 <= sum l)%Q.
Proof.
  induction 1 as [|x l Hx _ IH]; [apply Qle_refl|]. rewrite sum_cons. lra.
Qed.

Lemma sum_map_plus {A} (a b : A → Q) (l : list A) :
  (sum (map (fun k => a k + b k) l) == sum (map a l) + sum (map b l))%Q.
Proof.
  induction l as [|k l IH]; simpl.
  - rewrite sum_nil. lra.
  - rewrite !sum_cons, IH. lra.
Qed.

Lemma sum_map_ext {A} (a b : A → Q) (l : list A) :
  (∀ k, (a k == b k)%Q) → (sum (map a l) == sum (map b l))%Q.
Proof.
  intros H. induction l as [|k l IH]; simpl; [reflexivity|].
  rewrite !sum_cons, IH, H. reflexivity.
Qed.

(** The one key that a row falls under takes the row's value. *)
Lemma sum_indicator (e : string) (x : Q) (keys : list string) :
  NoDup keys → e ∈ keys →
  (sum (map (fun k => if Py.str_eqb e k then x else 0) keys) == x)%Q.
Proof.
  induction 1 as [|k keys Hk Hnd IH]; [by intros ?%elem_of_nil|].
  intros [->|Hin]%elem_of_cons; simpl; rewrite sum_cons.
  - rewrite str_eqb_refl.
    assert (sum (map (fun k0 => if Py.str_eqb k k0 then x else 0) keys) == 0)%Q as ->; [|lra].
    clear IH Hnd. induction keys as [|k' keys IH]; [reflexivity|].
    apply not_elem_of_cons in Hk as [Hne Hk]. simpl. rewrite sum_cons.
    rewrite (proj2 (str_eqb_neq k k')) by done. rewrite IH by done. lra.
  - assert (Py.str_eqb e k = false) as ->.
    { apply str_eqb_neq. intros ->. done. }
    rewrite IH by done. lra.
Qed.

Lemma grouped_sum (f : CategorizedTransaction → Q) (keys : list string)
    (rs : list CategorizedTransaction) :
  NoDup keys → Forall (fun r => processed_entity r ∈ keys) rs →
  (sum (map (fun k => sum (map f (group k rs))) keys) == sum (map f rs))%Q.
Proof.
  intros Hnd. induction 1 as [|r rs Hr _ IH].
  - simpl. induction keys as [|k keys IHk]; [reflexivity|].
    apply NoDup_cons in Hnd as [_ Hnd]. simpl. rewrite sum_cons, IHk by done.
    rewrite sum_nil. lra.
  - change (map f (r :: rs)) with (f r :: map f rs). rewrite sum_cons, <- IH.
    rewrite <- (sum_indicator (processed_entity r) (f r) keys Hnd Hr) at 1.
    rewrite <- sum_map_plus. apply sum_map_ext. intros k. rewrite group_cons.
    destruct (Py.str_eqb (processed_entity r) k); simpl; [rewrite sum_cons|]; lra.
Qed.

Lemma count_indicator (e : string) (n : nat) (keys : list string) :
  NoDup keys → e ∈ keys →
  sum_list (map (fun k => if Py.str_eqb e k then n else 0) keys) = n.
Proof.
  induction 1 as [|k keys Hk Hnd IH]; [by intros ?%elem_of_nil|].
  intros [->|Hin]%elem_of_cons; simpl.
  - rewrite str_eqb_refl.
    assert (sum_list (map (fun k0 => if Py.str_eqb k k0 then n else 0) keys) = 0) as ->; [|lia].
    clear IH Hnd. induction keys as [|k' keys IH]; [done|].
    apply not_elem_of_cons in Hk as [Hne Hk]. simpl.
    rewrite (proj2 (str_eqb_neq k k')) by done. by rewrite IH.
  - assert (Py.str_eqb e k = false) as ->.
    { apply str_eqb_neq. intros ->. done. }
    by rewrite IH.
Qed.

Lemma grouped_count (keys : list string) (rs : list CategorizedTransaction) :
  NoDup keys → Forall (fun r => processed_entity r ∈ keys) rs →
  sum_list (map (fun k => count_non_null (map receiptno (group k rs))) keys) =
  count_non_null (map receiptno rs).
Proof.
  intros Hnd. induction 1 as [|r rs Hr _ IH].
  - simpl. induction keys as [|k keys IHk]; [done|].
    apply NoDup_cons in Hnd as [_ Hnd]. simpl. by rewrite IHk.
  - set (n := if bool_decide (is_Some (receiptno r)) then 1 else 0).
    assert (count_non_null (map receiptno (r :: rs)) =
            n + count_non_null (map receiptno rs)) as ->.
    { unfold count_non_null, n. simpl. by destruct (bool_decide _). }
    rewrite <- IH.
    transitivity
      (sum_list (map (fun k => if Py.str_eqb (processed_entity r) k then n else 0) keys) +
       sum_list (map (fun k => count_non_null (map receiptno (group k rs))) keys)).
    2: { by rewrite (count_indicator (processed_entity r) n keys Hnd Hr). }
    clear. induction keys as [|k keys IHk]; [done|]. simpl. rewrite IHk.
    rewrite group_cons.
    destruct (Py.str_eqb (processed_entity r) k); simpl.
    + unfold count_non_null at 1, n. simpl.
      destruct (bool_decide _); simpl; unfold count_non_null; lia.
    + lia.
Qed.

Lemma agg_amounts is_money_in rs :
  (sum (map amount (agg is_money_in rs)) == sum (map (amount_of is_money_in) rs))%Q.
Proof.
  unfold agg. rewrite map_map. simpl.
  apply grouped_sum.
  - apply sorted_NoDup, group_keys_sorted.
  - apply Forall_forall. intros r Hr. apply elem_of_group_keys. by exists r.
Qed.

Lemma agg_counts is_money_in rs :
  sum_list (map count (agg is_money_in rs)) = count_non_null (map receiptno rs).
Proof.
  unfold agg. rewrite map_map. simpl.
  apply grouped_count.
  - apply sorted_NoDup, group_keys_sorted.
  - apply Forall_forall. intros r Hr. apply elem_of_group_keys. by exists r.
Qed.

Lemma nunique_le_count xs : nunique xs ≤ count_non_null xs.
Proof.
  unfold nunique, count_non_null.
  assert (∀ l : list string, length (remove_dups l) ≤ length l) as Hle.
  { induction l as [|x l IH]; simpl; [lia|]. destruct (decide_rel _ _ _); simpl; lia. }
  etransitivity; [apply Hle|].
  induction xs as [|[x|] xs IH]; [done| |].
  - change (S (length (omap id xs)) ≤
            S (length (List.filter (fun x => bool_decide (is_Some x)) xs))). lia.
  - exact IH.
Qed.

End Sums.

Section Conservation.
Import Categorizer Analyzer AnalyzerSpec.
#[local] Arguments sum : simpl never.

(** The aggregated frame of analyze_category adds up to the headline
    figures: its amounts sum to total_amount, and its counts sum to the
    number of non-charge rows that have a receipt number, which is at
    least transaction_count (the number of distinct receipt numbers). *)
Theorem aggregated_frame_adds_up (data : gmap string Frame) (category_name : string)
    (money_in : bool) :
  let res := analyze_category data category_name money_in in
  (sum (map amount (aggregated_frame res)) == total_amount res)%Q ∧
  transaction_count res ≤ sum_list (map count (aggregated_frame res)) ∧
  (∀ df, data !! category_name = Some df →
     sum_list (map count (aggregated_frame res)) =
       count_non_null (map receiptno (principal_rows df))).
Proof.
  cbv zeta.
  destruct (data !! category_name) as [df|] eqn:Hdf.
  2: { rewrite analyze_category_no_rows by (intros df; by rewrite Hdf).
       simpl. split; [reflexivity|]. split; [lia | done]. }
  destruct (rows df) as [|r rs] eqn:Hrows.
  { rewrite analyze_category_no_rows.
    2: { intros df' Hdf'. rewrite Hdf in Hdf'. by injection Hdf' as <-. }
    simpl. split; [reflexivity|]. split; [lia|].
    intros df' [= <-]. unfold principal_rows. rewrite Hrows. by destruct (has_is_charge df). }
  rewrite (analyze_category_rows _ _ _ df) by (by rewrite ?Hrows).
  cbn [aggregated_frame total_amount transaction_count].
  assert (sum_list (map count (sort_values_desc (agg money_in (principal_rows df)))) =
          count_non_null (map receiptno (principal_rows df))) as Hcount.
  { rewrite <- (agg_counts money_in).
    apply sum_list_with_Permutation_proper, fmap_Permutation, sort_values_desc_perm. }
  split; [|split].
  - rewrite <- agg_amounts. apply sum_perm, fmap_Permutation, sort_values_desc_perm.
  - rewrite Hcount. apply nunique_le_count.
  - by intros df' [= <-].
Qed.

End Conservation.

Section NamedAnalyses.
Import Categorizer Analyzer AnalyzerSpec.
#[local] Arguments sum : simpl never.

Lemma analyze_category_lookup data category_name money_in :
  analyze_category data category_name money_in =
    let df := default (mkFrame false []) (data !! category_name) in
    match rows df with
    | [] => _empty_result
    | _ =>
        mkAnalysisResult
          (sum (map (amount_of money_in) (principal_rows df)))
          (if has_is_charge df then sum (map (amount_of money_in) (charge_rows df))
           else 0%Q)
          (nunique (map receiptno (principal_rows df)))
          (sort_values_desc (agg money_in (principal_rows df)))
          (rows df)
    end.
Proof. reflexivity. Qed.

(** The three money-out analyses of fixed categories agree with the
    generic analyze_category on their key whenever the frame is empty or
    has an is_charge column; on a frame with rows and no such column they
    raise KeyError where the generic analysis takes every row. *)
Theorem named_money_out_analyses (data : gmap string Frame) :
  let named (key : string) (r : result AnalysisResult) :=
    let df := default (mkFrame false []) (data !! key) in
    r = match rows df with
        | [] => Ok _empty_result
        | _ => if has_is_charge df then Ok (analyze_category data key false)
               else Raise (KeyError "is_charge")
        end in
  named "Send Money" (analyze_send_money data) ∧
  named "BuyGoods" (analyze_buy_goods data) ∧
  named "Withdrawal" (analyze_withdrawals data).
Proof.
  cbv beta zeta. rewrite !analyze_category_lookup.
  unfold analyze_send_money, analyze_buy_goods, analyze_withdrawals,
    principal_rows, charge_rows. cbv zeta.
  repeat split.
  - destruct (default _ (data !! "Send Money")) as [[] [|r rs]]; reflexivity.
  - destruct (default _ (data !! "BuyGoods")) as [[] [|r rs]]; reflexivity.
  - destruct (default _ (data !! "Withdrawal")) as [[] [|r rs]]; reflexivity.
Qed.

Lemma filter_all {A} (p : A → bool) (l : list A) :
  Forall (fun x => p x = true) l → List.filter p l = l.
Proof. induction 1 as [|x l Hx _ IH]; simpl; [done|]. by rewrite Hx, IH. Qed.

Lemma filter_none {A} (p : A → bool) (l : list A) :
  Forall (fun x => p x = false) l → List.filter p l = [].
Proof. induction 1 as [|x l Hx _ IH]; simpl; [done|]. by rewrite Hx, IH. Qed.

Lemma sum_principal_charges (f : CategorizedTransaction → Q) rs :
  (sum (map f rs) ==
   sum (map f (List.filter (fun r => negb (is_charge r)) rs)) +
   sum (map f (List.filter (fun r => is_charge r) rs)))%Q.
Proof.
  rewrite <- sum_app, <- map_app.
  apply sum_perm, fmap_Permutation, (filter_partition (fun r => is_charge r)).
Qed.

(** The two money-in analyses of fixed categories do not separate charges:
    their total is the generic total plus the generic charges, and their
    own total_charges is 0. They coincide with analyze_category for money
    in on their key when the frame has no is_charge column or no charge
    row. *)
Theorem named_money_in_analyses (data : gmap string Frame) :
  let named (key : string) (res : AnalysisResult) :=
    let generic := analyze_category data key true in
    (total_amount res == total_amount generic + total_charges generic)%Q ∧
    total_charges res = 0%Q ∧
    raw_df res = raw_df generic ∧
    (∀ df, data !! key = Some df →
       has_is_charge df = false ∨ Forall (fun r => is_charge r = false) (rows df) →
       res = generic) in
  named "Received (Individuals)" (analyze_received_money data) ∧
  named "Deposit" (analyze_deposits data).
Proof.
  assert (∀ key,
    let df := default (mkFrame false []) (data !! key) in
    let res := match rows df with
               | [] => _empty_result
               | _ => mkAnalysisResult (sum (map paidin (rows df))) 0
                        (nunique (map receiptno (rows df)))
                        (sort_values_desc (agg true (rows df))) (rows df)
               end in
    let generic := analyze_category data key true in
    (total_amount res == total_amount generic + total_charges generic)%Q ∧
    total_charges res = 0%Q ∧
    raw_df res = raw_df generic ∧
    (∀ df, data !! key = Some df →
       has_is_charge df = false ∨ Forall (fun r => is_charge r = false) (rows df) →
       res = generic)) as H.
  { intros key. cbv zeta. rewrite analyze_category_lookup. cbv zeta.
    destruct (data !! key) as [df|] eqn:Hdf; simpl.
    2: { repeat split; try reflexivity; done. }
    destruct (rows df) as [|r rs] eqn:Hrows.
    { repeat split; try reflexivity. }
    rewrite <- Hrows. unfold principal_rows, charge_rows.
    change (amount_of true) with paidin.
    cbn [total_amount total_charges raw_df]. split; [|split; [|split]]; try done.
    - destruct (has_is_charge df).
      + apply sum_principal_charges.
      + lra.
    - intros df' [= <-] [Hc|Hc].
      + rewrite Hc, Hrows. done.
      + rewrite Hrows. rewrite <- Hrows.
        destruct (has_is_charge df); [|by rewrite Hrows].
        rewrite (filter_all (fun r => negb (is_charge r))).
        2: { eapply Forall_impl; [exact Hc|]. by intros ? ->. }
        rewrite (filter_none (fun r => is_charge r)) by done.
        by rewrite Hrows. }
  cbv beta zeta. split; [apply (H "Received (Individuals)") | apply (H "Deposit")].
Qed.

End NamedAnalyses.

(** ** app.py: the filters, and the pipeline up to the figures *)

Section DateFilter.
Import Categorizer Analyzer AnalyzerSpec App.
Variable month_label : Z → string.
#[local] Arguments sum : simpl never.

Lemma in_date_range_true start_date end_date r :
  in_date_range start_date end_date r = true ↔
  ∃ t, completiontime r = Some t ∧ (midnight start_date ≤ t ≤ midnight end_date)%Z.
Proof.
  unfold in_date_range. destruct (completiontime r) as [t|].
  - rewrite andb_true_iff, !Z.leb_le. split.
    + intros [? ?]. exists t. split; [done | lia].
    + intros (t' & [= <-] & ?). lia.
  - split; [done | by intros (t & ? & _)].
Qed.

Lemma filter_frame_rows date_filter month_filter df :
  has_is_charge (filter_frame month_label date_filter month_filter df) = has_is_charge df ∧
  rows (filter_frame month_label date_filter month_filter df) =
    match date_filter, month_filter with
    | [start_date; end_date], _ =>
        List.filter (in_date_range start_date end_date) (rows df)
    | _, [] => rows df
    | _, _ => List.filter (in_months month_label month_filter) (rows df)
    end.
Proof.
  unfold filter_frame. destruct (rows df) as [|r rs] eqn:E.
  - rewrite E. split; [done|].
    destruct date_filter as [|? [|? [|? ?]]], month_filter; done.
  - destruct date_filter as [|? [|? [|? ?]]], month_filter; simpl; by rewrite ?E.
Qed.

Lemma filter_sublist {A} (p : A → bool) (l : list A) : List.filter p l `sublist_of` l.
Proof.
  induction l as [|x l IH]; simpl; [done|].
  destruct (p x); [by apply sublist_skip | by apply sublist_cons].
Qed.

Lemma filter_frame_sublist date_filter month_filter df :
  rows (filter_frame month_label date_filter month_filter df) `sublist_of` rows df.
Proof.
  destruct (filter_frame_rows date_filter month_filter df) as [_ ->].
  destruct date_filter as [|? [|? [|? ?]]], month_filter;
    first [done | apply filter_sublist].
Qed.

Lemma filter_categorized_data_lookup data date_filter month_filter c :
  filter_categorized_data month_label data date_filter month_filter !! c =
    filter_frame month_label date_filter month_filter <$> data !! c.
Proof.
  unfold filter_categorized_data.
  destruct date_filter as [|d ds], month_filter as [|m ms]; rewrite ?lookup_fmap; try done.
  destruct (data !! c) as [df|]; [|done]. simpl. f_equal.
  unfold filter_frame. destruct df as [h rs]. simpl. by destruct rs.
Qed.

(** The date filter keeps, in every category, exactly the records timed
    from the midnight that starts the first day to the midnight that starts
    the last day, in their order, whatever the month filter is. So a record
    timed later on the last day is dropped, and so is a record without a
    time. *)
Theorem date_filter_ends_at_midnight (data : gmap string Frame)
    (start_date end_date : Z) (month_filter : list string) (c : string) (df : Frame) :
  data !! c = Some df →
  ∃ filtered_df,
    filter_categorized_data month_label data [start_date; end_date] month_filter !! c =
      Some filtered_df ∧
    has_is_charge filtered_df = has_is_charge df ∧
    rows filtered_df = List.filter (in_date_range start_date end_date) (rows df) ∧
    (∀ r, r ∈ rows filtered_df ↔
          r ∈ rows df ∧
          ∃ t, completiontime r = Some t ∧
               (midnight start_date ≤ t ≤ midnight end_date)%Z) ∧
    (∀ r seconds, completiontime r = Some (midnight end_date + seconds)%Z →
                  (0 < seconds)%Z → r ∉ rows filtered_df) ∧
    (∀ r, completiontime r = None → r ∉ rows filtered_df).
Proof.
  intros Hdf. exists (filter_frame month_label [start_date; end_date] month_filter df).
  rewrite filter_categorized_data_lookup, Hdf.
  destruct (filter_frame_rows [start_date; end_date] month_filter df) as [Hh Hr].
  rewrite Hr. split; [done|]. split; [done|]. split; [done|].
  assert (∀ r, r ∈ List.filter (in_date_range start_date end_date) (rows df) ↔
               r ∈ rows df ∧
               ∃ t, completiontime r = Some t ∧
                    (midnight start_date ≤ t ≤ midnight end_date)%Z) as Hin.
  { intros r. rewrite list_elem_of_In, filter_In, <- list_elem_of_In.
    by rewrite in_date_range_true. }
  split; [exact Hin|]. split.
  - intros r seconds Ht Hpos [_ (t & Ht' & Hle)]%Hin.
    rewrite Ht in Ht'. injection Ht' as <-. lia.
  - intros r Ht [_ (t & Ht' & _)]%Hin. congruence.
Qed.

Lemma filter_filter_same {A} (p : A → bool) (l : list A) :
  List.filter p (List.filter p l) = List.filter p l.
Proof.
  induction l as [|x l IH]; simpl; [done|].
  destruct (p x) eqn:E; simpl; by rewrite ?E, IH.
Qed.

(** Filtering only removes rows. It keeps the categories (also those that
    become empty), the columns and the order of the rows of every frame;
    with neither filter it returns its input; and filtering a second time
    with the same filters changes nothing. *)
Theorem filter_categorized_data_only_removes (data : gmap string Frame)
    (date_filter : list Z) (month_filter : list string) :
  let filtered := filter_categorized_data month_label data date_filter month_filter in
  (∀ c, is_Some (filtered !! c) ↔ is_Some (data !! c)) ∧
  (∀ c filtered_df, filtered !! c = Some filtered_df →
     ∃ df, data !! c = Some df ∧ has_is_charge filtered_df = has_is_charge df ∧
           rows filtered_df `sublist_of` rows df) ∧
  (date_filter = [] → month_filter = [] → filtered = data) ∧
  filter_categorized_data month_label filtered date_filter month_filter = filtered.
Proof.
  cbv zeta. split; [|split; [|split]].
  - intros c. rewrite filter_categorized_data_lookup. by rewrite fmap_is_Some.
  - intros c fdf. rewrite filter_categorized_data_lookup.
    destruct (data !! c) as [df|]; [|done]. intros [= <-]. exists df.
    split; [done|]. split; [apply filter_frame_rows | apply filter_frame_sublist].
  - by intros -> ->.
  - apply map_eq. intros c. rewrite !filter_categorized_data_lookup.
    destruct (data !! c) as [df|]; [|done]. simpl. f_equal.
    destruct (filter_frame_rows date_filter month_filter df) as [Hh Hr].
    destruct (filter_frame_rows date_filter month_filter
                (filter_frame month_label date_filter month_filter df)) as [Hh' Hr'].
    assert (rows (filter_frame month_label date_filter month_filter
                    (filter_frame month_label date_filter month_filter df))
            = rows (filter_frame month_label date_filter month_filter df)) as Hrows.
    { rewrite Hr', Hr.
      destruct date_filter as [|? [|? [|? ?]]], month_filter;
        first [done | apply filter_filter_same]. }
    destruct (filter_frame _ _ _ (filter_frame _ _ _ _)) as [h2 r2].
    destruct (filter_frame _ _ _ df) as [h1 r1]. simpl in *. congruence.
Qed.

End DateFilter.

Section Pipeline.
Import Categorizer CategorizerSpec Analyzer AnalyzerSpec App.
Variable to_numeric : string → option Q.
Variable to_datetime : string → option Z.
Variable month_label : Z → string.
#[local] Arguments sum : simpl never.

Lemma clean_data_withdrawn_nonneg df rows t :
  Cleaner.clean_data to_numeric to_datetime df = Ok rows → t ∈ rows →
  (0 <= Cleaner.withdrawn t)%Q.
Proof.
  intros H Ht. apply clean_data_rows in H as (cols & ds & -> & ws & ps & Hw & Hp).
  apply make_rows_elem in Ht as [_ Ht]. rewrite Hw in Ht.
  apply list_elem_of_In, in_map_iff in Ht as (c & <- & _).
  apply clean_withdrawn_nonneg.
Qed.

Lemma agg_amount_nonneg money_in rs g :
  Forall (fun r => (0 <= amount_of money_in r)%Q) rs →
  g ∈ agg money_in rs → (0 <= amount g)%Q.
Proof.
  intros Hall Hg. apply elem_of_agg in Hg as [_ ->].
  apply sum_nonneg, Forall_map. unfold group.
  apply Forall_forall. intros r Hr. apply list_elem_of_In, filter_In in Hr as [Hr _].
  rewrite Forall_forall in Hall. by apply Hall, list_elem_of_In.
Qed.

Lemma analyze_category_nonneg data c money_in :
  (∀ df r, data !! c = Some df → r ∈ rows df → (0 <= amount_of money_in r)%Q) →
  let res := analyze_category data c money_in in
  (0 <= total_amount res)%Q ∧ (0 <= total_charges res)%Q ∧
  Forall (fun g => (0 <= amount g)%Q) (aggregated_frame res).
Proof.
  intros Hall. cbv zeta.
  destruct (data !! c) as [df|] eqn:Hdf.
  2: { rewrite analyze_category_no_rows by (intros df; by rewrite Hdf).
       simpl. repeat split; [apply Qle_refl | apply Qle_refl | constructor]. }
  destruct (rows df) as [|r rs] eqn:Hrows.
  { rewrite analyze_category_no_rows.
    2: { intros df' Hdf'. rewrite Hdf in Hdf'. by injection Hdf' as <-. }
    simpl. repeat split; [apply Qle_refl | apply Qle_refl | constructor]. }
  rewrite (analyze_category_rows _ _ _ df) by (by rewrite ?Hrows).
  cbn [aggregated_frame total_amount total_charges].
  assert (Forall (fun r => (0 <= amount_of money_in r)%Q) (rows df)) as Hrs.
  { apply Forall_forall. intros x Hx. by apply (Hall df). }
  assert (∀ p, Forall (fun r => (0 <= amount_of money_in r)%Q) (List.filter p (rows df)))
    as Hf.
  { intros p. apply Forall_forall. intros x Hx.
    apply list_elem_of_In, filter_In in Hx as [Hx _].
    rewrite Forall_forall in Hrs. by apply Hrs, list_elem_of_In. }
  assert (Forall (fun r => (0 <= amount_of money_in r)%Q) (principal_rows df)) as Hp.
  { unfold principal_rows. by destruct (has_is_charge df). }
  split; [|split].
  - by apply sum_nonneg, Forall_map.
  - destruct (has_is_charge df); [|apply Qle_refl].
    apply sum_nonneg, Forall_map. apply Hf.
  - apply Forall_forall. intros g Hg.
    rewrite sort_values_desc_perm in Hg. by eapply agg_amount_nonneg.
Qed.

(** From a cleaned statement to the figures shown: for the rows that
    clean_data returns, categorized on a new categorizer, filtered by date
    or month and analysed as money out, total_amount, total_charges and
    every amount of the aggregated frame are >= 0, in every category. *)
Theorem money_out_figures_nonneg (df : option Cleaner.DataFrame)
    (rows : list Cleaner.Transaction)
    (loaded : list CategoryDefinition) (custom : option (list CategoryDefinition))
    (date_filter : list Z) (month_filter : list string) (category_name : string) :
  Cleaner.clean_data to_numeric to_datetime df = Ok rows →
  let categorized := frame_of <$> categorize_with_new_categorizer loaded custom rows in
  let filtered := filter_categorized_data month_label categorized date_filter month_filter in
  let res := analyze_category filtered category_name false in
  (0 <= total_amount res)%Q ∧ (0 <= total_charges res)%Q ∧
  Forall (fun g => (0 <= amount g)%Q) (aggregated_frame res).
Proof.
  intros Hclean. cbv zeta. apply analyze_category_nonneg.
  intros fdf r Hf Hr. cbn [amount_of].
  rewrite filter_categorized_data_lookup, lookup_fmap in Hf.
  destruct (categorize_with_new_categorizer loaded custom rows !! category_name)
    as [records|] eqn:Hl; [|done].
  simpl in Hf. injection Hf as <-.
  pose proof (elem_of_sublist _ _ _ Hr
                (filter_frame_sublist month_label date_filter month_filter _)) as Hr'.
  simpl in Hr'.
  rewrite new_categorizer_lookup in Hl. destruct (known_category _ _); [|done].
  injection Hl as <-.
  apply elem_of_membership in Hr' as (_ & row & Hrow & Hrec).
  apply categorize_transaction_record in Hrec as [Hof _].
  destruct Hof as (_ & _ & _ & _ & -> & _).
  by eapply clean_data_withdrawn_nonneg.
Qed.

End Pipeline.

(** ** app.py: the category form; the labels of the loaders *)

Section UserCategory.
Import Categorizer CategorizerSpec KeywordSpec App FormSpec.

Lemma handle_user_category_cases st cat_name cat_type cat_description merchant_type
    color_map match_field match_operator match_values add_advanced
    match_field_2 match_operator_2 match_values_2 submit :
  let new := described_category cat_name cat_type cat_description merchant_type color_map
               match_field match_operator match_values add_advanced
               match_field_2 match_operator_2 match_values_2 in
  let added := submit && Py.nonempty cat_name && Py.nonempty cat_type &&
               Py.nonempty match_values &&
               negb (Py.mem cat_name (map name (custom_categories st))) in
  handle_user_category st cat_name cat_type cat_description merchant_type color_map
    match_field match_operator match_values add_advanced
    match_field_2 match_operator_2 match_values_2 submit =
  if added
  then (mkSession (custom_categories st ++ [new]) None, Added cat_name)
  else (st,
        if negb submit then NotSubmitted
        else if negb (Py.nonempty cat_name) || negb (Py.nonempty cat_type) ||
                negb (Py.nonempty match_values)
        then RequiredFieldsMissing
        else AlreadyExists cat_name).
Proof.
  cbv zeta. unfold handle_user_category, described_category.
  destruct submit; [|done]. simpl.
  destruct (Py.nonempty cat_name); [|done].
  destruct (Py.nonempty cat_type); [|done].
  destruct (Py.nonempty match_values); [|done]. simpl.
  by destruct (Py.mem cat_name _).
Qed.

(** handle_user_category changes the session in one way only: on a
    submitted form with a name, a type and keywords, and a name that no
    custom category has yet, it appends the described category and drops
    the cached categorization. So the names of the custom categories stay
    distinct, the earlier ones keep their places, and any other outcome
    leaves the session as it was. *)
Theorem handle_user_category_appends_new_names (st : session)
    (cat_name cat_type cat_description merchant_type color_map : string)
    (match_field match_operator match_values : string) (add_advanced : bool)
    (match_field_2 match_operator_2 match_values_2 : string) (submit : bool) :
  let outcome :=
    handle_user_category st cat_name cat_type cat_description merchant_type color_map
      match_field match_operator match_values add_advanced
      match_field_2 match_operator_2 match_values_2 submit in
  let new := described_category cat_name cat_type cat_description merchant_type color_map
               match_field match_operator match_values add_advanced
               match_field_2 match_operator_2 match_values_2 in
  (NoDup (map name (custom_categories st)) →
   NoDup (map name (custom_categories (fst outcome)))) ∧
  (snd outcome = Added cat_name ∨ fst outcome = st) ∧
  (snd outcome = Added cat_name →
   submit = true ∧ cat_name ≠ "" ∧ cat_type ≠ "" ∧ match_values ≠ "" ∧
   (cat_name ∉ map name (custom_categories st)) ∧
   custom_categories (fst outcome) = custom_categories st ++ [new] ∧
   categorized_data (fst outcome) = None ∧ name new = cat_name).
Proof.
  cbv zeta. rewrite handle_user_category_cases. cbv zeta.
  destruct submit; simpl; [|split; [done | split; [by right | done]]].
  destruct cat_name as [|c0 cn]; simpl; [split; [done | split; [by right | done]]|].
  destruct cat_type as [|c1 ct]; simpl; [split; [done | split; [by right | done]]|].
  destruct match_values as [|c2 mv]; simpl; [split; [done | split; [by right | done]]|].
  destruct (Py.mem (String c0 cn) (map name (custom_categories st))) eqn:E; simpl;
    [split; [done | split; [by right | done]]|].
  apply mem_false in E. split; [|split].
  - intros Hnd. rewrite map_app. simpl. apply NoDup_app. split; [done|]. split.
    + intros x Hx ->%list_elem_of_singleton. done.
    + apply NoDup_singleton.
  - by left.
  - intros _. repeat split; done.
Qed.

Lemma dict_set_elem key value patterns : (key, value) ∈ dict_set key value patterns.
Proof.
  induction patterns as [|[k v] patterns IH]; simpl; [left|].
  destruct (Py.str_eqb k key) eqn:E.
  - apply str_eqb_eq in E as ->. left.
  - by right.
Qed.

Lemma operator_patterns_textual match_operator values fp :
  operator_patterns match_operator values = Some fp →
  textual_only fp = true ∧
  (keywords fp = values ∨
   (match_operator = "equals" ∧ length values ≠ 1 ∧ keywords fp = [])).
Proof.
  unfold operator_patterns.
  destruct (Py.str_eqb match_operator "contains"); [intros [= <-]|].
  { split; [done|]. left. unfold keywords. simpl. by rewrite app_nil_r. }
  destruct (Py.str_eqb match_operator "equals") eqn:E; [intros [= <-]|].
  { apply str_eqb_eq in E. split; [done|].
    destruct values as [|v [|v' vs]]; [right|left|right]; done. }
  destruct (Py.str_eqb match_operator "startswith"); [intros [= <-]|done].
  split; [done|]. by left.
Qed.

(** Two ways in which the form adds a category that can never match. With
    the operator equals and a number of keywords other than one, the value
    stored under equals is a list, which no field value equals. And the
    keywords of the additional pattern are stored as typed, not in lower
    case, while fields are compared in lower case: when each of them has a
    capital letter, the additional pattern fails on every transaction. *)
Theorem form_categories_that_never_match
    (cat_name cat_type cat_description merchant_type color_map : string)
    (match_field match_operator match_values : string) (add_advanced : bool)
    (match_field_2 match_operator_2 match_values_2 : string)
    (row : Cleaner.Transaction) :
  let new := described_category cat_name cat_type cat_description merchant_type color_map
               match_field match_operator match_values add_advanced
               match_field_2 match_operator_2 match_values_2 in
  (match_field ∈ field_names → match_operator = "equals" →
   length (values_list match_values) ≠ 1 → add_advanced = false →
   matches row new = false) ∧
  (match_field_2 ∈ field_names → match_operator_2 ∈ form_operators →
   add_advanced = true → match_values_2 ≠ "" →
   forallb has_upper (values_list_2 match_values_2) = true →
   matches row new = false).
Proof.
  cbv zeta. split.
  - intros Hf -> Hlen ->.
    apply (capitalised_row_fails row _ match_field
             (mkFieldPatterns None
                (Some (match values_list match_values with
                       | [v] => EqStr v
                       | _ => EqList (values_list match_values)
                       end)) None None None [])).
    + unfold described_category. simpl. left.
    + done.
    + done.
    + unfold keywords. simpl.
      destruct (values_list match_values) as [|v [|v' vs]]; done.
  - intros Hf Hop -> Hne Hup.
    assert (∃ fp, operator_patterns match_operator_2 (values_list_2 match_values_2) = Some fp)
      as [fp Hfp].
    { unfold form_operators in Hop. unfold operator_patterns.
      repeat (apply elem_of_cons in Hop as [->|Hop]; [by eexists|]).
      by apply elem_of_nil in Hop. }
    destruct (operator_patterns_textual _ _ _ Hfp) as [Ht Hk].
    apply (capitalised_row_fails row _ match_field_2 fp).
    + unfold described_category. cbn [patterns]. rewrite Hfp.
      destruct match_values_2; [done|]. simpl. apply dict_set_elem.
    + done.
    + done.
    + destruct Hk as [-> | (_ & _ & ->)]; done.
Qed.

End UserCategory.

Section LoaderLabels.
Import Cleaner CleanerSpec TableSpec KeywordSpec Loader.
#[local] Arguments Py.chr_eqb : simpl never.
#[local] Arguments Py.isspace : simpl never.
#[local] Arguments Py.lower_char : simpl never.

Lemma remove_ws_no_space s :
  forallb (fun c => negb (Py.isspace c)) (list_ascii_of_string (Py.remove_ws s)) = true.
Proof.
  induction s as [|c s IH]; [done|]. simpl.
  destruct (Py.isspace c) eqn:E; [done|]. simpl. by rewrite E.
Qed.

Lemma lstrip_no_space s :
  forallb (fun c => negb (Py.isspace c)) (list_ascii_of_string s) = true →
  Py.lstrip s = s.
Proof.
  destruct s as [|c s]; [done|]. simpl. intros [Hc _]%andb_true_iff.
  apply negb_true_iff in Hc. by rewrite Hc.
Qed.

Lemma rstrip_no_space s :
  forallb (fun c => negb (Py.isspace c)) (list_ascii_of_string s) = true →
  Py.rstrip s = s.
Proof.
  induction s as [|c s IH]; [done|]. simpl. intros [Hc Hs]%andb_true_iff.
  apply negb_true_iff in Hc. rewrite IH by done. rewrite Hc. by destruct s.
Qed.

Lemma strip_no_space s :
  forallb (fun c => negb (Py.isspace c)) (list_ascii_of_string s) = true →
  Py.strip s = s.
Proof. intros H. unfold Py.strip. by rewrite lstrip_no_space, rstrip_no_space. Qed.

Lemma lower_remove_ws s : Py.lower (Py.remove_ws s) = Py.remove_ws (Py.lower s).
Proof.
  induction s as [|c s IH]; [done|]. rewrite lower_String. simpl.
  rewrite isspace_lower_char. destruct (Py.isspace c); [done|].
  by rewrite lower_String, IH.
Qed.

Lemma lower_idem s : Py.lower (Py.lower s) = Py.lower s.
Proof.
  induction s as [|c s IH]; [done|]. by rewrite !lower_String, lower_char_idem, IH.
Qed.

Lemma clean_column_name_fixed l :
  standardized (clean_column_name l) = clean_column_name l ∧
  Py.strip (clean_column_name l) = clean_column_name l ∧
  forallb (fun c => negb (Py.isspace c))
    (list_ascii_of_string (clean_column_name l)) = true ∧
  has_upper (clean_column_name l) = false.
Proof.
  unfold standardized, clean_column_name.
  assert (Py.lower (Py.remove_ws (Py.lower (Py.strip l))) = Py.remove_ws (Py.lower (Py.strip l)))
    as Hl by (by rewrite lower_remove_ws, lower_idem).
  repeat split.
  - rewrite Hl. apply strip_no_space, remove_ws_no_space.
  - apply strip_no_space, remove_ws_no_space.
  - apply remove_ws_no_space.
  - rewrite <- Hl. apply lower_no_upper.
Qed.

(** The labels that the loaders hand to clean_data are already in the form
    that cleaning standardizes to: lower case, without any whitespace. On
    such a table the detection of clean_data, which compares labels as
    they are, is the same as comparing cleaned-up labels; standardizing the
    labels again changes nothing; and the label withdraw-linefeed-n that
    cleaning renames cannot occur, since the loader has removed the line
    feed. *)
Theorem loader_labels_are_standard (combined_df : DataFrame) :
  let df := clean_column_names combined_df in
  standardize_labels df = df ∧
  (has_expected_cols df = true ↔
   ∃ l, l ∈ labels combined_df ∧ clean_column_name l ∈ recognized_labels) ∧
  (∀ l, l ∈ labels df →
        has_upper l = false ∧
        forallb (fun c => negb (Py.isspace c)) (list_ascii_of_string l) = true) ∧
  ("withdraw" +:+ String Py.newline "n" ∉ labels df) ∧
  nrows df = nrows combined_df ∧ map snd (columns df) = map snd (columns combined_df).
Proof.
  cbv zeta.
  assert (labels (clean_column_names combined_df) =
          map clean_column_name (labels combined_df)) as Hlabels.
  { unfold labels, clean_column_names. simpl. by rewrite !map_map. }
  assert (∀ l, l ∈ labels (clean_column_names combined_df) →
               has_upper l = false ∧
               forallb (fun c => negb (Py.isspace c)) (list_ascii_of_string l) = true) as Hl.
  { intros l. rewrite Hlabels. intros (l0 & <- & _)%list_elem_of_In%in_map_iff.
    destruct (clean_column_name_fixed l0) as (_ & _ & ? & ?). done. }
  split; [|split; [|split; [|split; [|split]]]].
  - unfold standardize_labels, clean_column_names. simpl. f_equal.
    rewrite map_map. apply map_ext. intros [l v]. simpl. f_equal.
    apply clean_column_name_fixed.
  - rewrite has_expected_cols_iff, Hlabels. split.
    + intros (l & (l0 & <- & Hin)%list_elem_of_In%in_map_iff & Hr).
      exists l0. split; [by apply list_elem_of_In|].
      by rewrite (proj1 (proj2 (clean_column_name_fixed l0))) in Hr.
    + intros (l0 & Hin & Hr). exists (clean_column_name l0). split.
      * apply list_elem_of_In, in_map. by apply list_elem_of_In.
      * by rewrite (proj1 (proj2 (clean_column_name_fixed l0))).
  - exact Hl.
  - intros Hin. apply Hl in Hin as [_ Hin]. done.
  - done.
  - unfold clean_column_names. simpl. by rewrite map_map.
Qed.

End LoaderLabels.

(** ** Categorizer: pay-bill and business entities *)

Section LazyGroup.
Import Regex DetailsSpec EntitySpec.
#[local] Arguments Py.chr_eqb : simpl never.
#[local] Arguments Py.isspace : simpl never.
#[local] Arguments Py.lower_char : simpl never.

Lemma exec_Alt r1 r2 k z caps :
  exec (Alt r1 r2) k z caps = orelse (exec r1 k z caps) (exec r2 k z caps).
Proof. reflexivity. Qed.

Lemma exec_Eol k pre suf caps :
  exec Eol k (Cursor pre suf) caps = if at_end suf then k (Cursor pre suf) caps else None.
Proof.
  simpl. destruct suf as [|x [|y suf]]; simpl; try done.
Qed.

(** The lazy first group followed by an alternative ending in [$]: the
    group stops at the first position where the rest of the pattern
    matches. *)
Lemma lazy_group1_stops R pre g0 g rest m :
  forallb dot g = true →
  (∀ g1 g2, g = g1 ++ g2 → g2 ≠ [] →
     exec (Alt R Eol) accept (Cursor (rev (g0 ++ g1) ++ pre) (g2 ++ rest))
       [ (1, text (g0 ++ g1)) ] = None) →
  exec (Alt R Eol) accept (Cursor (rev (g0 ++ g) ++ pre) rest) [ (1, text (g0 ++ g)) ] = Some m →
  star_lazy dot
    (fun z' caps' => exec (Alt R Eol) accept z' ((1, consumed (Cursor pre (g0 ++ g ++ rest)) z') :: caps'))
    [] (rev g0 ++ pre) (g ++ rest) = Some m.
Proof.
  revert g0. induction g as [|x g IH]; intros g0 Hdot Hfail Hm.
  - rewrite app_nil_r in Hm. simpl app.
    destruct rest as [|y rest]; cbn [star_lazy]; rewrite consumed_eq, Hm; done.
  - cbn [forallb] in Hdot. apply andb_true_iff in Hdot as [Hx Hdot].
    change ((x :: g) ++ rest) with (x :: (g ++ rest)). cbn [star_lazy].
    rewrite consumed_eq.
    pose proof (Hfail [] (x :: g) eq_refl) as H0. rewrite app_nil_r in H0.
    change ((x :: g) ++ rest) with (x :: (g ++ rest)) in H0.
    rewrite H0 by done. cbn [orelse]. rewrite Hx.
    change (x :: rev g0 ++ pre) with ((x :: rev g0) ++ pre).
    replace (x :: rev g0) with (rev (g0 ++ [x])) by (by rewrite rev_app_distr).
    replace (g0 ++ x :: g ++ rest) with ((g0 ++ [x]) ++ g ++ rest)
      by (by rewrite <- app_assoc).
    apply IH; [done| |].
    + intros g1 g2 -> Hne. rewrite <- app_assoc.
      apply (Hfail (x :: g1) g2); done.
    + by rewrite <- app_assoc.
Qed.

Lemma exec_lazy_group1 R pre g rest m :
  forallb dot g = true →
  (∀ g1 g2, g = g1 ++ g2 → g2 ≠ [] →
     exec (Alt R Eol) accept (Cursor (rev g1 ++ pre) (g2 ++ rest)) [ (1, text g1) ] = None) →
  exec (Alt R Eol) accept (Cursor (rev g ++ pre) rest) [ (1, text g) ] = Some m →
  exec (Seq (Group 1 (Star false dot)) (Alt R Eol)) accept (Cursor pre (g ++ rest)) [] = Some m.
Proof.
  intros Hdot Hfail Hm. cbn [exec before after].
  exact (lazy_group1_stops R pre [] g rest m Hdot Hfail Hm).
Qed.

Lemma search_first r s m :
  exec r accept (Cursor [] (chars s)) [] = Some m → search r s = Some m.
Proof.
  unfold search. intros H. destruct (chars s); cbn [search_from]; by rewrite H.
Qed.

(** *** Whitespace runs *)

Lemma star_greedy_fails (p : char_class) (K : cont) caps pre u :
  (∀ pre' u1 u2, u = u1 ++ u2 → K (Cursor pre' u2) caps = None) →
  star_greedy p K caps pre u = None.
Proof.
  revert pre. induction u as [|x u IH]; intros pre H; cbn [star_greedy].
  - apply (H pre [] []). done.
  - rewrite (H pre [] (x :: u) eq_refl).
    destruct (p x); [|done]. rewrite IH; [done|].
    intros pre' u1 u2 ->. apply (H pre' (x :: u1) u2). done.
Qed.

Lemma star_greedy_run (p : char_class) (K : cont) caps pre w u m :
  forallb p w = true →
  K (Cursor (rev w ++ pre) u) caps = Some m →
  match u with x :: _ => p x = false | [] => True end →
  star_greedy p K caps pre (w ++ u) = Some m.
Proof.
  revert pre. induction w as [|x w IH]; intros pre Hw HK Hu.
  - simpl in *. destruct u as [|y u]; cbn [star_greedy]; [done|]. by rewrite Hu.
  - cbn [forallb] in Hw. apply andb_true_iff in Hw as [Hx Hw].
    change ((x :: w) ++ u) with (x :: (w ++ u)). cbn [star_greedy]. rewrite Hx.
    rewrite (IH (x :: pre)); [done|done| |done].
    by rewrite rev_cons_app in HK.
Qed.

Lemma exec_plus_fails (p : char_class) (R : regex) (k : cont) caps pre u :
  (∀ pre' u1 u2, u = u1 ++ u2 → exec R k (Cursor pre' u2) caps = None) →
  exec (Seq (plus p) R) k (Cursor pre u) caps = None.
Proof.
  intros H. unfold plus. cbn [exec before after].
  destruct u as [|x u]; [done|]. destruct (p x); [|done].
  apply star_greedy_fails. intros pre' u1 u2 ->. apply (H pre' (x :: u1) u2). done.
Qed.

Lemma exec_plus_run (p : char_class) (R : regex) (k : cont) caps pre x w u m :
  p x = true → forallb p w = true →
  exec R k (Cursor (rev w ++ x :: pre) u) caps = Some m →
  match u with y :: _ => p y = false | [] => True end →
  exec (Seq (plus p) R) k (Cursor pre (x :: w ++ u)) caps = Some m.
Proof.
  intros Hx Hw HK Hu. unfold plus. cbn [exec before after]. rewrite Hx.
  by apply star_greedy_run.
Qed.

(** *** Literals *)

Lemma exec_lit_fails kw (R : regex) (k : cont) caps pre u :
  Py.startswith (text u) kw = false →
  exec (Seq (lit kw) R) k (Cursor pre u) caps = None.
Proof.
  cbn [exec]. revert pre u. induction kw as [|a kw IH]; intros pre u;
    [by rewrite startswith_empty|].
  destruct u as [|b u]; [done|]. simpl text. cbn [Py.startswith lit exec after before].
  unfold only. rewrite (chr_eqb_sym b a).
  destruct (Py.chr_eqb a b); [|done]. simpl. apply IH.
Qed.

Lemma exec_lit_matches kw (R : regex) (k : cont) caps pre u :
  exec (Seq (lit kw) R) k (Cursor pre (chars kw ++ u)) caps =
  exec R k (Cursor (rev (chars kw) ++ pre) u) caps.
Proof.
  cbn [exec]. revert pre. induction kw as [|a kw IH]; intros pre; [done|].
  simpl chars. cbn [app lit exec after before]. unfold only.
  rewrite (proj2 (chr_eqb_eq a a) eq_refl). rewrite IH.
  by rewrite rev_cons_app.
Qed.

Lemma exec_lit_nocase_fails kw (R : regex) (k : cont) caps pre u :
  Py.startswith (Py.lower (text u)) (Py.lower kw) = false →
  exec (Seq (lit_nocase kw) R) k (Cursor pre u) caps = None.
Proof.
  cbn [exec]. revert pre u. induction kw as [|a kw IH]; intros pre u;
    [by rewrite startswith_empty|].
  destruct u as [|b u]; [done|]. simpl text. rewrite !lower_String.
  cbn [Py.startswith lit_nocase exec after before].
  unfold only_nocase. rewrite (chr_eqb_sym (Py.lower_char b) (Py.lower_char a)).
  destruct (Py.chr_eqb (Py.lower_char a) (Py.lower_char b)); [|done]. simpl. apply IH.
Qed.

Lemma contains_false_suffix kw (u1 u2 : list ascii) :
  Py.contains kw (text (u1 ++ u2)) = false → Py.startswith (text u2) kw = false.
Proof.
  induction u1 as [|x u1 IH]; simpl.
  - destruct (text u2); simpl; [by rewrite orb_false_r|]. by intros [? _]%orb_false_iff.
  - intros [_ H]%orb_false_iff. by apply IH.
Qed.

Lemma text_chars s : text (chars s) = s.
Proof. apply string_of_list_ascii_of_string. Qed.

Lemma lower_text_app u1 u2 :
  Py.lower (text (u1 ++ u2)) = text (chars (Py.lower (text u1)) ++ chars (Py.lower (text u2))).
Proof.
  induction u1 as [|x u1 IH]; simpl.
  - by rewrite text_chars.
  - rewrite lower_String. simpl. by rewrite IH.
Qed.

Lemma no_line_feed_app (a b : list ascii) :
  forallb dot (a ++ b) = true ↔ forallb dot a = true ∧ forallb dot b = true.
Proof. by rewrite forallb_app, andb_true_iff. Qed.

End LazyGroup.

Section Strips.
Import DetailsSpec EntitySpec.
#[local] Arguments Py.chr_eqb : simpl never.
#[local] Arguments Py.isspace : simpl never.

Lemma lstrip_all_space w : all_space w = true → Py.lstrip (text w) = "".
Proof.
  induction w as [|x w IH]; [done|]. simpl. intros [Hx Hw]%andb_true_iff.
  rewrite Hx. by apply IH.
Qed.

Lemma rstrip_all_space w : all_space w = true → Py.rstrip (text w) = "".
Proof.
  induction w as [|x w IH]; [done|]. simpl. intros [Hx Hw]%andb_true_iff.
  rewrite IH by done. by rewrite Hx.
Qed.

Lemma lstrip_run w a :
  all_space w = true → Py.lstrip (text (w ++ a)) = Py.lstrip (text a).
Proof.
  induction w as [|x w IH]; [done|]. simpl. intros [Hx Hw]%andb_true_iff.
  rewrite Hx. by apply IH.
Qed.

Lemma rstrip_run g w :
  all_space w = true → Py.rstrip (text (g ++ w)) = Py.rstrip (text g).
Proof.
  intros Hw. induction g as [|x g IH]; simpl.
  - by apply rstrip_all_space.
  - by rewrite IH.
Qed.

Lemma lstrip_text_app g w :
  all_space w = true →
  Py.lstrip (text (g ++ w)) =
    if all_space g then "" else Py.lstrip (text g) +:+ text w.
Proof.
  intros Hw. induction g as [|x g IH]; simpl.
  - by apply lstrip_all_space.
  - destruct (Py.isspace x); simpl; [exact IH|]. by rewrite text_app.
Qed.

Lemma strip_trailing_run g w :
  all_space w = true → Py.strip (text (g ++ w)) = Py.strip (text g).
Proof.
  intros Hw. unfold Py.strip. rewrite lstrip_text_app by done.
  destruct (all_space g) eqn:Hg.
  - by rewrite lstrip_all_space.
  - rewrite <- (text_chars (Py.lstrip (text g))), <- text_app.
    by apply rstrip_run.
Qed.

Lemma strip_leading_run w a :
  all_space w = true → Py.strip (text (w ++ a)) = Py.strip (text a).
Proof. intros Hw. unfold Py.strip. by rewrite lstrip_run. Qed.

(** A text is a part that does not end with whitespace, then whitespace. *)
Lemma trailing_run (l : list ascii) :
  ∃ g w, l = g ++ w ∧ all_space w = true ∧ ends_in_text g.
Proof.
  induction l as [|x l (g & w & -> & Hw & Hg)].
  - by exists [], [].
  - destruct g as [|y g].
    + destruct (Py.isspace x) eqn:Hx.
      * exists [], (x :: w). repeat split; simpl; by rewrite ?Hx.
      * exists [x], w. repeat split; try done; unfold ends_in_text; simpl; done.
    + exists (x :: y :: g), w. repeat split; try done;
        unfold ends_in_text in *; by rewrite last_cons_cons.
Qed.

(** A text is whitespace, then a part that does not start with it. *)
Lemma leading_run (l : list ascii) :
  ∃ w a, l = w ++ a ∧ all_space w = true ∧
         match a with y :: _ => Py.isspace y = false | [] => True end.
Proof.
  induction l as [|x l (w & a & -> & Hw & Ha)].
  - by exists [], [].
  - destruct (Py.isspace x) eqn:Hx.
    + exists (x :: w), a. repeat split; simpl; by rewrite ?Hx.
    + exists [], (x :: w ++ a). repeat split; done.
Qed.

End Strips.

Section Paybill.
Import Regex Categorizer DetailsSpec EntitySpec.
#[local] Arguments Py.chr_eqb : simpl never.
#[local] Arguments Py.isspace : simpl never.

Lemma paybill_pattern_eq :
  paybill_pattern = Seq (Group 1 (Star false dot)) (Alt acc_branch Eol).
Proof. reflexivity. Qed.

Lemma business_payment_pattern_eq :
  business_payment_pattern = Seq (Group 1 (Star false dot)) (Alt via_branch Eol).
Proof. reflexivity. Qed.

Lemma contains_false_tail kw (u1 u2 : list ascii) :
  Py.contains kw (text (u1 ++ u2)) = false → Py.contains kw (text u2) = false.
Proof.
  induction u1 as [|x u1 IH]; [done|]. simpl.
  intros [_ H]%orb_false_iff. by apply IH.
Qed.

Lemma acc_branch_fails pre u caps :
  Py.contains "Acc." (text u) = false →
  exec acc_branch accept (Cursor pre u) caps = None.
Proof.
  intros H. unfold acc_branch. cbn [seq]. apply exec_plus_fails.
  intros pre' u1 u2 ->. apply exec_lit_fails. by apply (contains_false_suffix _ u1).
Qed.

Lemma via_branch_fails pre u caps :
  Py.contains "via" (Py.lower (text u)) = false →
  exec via_branch accept (Cursor pre u) caps = None.
Proof.
  intros H. unfold via_branch. cbn [seq]. apply exec_plus_fails.
  intros pre' u1 u2 ->. apply exec_lit_nocase_fails.
  rewrite lower_text_app in H.
  apply contains_false_suffix in H. by rewrite text_chars in H.
Qed.

Lemma at_end_line u : u ≠ [] → forallb dot u = true → at_end u = false.
Proof.
  destruct u as [|x [|y u]]; [done| |done]. intros _. simpl.
  rewrite andb_true_r. unfold dot. by intros ->%negb_true_iff.
Qed.

(** A pattern of this shape, on one line in which the first branch fails
    everywhere, gives the whole line as group 1 and no group 2. *)
Lemma whole_line_is_group1 (R : regex) (s : string) :
  forallb dot (chars s) = true →
  (∀ pre u caps, (∃ u1, chars s = u1 ++ u) → exec R accept (Cursor pre u) caps = None) →
  search (Seq (Group 1 (Star false dot)) (Alt R Eol)) s = Some [ (1, s) ].
Proof.
  intros Hdot HR. apply search_first.
  rewrite <- (app_nil_r (chars s)).
  rewrite (exec_lazy_group1 R [] (chars s) [] [ (1, s) ]); [done|done| |].
  - intros g1 g2 Hs Hne. rewrite exec_Alt, HR.
    2: { exists g1. by rewrite app_nil_r. }
    cbn [orelse]. rewrite exec_Eol, app_nil_r, at_end_line; [done|done|].
    rewrite Hs in Hdot. by apply no_line_feed_app in Hdot as [_ ?].
  - rewrite exec_Alt, HR by (exists (chars s); by rewrite app_nil_r).
    cbn [orelse]. rewrite exec_Eol. simpl. by rewrite text_chars.
Qed.

Lemma stripped_group_strip n m s :
  group n m = Some s → stripped_group n m = Py.strip s.
Proof. unfold stripped_group. intros ->. by destruct s. Qed.

Lemma extract_paybill_details_plain entity :
  no_line_feed entity → Py.contains "Acc." entity = false →
  extract_paybill_details entity = (Py.strip entity, "").
Proof.
  intros Hl Hc. unfold extract_paybill_details.
  destruct (Py.str_eqb entity "") eqn:E; [by apply str_eqb_eq in E as ->|].
  rewrite paybill_pattern_eq, whole_line_is_group1; [done| |].
  - by apply no_line_feed_dot.
  - intros pre u caps [u1 Hu]. apply acc_branch_fails.
    rewrite <- (text_chars entity), Hu in Hc. by apply contains_false_tail in Hc.
Qed.

Lemma process_business_and_account_plain entity :
  no_line_feed entity → Py.contains "via" (Py.lower entity) = false →
  process_business_and_account entity = (Py.strip entity, "").
Proof.
  intros Hl Hc. unfold process_business_and_account.
  destruct (Py.str_eqb entity "") eqn:E; [by apply str_eqb_eq in E as ->|].
  rewrite business_payment_pattern_eq, whole_line_is_group1.
  - by rewrite (stripped_group_strip 1 _ entity).
  - by apply no_line_feed_dot.
  - intros pre u caps [u1 Hu]. apply via_branch_fails.
    rewrite <- (text_chars entity), Hu, lower_text_app in Hc.
    apply contains_false_tail in Hc. by rewrite text_chars in Hc.
Qed.

Lemma startswith_through_space (b : list ascii) kw x :
  Py.startswith (text b) kw = false → Py.contains " " kw = false →
  Py.startswith (text (b ++ Py.space :: x)) kw = false.
Proof.
  revert b. induction kw as [|k kw IH]; intros b Hs Hn.
  - by rewrite startswith_empty in Hs.
  - apply no_space_cons in Hn as [Hk Hn]. destruct b as [|c b].
    + simpl. by rewrite Hk.
    + simpl in *. destruct (Py.chr_eqb k c); [|done]. simpl in *. by apply IH.
Qed.

Lemma ends_in_text_tail c g : g ≠ [] → ends_in_text (c :: g) → ends_in_text g.
Proof.
  intros Hne. unfold ends_in_text. destruct g as [|y g]; [done|].
  by rewrite last_cons_cons.
Qed.

Lemma acc_inside_fails (R : regex) (k : cont) caps pre g2 w x :
  g2 ≠ [] → ends_in_text g2 → Py.contains "Acc." (text (g2 ++ w)) = false →
  star_greedy ws (exec (Seq (lit "Acc.") R) k) caps pre (g2 ++ w ++ Py.space :: x) = None.
Proof.
  revert pre. induction g2 as [|c g2 IH]; intros pre Hne Hend Hc; [done|].
  assert (exec (Seq (lit "Acc.") R) k (Cursor pre ((c :: g2) ++ w ++ Py.space :: x)) caps = None)
    as HK.
  { apply exec_lit_fails. rewrite app_assoc. apply startswith_through_space; [|done].
    by apply (contains_false_suffix _ []). }
  change ((c :: g2) ++ w ++ Py.space :: x) with (c :: (g2 ++ w ++ Py.space :: x)) in *.
  cbn [star_greedy]. rewrite HK.
  destruct (ws c) eqn:Hws; [|done].
  destruct g2 as [|c' g2].
  { unfold ends_in_text in Hend. simpl in Hend. unfold ws in Hws. congruence. }
  rewrite IH; [done|done| |].
  - by apply (ends_in_text_tail c).
  - by apply (contains_false_tail _ [c]).
Qed.

Lemma acc_branch_fails_inside pre caps g2 w x :
  g2 ≠ [] → ends_in_text g2 → Py.contains "Acc." (text (g2 ++ w)) = false →
  exec acc_branch accept (Cursor pre (g2 ++ w ++ Py.space :: x)) caps = None.
Proof.
  intros Hne Hend Hc. unfold acc_branch, plus. cbn [seq exec after before].
  destruct g2 as [|c g2]; [done|].
  change ((c :: g2) ++ w ++ Py.space :: x) with (c :: (g2 ++ w ++ Py.space :: x)).
  cbv iota. destruct (ws c) eqn:Hws; [|done].
  destruct g2 as [|c' g2].
  { unfold ends_in_text in Hend. simpl in Hend. unfold ws in Hws. congruence. }
  apply (acc_inside_fails (Seq (Seq (Chr ws) (Star true ws)) (Group 2 (Star true dot)))).
  - done.
  - by apply (ends_in_text_tail c).
  - by apply (contains_false_tail _ [c]).
Qed.

Lemma exec_plus_ws_run (R : regex) (k : cont) caps pre r u m :
  r ≠ [] → all_space r = true →
  exec R k (Cursor (rev r ++ pre) u) caps = Some m →
  match u with y :: _ => Py.isspace y = false | [] => True end →
  exec (Seq (plus ws) R) k (Cursor pre (r ++ u)) caps = Some m.
Proof.
  intros Hne Hr HK Hu. destruct r as [|x r]; [done|].
  simpl in Hr. apply andb_true_iff in Hr as [Hx Hr].
  apply (exec_plus_run ws R k caps pre x r u m); try done.
  by rewrite rev_cons_app in HK.
Qed.

Lemma all_space_snoc w : all_space w = true → all_space (w ++ [Py.space]) = true.
Proof. unfold all_space. intros H. by rewrite forallb_app, H. Qed.

Lemma acc_branch_matches pre caps w (account : string) :
  all_space w = true →
  ∃ a, exec acc_branch accept (Cursor pre (w ++ chars " Acc. " ++ chars account)) caps =
         Some ((2, text (line a)) :: caps) ∧
       (∃ w3, chars account = w3 ++ a ∧ all_space w3 = true).
Proof.
  intros Hw. destruct (leading_run (chars account)) as (w3 & a & Ha & Hw3 & Hhead).
  exists a. split; [|by exists w3].
  unfold acc_branch. cbn [seq].
  change (chars " Acc. " ++ chars account)
    with ([Py.space] ++ chars "Acc." ++ Py.space :: chars account).
  rewrite app_assoc.
  apply exec_plus_ws_run.
  - by destruct w.
  - by apply all_space_snoc.
  - rewrite exec_lit_matches, Ha.
    change (Py.space :: w3 ++ a) with ((Py.space :: w3) ++ a).
    apply exec_plus_ws_run; [done| |apply exec_group2|done].
    simpl. by rewrite Hw3.
  - done.
Qed.

Lemma extract_paybill_details_acc business account :
  no_line_feed (business +:+ " Acc. " +:+ account) →
  Py.contains "Acc." business = false →
  extract_paybill_details (business +:+ " Acc. " +:+ account) =
    (Py.strip business, Py.strip account).
Proof.
  intros Hl Hc. unfold extract_paybill_details.
  assert (Py.str_eqb (business +:+ " Acc. " +:+ account) "" = false) as ->.
  { apply str_eqb_neq. intros H. apply (f_equal String.length) in H.
    rewrite !length_append in H. simpl in H. lia. }
  apply no_line_feed_dot in Hl. rewrite !chars_append in Hl.
  destruct (trailing_run (chars business)) as (g & w & Hb & Hw & Hg).
  rewrite Hb in Hl. rewrite <- !app_assoc in Hl.
  apply no_line_feed_app in Hl as [Hg_dot Hl].
  apply no_line_feed_app in Hl as [Hw_dot Hl].
  apply no_line_feed_app in Hl as [_ Ha_dot].
  destruct (acc_branch_matches (rev g) [ (1, text g) ] w account Hw)
    as (a & Hexec & w3 & Ha & Hw3).
  rewrite (search_first _ _ [ (2, text (line a)); (1, text g) ]).
  - assert (line a = a) as ->.
    { apply line_all. rewrite Ha in Ha_dot. by apply no_line_feed_app in Ha_dot as [_ ?]. }
    unfold Cleaner.group_or_empty. cbn [group Nat.eqb].
    rewrite (stripped_group_strip 2 _ (text a)) by done.
    f_equal.
    + rewrite <- (text_chars business), Hb. symmetry. by apply strip_trailing_run.
    + rewrite <- (text_chars account), Ha. symmetry. by apply strip_leading_run.
  - rewrite paybill_pattern_eq, !chars_append, Hb, <- !app_assoc.
    assert (rev g = rev g ++ []) as Hrev by (by rewrite app_nil_r).
    rewrite Hrev in Hexec.
    apply exec_lazy_group1; [done| |].
    + intros g1 g2 -> Hne. rewrite exec_Alt.
      change (chars " Acc. " ++ chars account)
        with (Py.space :: (chars "Acc. " ++ chars account)).
      rewrite acc_branch_fails_inside; [| done | |].
      * cbn [orelse]. rewrite exec_Eol.
        destruct g2 as [|c g2]; [done|]. simpl.
        by destruct g2; [destruct w|].
      * unfold ends_in_text in *. rewrite last_app in Hg.
        destruct (last g2) eqn:E; [done|]. by apply last_None in E.
      * rewrite <- (text_chars business), Hb, <- app_assoc in Hc.
        by apply contains_false_tail in Hc.
    + rewrite exec_Alt, Hexec. done.
Qed.

(** extract_paybill_details cuts a pay-bill entity at its account marker:
    an entity made of a business name, the marker Acc. between spaces and
    an account gives the stripped name and the stripped account, and an
    entity without the marker gives its stripped text and no account. The
    entity is one line and the name does not contain the marker. *)
Theorem extract_paybill_details_cuts_at_marker (business account entity : string) :
  (no_line_feed (business +:+ " Acc. " +:+ account) →
   Py.contains "Acc." business = false →
   extract_paybill_details (business +:+ " Acc. " +:+ account) =
     (Py.strip business, Py.strip account)) ∧
  (no_line_feed entity → Py.contains "Acc." entity = false →
   extract_paybill_details entity = (Py.strip entity, "")).
Proof.
  split; [apply extract_paybill_details_acc | apply extract_paybill_details_plain].
Qed.

(** A business entity without the word via, in any case, passes through
    process_business_and_account with its surrounding whitespace removed
    and no extra information; for a record of a money-transfer category
    whose entity is such a name and does not look like a phone number, the
    processed entity is the stripped entity and the account number is
    empty. *)
Theorem process_business_without_via (t : CategorizedTransaction) (category_name : string) :
  no_line_feed (entity t) → Py.contains "via" (Py.lower (entity t)) = false →
  process_business_and_account (entity t) = (Py.strip (entity t), "") ∧
  (Py.mem category_name money_transfer_cats = true → looks_like_phone (entity t) = false →
   processed_entity (_process_entity t category_name) = Py.strip (entity t) ∧
   account_no (_process_entity t category_name) = Some "").
Proof.
  intros Hl Hc.
  pose proof (process_business_and_account_plain (entity t) Hl Hc) as H.
  split; [done|]. intros Hm Hp. unfold _process_entity. by rewrite Hm, Hp, H.
Qed.

End Paybill.

(** ** app.py: the analysis loop *)

Section AnalysisLoop.
Import Categorizer Analyzer App.

Lemma metadata_fold (defs : list CategoryDefinition) (m : gmap string CategoryDefinition) c :
  fold_left (fun m cat_def => <[name cat_def := cat_def]> m) defs m !! c =
    match last (List.filter (fun d => Py.str_eqb (name d) c) defs) with
    | Some d => Some d
    | None => m !! c
    end.
Proof.
  revert m. induction defs as [|d defs IH]; intros m; [done|].
  cbn [fold_left List.filter]. rewrite IH.
  destruct (Py.str_eqb (name d) c) eqn:E.
  - apply str_eqb_eq in E.
    destruct (List.filter _ defs) as [|d' l] eqn:El.
    + simpl. rewrite <- E. by rewrite lookup_insert_eq.
    + rewrite last_cons_cons. destruct (last (d' :: l)) eqn:E'; [done|].
      by apply last_None in E'.
  - apply str_eqb_neq in E.
    destruct (last (List.filter _ defs)); [done|]. by rewrite lookup_insert_ne.
Qed.

Lemma filter_name_nil (defs : list CategoryDefinition) c :
  c ∉ map name defs → List.filter (fun d => Py.str_eqb (name d) c) defs = [].
Proof.
  induction defs as [|d defs IH]; [done|]. intros Hc. simpl in *.
  apply not_elem_of_cons in Hc as [Hne Hc].
  assert (Py.str_eqb (name d) c = false) as -> by (by apply str_eqb_neq).
  by apply IH.
Qed.

(** The direction of each analysis comes from the colour map of the
    category, taken from the last definition of that name with the custom
    definitions after the loaded ones: Greens in any case means money in,
    anything else money out. A category that no definition names, such as
    NoDetails, is analysed as money out. Every category of the filtered
    data but uncategorized gets a result, and uncategorized gets none. *)
Theorem analysis_direction_follows_colour (category_config custom : list CategoryDefinition)
    (filtered_categorized_data : gmap string Frame) (category_name : string) :
  let metadata := category_metadata category_config custom in
  let results := analysis_results metadata filtered_categorized_data in
  metadata !! category_name =
    last (List.filter (fun d => Py.str_eqb (name d) category_name)
            (category_config ++ custom)) ∧
  (category_name ∉ map name (category_config ++ custom) →
   money_in_by_colour metadata category_name = false) ∧
  results !! "uncategorized" = None ∧
  (category_name ≠ "uncategorized" →
   results !! category_name =
     (fun _ => analyze_category filtered_categorized_data category_name
                 (money_in_by_colour metadata category_name))
       <$> filtered_categorized_data !! category_name).
Proof.
  cbv zeta.
  assert (category_metadata category_config custom !! category_name =
          last (List.filter (fun d => Py.str_eqb (name d) category_name)
                  (category_config ++ custom))) as Hm.
  { unfold category_metadata. rewrite metadata_fold, lookup_empty.
    by destruct (last _). }
  split; [done|]. split; [|split].
  - intros Hc. unfold money_in_by_colour. by rewrite Hm, filter_name_nil.
  - unfold analysis_results. rewrite map_lookup_imap.
    by destruct (filtered_categorized_data !! "uncategorized").
  - intros Hne. unfold analysis_results. rewrite map_lookup_imap.
    destruct (filtered_categorized_data !! category_name); [|done]. simpl.
    by assert (Py.str_eqb category_name "uncategorized" = false) as ->
      by (by apply str_eqb_neq).
Qed.

End AnalysisLoop.

(** ** Instances on concrete inputs: cleaning *)

Section CleaningExamples.
Import Cleaner CleanerSpec TableSpec TextSpec Samples.

Lemma three_rows_well_formed : well_formed three_rows.
Proof. repeat constructor. Defined.

Lemma three_rows_clean :
  clean_data Demo.to_numeric Demo.to_datetime (Some three_rows) = Ok three_rows_cleaned.
Proof. vm_compute. reflexivity. Defined.

Lemma clean_data_keeps_dated_rows_witness :
  well_formed three_rows ∧
  clean_data Demo.to_numeric Demo.to_datetime (Some three_rows) = Ok three_rows_cleaned ∧
  ∃ times,
    get "completiontime" (standardize_labels (drop_duplicate_columns three_rows)) = Ok times ∧
    map completiontime three_rows_cleaned =
      map (fun c => Demo.to_datetime (astype_str c)) (present times) ∧
    length three_rows_cleaned = length (present times).
Proof.
  split; [exact three_rows_well_formed|]. split; [exact three_rows_clean|].
  exact (clean_data_keeps_dated_rows Demo.to_numeric Demo.to_datetime
           three_rows three_rows_cleaned three_rows_well_formed three_rows_clean).
Defined.

Lemma clean_data_returns_a_dated_row_witness :
  well_formed three_rows ∧
  clean_data Demo.to_numeric Demo.to_datetime (Some three_rows) = Ok three_rows_cleaned ∧
  ∃ t time, t ∈ three_rows_cleaned ∧ completiontime t = Some time.
Proof.
  split; [exact three_rows_well_formed|]. split; [exact three_rows_clean|].
  exact (clean_data_returns_a_dated_row Demo.to_numeric Demo.to_datetime
           three_rows three_rows_cleaned three_rows_well_formed three_rows_clean).
Defined.

Lemma clean_data_row_fields_witness :
  let t := mkTransaction None None "Customer Transfer Of Funds Charge"
             0 33 "Customer Transfer Of Funds Charge" "Customer Transfer Of Funds Charge"
             "Customer Transfer Of Funds" "Charge" in
  clean_data Demo.to_numeric Demo.to_datetime (Some three_rows) = Ok three_rows_cleaned ∧
  t ∈ three_rows_cleaned ∧
  (∃ c, details t = clean_details c) ∧
  single_spaced (details t) = true ∧
  Py.title (details t) = details t ∧
  split_details (details t) = (type t, entity t) ∧
  split_type (type t) = (type_class t, type_desc t).
Proof.
  cbv zeta. split; [exact three_rows_clean|].
  assert (mkTransaction None None "Customer Transfer Of Funds Charge"
             0 33 "Customer Transfer Of Funds Charge" "Customer Transfer Of Funds Charge"
             "Customer Transfer Of Funds" "Charge" ∈ three_rows_cleaned) as Hin
    by (right; left).
  split; [exact Hin|].
  exact (clean_data_row_fields Demo.to_numeric Demo.to_datetime
           (Some three_rows) three_rows_cleaned _ three_rows_clean Hin).
Defined.

Lemma clean_data_missing_column_witness :
  empty without_receipts = false ∧ has_expected_cols without_receipts = true ∧
  NoDup (map standardized (labels without_receipts)) ∧
  required_columns = [ "completiontime" ] ++ "receiptno" :: [ "withdrawn"; "paidin" ] ∧
  clean_data Demo.to_numeric Demo.to_datetime (Some without_receipts) =
    Raise (KeyError "receiptno").
Proof.
  assert (NoDup (map standardized (labels without_receipts))) as Hnd.
  { apply (bool_decide_unpack _). vm_compute. reflexivity. }
  split; [reflexivity|]. split; [reflexivity|]. split; [exact Hnd|]. split; [reflexivity|].
  apply (clean_data_missing_column Demo.to_numeric Demo.to_datetime without_receipts
           [ "completiontime" ] [ "withdrawn"; "paidin" ] "receiptno").
  - reflexivity.
  - reflexivity.
  - exact Hnd.
  - apply (bool_decide_unpack _). vm_compute. reflexivity.
  - apply (bool_decide_unpack _). vm_compute. reflexivity.
  - reflexivity.
  - constructor; [|constructor]. apply (bool_decide_unpack _). vm_compute. reflexivity.
  - apply (bool_decide_unpack _). vm_compute. reflexivity.
Defined.

Lemma clean_data_without_dates_or_details_witness :
  clean_data Demo.to_numeric Demo.to_datetime (Some without_dates) =
    Raise (ValueError "NaTType does not support strftime") ∧
  clean_data Demo.to_numeric Demo.to_datetime (Some without_details) =
    Raise (KeyError "details").
Proof.
  split.
  - apply (clean_data_without_dates_or_details Demo.to_numeric Demo.to_datetime
             without_dates [CStr "yesterday"]).
    + reflexivity.
    + reflexivity.
    + apply (bool_decide_unpack _). vm_compute. reflexivity.
    + apply (bool_decide_unpack _). vm_compute. reflexivity.
    + apply (bool_decide_unpack _). vm_compute. reflexivity.
    + apply (bool_decide_unpack _). vm_compute. reflexivity.
    + reflexivity.
    + constructor; [reflexivity | constructor].
  - apply (clean_data_without_dates_or_details Demo.to_numeric Demo.to_datetime
             without_details [CStr "2025-01-01 10:00:00"]).
    + reflexivity.
    + reflexivity.
    + apply (bool_decide_unpack _). vm_compute. reflexivity.
    + apply (bool_decide_unpack _). vm_compute. reflexivity.
    + apply (bool_decide_unpack _). vm_compute. reflexivity.
    + apply (bool_decide_unpack _). vm_compute. reflexivity.
    + reflexivity.
    + constructor. by eexists.
    + apply (bool_decide_unpack _). vm_compute. reflexivity.
Defined.

Lemma detection_after_standardization_witness :
  has_expected_cols
    (standardize_labels
       (mkDataFrame 1 [ ("Details", [CStr "Pay Bill to 12345 - NETFLIX"]) ])) = true.
Proof.
  apply detection_after_standardization. exists "Details". split.
  - repeat constructor.
  - apply (bool_decide_unpack _). vm_compute. reflexivity.
Defined.

End CleaningExamples.

(** ** Instances on concrete inputs: categorization, analysis and the app *)

Section Witnesses.
Import Cleaner Categorizer Analyzer App.
Import CleanerSpec CategorizerSpec AnalyzerSpec KeywordSpec FormSpec Samples Cases.

Lemma matches_every_named_field_witness :
  Forall (fun item => fst item ∉ field_names) (patterns by_amount) ∧
  matches Demo.netflix_row by_amount = true.
Proof.
  assert (Forall (fun item => fst item ∉ field_names) (patterns by_amount)) as H.
  { constructor; [|constructor]. apply (bool_decide_unpack _). vm_compute. reflexivity. }
  split; [exact H|].
  exact (proj1 (proj2 (proj2 (matches_every_named_field Demo.netflix_row by_amount))) H).
Defined.

Lemma capitalised_keywords_never_match_witness :
  (∀ v, _matches_field_pattern (Py.lower v) (Demo.contains_only [ "Netflix" ]) = false) ∧
  matches Demo.netflix_row capitalised = false.
Proof.
  apply (capitalised_keywords_never_match Demo.netflix_row capitalised "entity"
           (Demo.contains_only [ "Netflix" ])).
  - left.
  - apply (bool_decide_unpack _). vm_compute. reflexivity.
  - reflexivity.
  - reflexivity.
Defined.

Lemma process_entity_writes_two_fields_witness :
  _process_entity shop "Utilities" = shop ∧
  is_Some (account_no (_process_entity shop "PayBillPayments")).
Proof.
  split.
  - apply (proj1 (proj2 (process_entity_writes_two_fields shop "Utilities"))).
    apply (bool_decide_unpack _). vm_compute. reflexivity.
  - apply (proj2 (proj2 (proj2 (process_entity_writes_two_fields shop "PayBillPayments")))).
    apply (bool_decide_unpack _). vm_compute. reflexivity.
Defined.

Lemma no_details_after_cleaning_witness :
  Cleaner.details nan_row = clean_details CNaN ∧
  categorize_transaction [ Demo.my_bill ] nan_row =
    [ set_category "NoDetails" (base_transaction_data nan_row) ].
Proof.
  split; [reflexivity|].
  apply (proj1 (proj2 (no_details_after_cleaning CNaN nan_row [ Demo.my_bill ] eq_refl))).
  right. reflexivity.
Defined.

Lemma categorization_loses_no_row_witness :
  ∃ c records r,
    categorize_with_new_categorizer [ Demo.my_bill ] None three_rows_cleaned !! c =
      Some records ∧
    r ∈ records ∧
    of_row (mkTransaction None None "Customer Transfer Of Funds Charge"
              0 33 "Customer Transfer Of Funds Charge" "Customer Transfer Of Funds Charge"
              "Customer Transfer Of Funds" "Charge") r.
Proof.
  apply (proj1 (categorization_loses_no_row [ Demo.my_bill ] None three_rows_cleaned)).
  right. left.
Defined.

Lemma custom_categories_leave_others_alone_witness :
  categorize_with_new_categorizer [ Demo.my_bill ] (Some [ capitalised ]) three_rows_cleaned
    !! "MyBill" =
  categorize_with_new_categorizer [ Demo.my_bill ] None three_rows_cleaned !! "MyBill".
Proof.
  apply (proj1 (custom_categories_leave_others_alone [ Demo.my_bill ] [ capitalised ]
                  three_rows_cleaned)).
  - apply (bool_decide_unpack _). vm_compute. reflexivity.
  - discriminate.
Defined.

Lemma aggregated_frame_adds_up_witness :
  sum_list (map count (aggregated_frame (analyze_category first_days "Send Money" false))) =
    count_non_null
      (map receiptno
         (principal_rows
            (mkFrame true
               [ timed "r1" (Some 1735689600%Z); timed "r2" (Some 1735776000%Z);
                 timed "r3" (Some 1735776001%Z); timed "r4" None ]))).
Proof.
  apply (proj2 (proj2 (aggregated_frame_adds_up first_days "Send Money" false))).
  vm_compute. reflexivity.
Defined.

Lemma named_money_in_analyses_witness :
  analyze_deposits deposits = analyze_category deposits "Deposit" true.
Proof.
  pose proof (named_money_in_analyses deposits) as H. cbv beta zeta in H.
  destruct H as [_ (_ & _ & _ & H)].
  apply (H (mkFrame false
              [ mkCategorized (Some "d1") (Some 1735689600%Z) "Deposit Of Funds At Agent"
                  500 0 "AGENT 1" "Deposit Of Funds At" "Agent" "AGENT 1" false
                  (Some "Deposit") None None ])).
  - vm_compute. reflexivity.
  - left. reflexivity.
Defined.

Lemma date_filter_ends_at_midnight_witness :
  ∃ filtered_df,
    filter_categorized_data january first_days [ new_year; second_day ] []
      !! "Send Money" = Some filtered_df ∧
    rows filtered_df = [ timed "r1" (Some 1735689600%Z); timed "r2" (Some 1735776000%Z) ].
Proof.
  assert (first_days !! "Send Money" =
          Some (mkFrame true
                  [ timed "r1" (Some 1735689600%Z); timed "r2" (Some 1735776000%Z);
                    timed "r3" (Some 1735776001%Z); timed "r4" None ])) as Hdf.
  { vm_compute. reflexivity. }
  destruct (date_filter_ends_at_midnight january first_days new_year second_day []
              "Send Money" _ Hdf) as (filtered_df & Hf & _ & Hr & _).
  exists filtered_df. split; [exact Hf|]. rewrite Hr. vm_compute. reflexivity.
Defined.

Lemma filter_categorized_data_only_removes_witness :
  filter_categorized_data january first_days [] [] = first_days.
Proof.
  apply (proj1 (proj2 (proj2 (filter_categorized_data_only_removes january first_days
                                [] [])))); reflexivity.
Defined.

Lemma money_out_figures_nonneg_witness :
  clean_data Demo.to_numeric Demo.to_datetime (Some three_rows) = Ok three_rows_cleaned ∧
  let res :=
    analyze_category
      (filter_categorized_data january
         (frame_of <$> categorize_with_new_categorizer [ Demo.my_bill ] None
                         three_rows_cleaned)
         [ new_year; second_day ] [])
      "MyBill" false in
  (0 <= total_amount res)%Q ∧ (0 <= total_charges res)%Q ∧
  Forall (fun g => (0 <= amount g)%Q) (aggregated_frame res).
Proof.
  split; [exact three_rows_clean|].
  exact (money_out_figures_nonneg Demo.to_numeric Demo.to_datetime january
           (Some three_rows) three_rows_cleaned [ Demo.my_bill ] None
           [ new_year; second_day ] [] "MyBill" three_rows_clean).
Defined.

Lemma handle_user_category_appends_new_names_witness :
  let outcome :=
    handle_user_category one_custom "Rent" "Housing" "" "Landlord" "Reds"
      "details" "contains" "rent, Landlord" false "entity" "contains" "" true in
  NoDup (map name (custom_categories (fst outcome))) ∧
  map name (custom_categories (fst outcome)) = [ "Streaming"; "Rent" ] ∧
  categorized_data (fst outcome) = None.
Proof.
  cbv zeta.
  pose proof (handle_user_category_appends_new_names one_custom "Rent" "Housing" ""
                "Landlord" "Reds" "details" "contains" "rent, Landlord" false
                "entity" "contains" "" true) as H.
  cbv zeta in H. destruct H as (Hnd & _ & Hadd).
  split; [|split].
  - apply Hnd. apply (bool_decide_unpack _). vm_compute. reflexivity.
  - destruct (Hadd eq_refl) as (_ & _ & _ & _ & _ & Hc & _). rewrite Hc.
    vm_compute. reflexivity.
  - destruct (Hadd eq_refl) as (_ & _ & _ & _ & _ & _ & Hd & _). exact Hd.
Defined.

Lemma form_categories_that_never_match_witness :
  matches Demo.netflix_row
    (described_category "Streaming" "Leisure" "" "Merchant" "Blues"
       "entity" "equals" "netflix, showmax" false "details" "contains" "") = false ∧
  matches Demo.netflix_row
    (described_category "Streaming" "Leisure" "" "Merchant" "Blues"
       "details" "contains" "pay bill" true "entity" "contains" "Netflix") = false.
Proof.
  split.
  - apply (proj1 (form_categories_that_never_match "Streaming" "Leisure" "" "Merchant"
                    "Blues" "entity" "equals" "netflix, showmax" false
                    "details" "contains" "" Demo.netflix_row)).
    + apply (bool_decide_unpack _). vm_compute. reflexivity.
    + reflexivity.
    + vm_compute. lia.
    + reflexivity.
  - apply (proj2 (form_categories_that_never_match "Streaming" "Leisure" "" "Merchant"
                    "Blues" "details" "contains" "pay bill" true
                    "entity" "contains" "Netflix" Demo.netflix_row)).
    + apply (bool_decide_unpack _). vm_compute. reflexivity.
    + apply (bool_decide_unpack _). vm_compute. reflexivity.
    + reflexivity.
    + discriminate.
    + reflexivity.
Defined.

Lemma extract_paybill_details_cuts_at_marker_witness :
  extract_paybill_details ("KPLC PREPAID" +:+ " Acc. " +:+ "1234 567 ") =
    (Py.strip "KPLC PREPAID", Py.strip "1234 567 ") ∧
  extract_paybill_details "ZUKU FIBER" = (Py.strip "ZUKU FIBER", "").
Proof.
  destruct (extract_paybill_details_cuts_at_marker "KPLC PREPAID" "1234 567 " "ZUKU FIBER")
    as [Hacc Hplain].
  split; [apply Hacc | apply Hplain]; vm_compute; reflexivity.
Defined.

Lemma process_business_without_via_witness :
  process_business_and_account (entity shop) = (Py.strip (entity shop), "") ∧
  processed_entity (_process_entity shop "Send Money") = Py.strip (entity shop) ∧
  account_no (_process_entity shop "Send Money") = Some "".
Proof.
  assert (DetailsSpec.no_line_feed (entity shop)) as Hl by (vm_compute; reflexivity).
  assert (Py.contains "via" (Py.lower (entity shop)) = false) as Hv by reflexivity.
  destruct (process_business_without_via shop "Send Money" Hl Hv) as [Hb Hp].
  split; [exact Hb|]. apply Hp; reflexivity.
Defined.

Lemma analysis_direction_follows_colour_witness :
  money_in_by_colour (category_metadata [ Demo.my_bill ] [ capitalised ]) "NoDetails" = false.
Proof.
  apply (proj1 (proj2 (analysis_direction_follows_colour [ Demo.my_bill ] [ capitalised ]
                         first_days "NoDetails"))).
  apply (bool_decide_unpack _). vm_compute. reflexivity.
Defined.

End Witnesses.
